(** * web/signature_manager.js: the add-signature dialog and the
      description editor, as state machines

    The two classes of [web/signature_manager.js] are embedded as two
    modules, [SignatureManager] and [EditDescriptionDialog].  Private
    fields ([this.#x]) and the properties of the DOM elements the
    classes read or write become fields of one state record; every
    method and every event listener becomes a computation in a small
    state-and-exception monad, so that a [TypeError] raised by a
    dereference of [null] stops the listener and leaves the writes done
    so far in place, as in JavaScript.

    Conventions of the embedding:
    - a nullable reference is an [option]; truthiness tests ([!value],
      [if (uuid)]) are written out by [truthy_string] and [is_Some];
    - numbers that reach the model are integers ([Z]) once they went
      through [Math.round], and rationals ([Q]) when they come from the
      layout ([getBoundingClientRect], [offsetX]);
    - a template literal is kept as the list of its pieces ([template]):
      literal text, integers, and quotients [n / d] whose decimal
      rendering ([Number::toString] of a double) is left symbolic;
    - arrays that are aliased ([#drawPoints] and the [points] of the last
      curve) live in a store of arrays and are named by their index;
    - calls to collaborators (host editor, storage, overlay manager,
      console, l10n) are appended to a log; what an awaited collaborator
      answers is an argument of the method or event that awaits it;
    - an [async] method stops at each [await], and other listeners can
      run before it resumes.  [#extractSignature], [#add] and
      [loadSignatures] are written in the stretches between their
      [await]s; the method under its own name is the schedule in which
      every awaited promise is settled before anything else runs.  The continuation of an extraction and
      the [then] callback of the l10n lookup are events of their own.

    The loading of the stored signatures into the toolbar
    ([loadSignatures], [#signaturesChanged]) needs two more fields of
    the manager and is modelled on a record of its own, [Manager],
    around the state of the dialog.

    Left out: the listeners of a launcher of the toolbar (its click and
    the click on its delete button), [renderEditButton] and the
    [contextmenu] listeners; they write none of the fields below.
    Calls that only act on the event or on the pointer capture
    ([preventDefault], [stopEvent], [setPointerCapture]) are not
    logged. *)

From stdpp Require Import base option list strings gmap fin_maps functions.
From Stdlib Require Import ZArith QArith Qround Lia.

Set Default Proof Using "Type".
Local Open Scope string_scope.
Local Open Scope Z_scope.
Local Open Scope list_scope.

(** ** JavaScript values the model needs *)

(** Truthiness of a reference: [null] and [undefined] are falsy. *)
Definition truthy {A : Type} (o : option A) : bool :=
  match o with Some _ => true | None => false end.

(** [!value] on a string: only the empty string is falsy. *)
Definition truthy_string (s : string) : bool :=
  negb (bool_decide (s = "")).

(** [Math.round]: the nearest integer, ties towards +infinity. *)
Definition Math_round (q : Q) : Z :=
  Qfloor (q + (1 # 2))%Q.

(** [x < q] and [x > q] for an integer [x] and a layout number [q]. *)
Definition Z_gt_Q (x : Z) (q : Q) : bool :=
  negb (Qle_bool (inject_Z x) q).

(** [array.at(-k)] for [k >= 1]: [undefined] ([None]) when the array is
    shorter than [k]. *)
Definition array_at_neg {A : Type} (l : list A) (k : nat) : option A :=
  if decide (k ≤ length l)%nat then l !! (length l - k)%nat else None.

(** [array.slice(-k)]: the last [k] elements, or the whole array when it
    is shorter. *)
Definition array_slice_neg {A : Type} (l : list A) (k : nat) : list A :=
  drop (length l - k) l.

(** The pieces of a template literal. *)
Inductive piece : Type :=
| Lit (s : string)
| Num (n : Z)
| Quot (n d : Z).

Definition template : Type := list piece.

#[global] Instance piece_eq_dec : EqDecision piece.
Proof. solve_decision. Defined.

(** Field update: [setter eta proj] abstracts the projection [proj] in
    the body of the eta-expansion [eta] of the record and plugs the new
    value in. *)
Ltac setter eta proj :=
  let body := eval unfold eta in eta in
  let e := eval pattern proj in body in
  lazymatch e with
  | ?g _ =>
    let t := eval cbv beta in (fun v s => g (fun _ => v) s) in exact t
  end.

(** ** Listeners as computations

    A computation over a state [St] returns [None] when it throws; the
    state it returns is then the state at the throw. *)
Definition Comp (St A : Type) : Type := St -> option A * St.

Section Computations.

Context {St : Type}.

Definition ret {A : Type} (a : A) : Comp St A := fun s => (Some a, s).

Definition bind {A B : Type} (m : Comp St A) (k : A -> Comp St B) : Comp St B :=
  fun s => match m s with
           | (Some a, s') => k a s'
           | (None, s') => (None, s')
           end.

(** A [TypeError]. *)
Definition throw {A : Type} : Comp St A := fun s => (None, s).

Definition gets {A : Type} (f : St -> A) : Comp St A := fun s => (Some (f s), s).

Definition modify (f : St -> St) : Comp St unit := fun s => (Some tt, f s).

(** [if (c) { m1 } else { m2 }], and [if (c) { m }] without an [else]. *)
Definition cond {A : Type} (c : bool) (m1 m2 : Comp St A) : Comp St A :=
  fun s => if c then m1 s else m2 s.

Definition when (c : bool) (m : Comp St unit) : Comp St unit :=
  cond c m (ret tt).

(** The state a computation leaves, whether it returned or threw. *)
Definition exec {A : Type} (m : Comp St A) (s : St) : St := snd (m s).

(** Whether a computation threw. *)
Definition threw {A : Type} (m : Comp St A) (s : St) : bool :=
  match fst (m s) with Some _ => false | None => true end.

(** One listener called by the event dispatcher: an exception it raises
    is reported and does not reach the listeners that follow. *)
Definition listener (m : Comp St unit) : Comp St unit :=
  fun s => (Some tt, exec m s).

End Computations.

Notation "x <- m ;; k" := (bind m (fun x => k))
  (at level 100, m at next level, k at level 200, right associativity,
   only parsing).
Notation "m ;; k" := (bind m (fun _ => k))
  (at level 100, k at level 200, right associativity, only parsing).

(** ** The add-signature dialog *)

Module SignatureManager.

(** Default height of the added signature in page coordinates. *)
Definition DEFAULT_HEIGHT_IN_PAGE : Z := 40.

(** The keys of [#tabButtons]. *)
Inductive Tab : Type := type_tab | draw_tab | image_tab.

#[global] Instance Tab_eq_dec : EqDecision Tab.
Proof. solve_decision. Defined.

#[global] Instance Tab_countable : Countable Tab.
Proof.
  refine (inj_countable'
    (λ t, match t with type_tab => 0%nat | draw_tab => 1%nat | image_tab => 2%nat end)
    (λ n, match n with O => type_tab | S O => draw_tab | _ => image_tab end) _).
  by intros [].
Defined.

Definition Tab_eqb (a b : Tab) : bool :=
  match a, b with
  | type_tab, type_tab | draw_tab, draw_tab | image_tab, image_tab => true
  | _, _ => false
  end.

(** [ref === name] for a reference [ref] to a tab name that may be
    [null]. *)
Definition is_tab (ref : option Tab) (name : Tab) : bool :=
  match ref with Some t => Tab_eqb t name | None => false end.

(** [!isNaN(currentPointerId) && currentPointerId !== pointerId] *)
Definition other_pointer (currentPointerId : option Z) (pointerId : Z) : bool :=
  match currentPointerId with
  | Some c => negb (c =? pointerId)
  | None => false
  end.

(** [this.#tabButtons.keys()], in insertion order. *)
Definition tabButtons_keys : list Tab := [type_tab; draw_tab; image_tab].

(** A [File] of the picker or of a drop. *)
Record File : Type := mkFile { file_name : string; file_type : string }.

(** The outline a collaborator hands back: its [viewBox] and the result
    of [toSVGPath()]. *)
Record Outline : Type := mkOutline { viewBox : string; toSVGPath : string }.

(** What [getFromText], [getDrawnSignature] and [getFromImage] return,
    with the fields [#add] and [#extractSignature] destructure. *)
Record SignatureData : Type := mkSignatureData {
  outline : option Outline;
  newCurves : list (list Z);
  areContours : bool;
  thickness : Z;
  width : Q;
  height : Q
}.

(** [#drawCurves.thickness] is [parseInt(value)] when the first stroke
    starts and the raw [value] string after a thickness input. *)
Inductive Thickness : Type :=
| parseInt (value : string)
| raw (value : string).

(** The object held by [#drawCurves]; [curves] holds, per stroke, the
    index in the array store of its [points] array. *)
Record DrawCurves : Type := mkDrawCurves {
  dc_width : Q;
  dc_height : Q;
  dc_thickness : Thickness;
  dc_curves : list nat
}.

(** The [path] element of the draw panel with the two attributes the
    class sets on it. *)
Record PathElement : Type := mkPathElement {
  stroke_width : string;
  attr_d : option template
}.

(** The listeners of one stroke ([pointermove], [pointerup],
    [contextmenu]) close over the bounding box read at [pointerdown]. *)
Record StrokeListeners : Type := mkStrokeListeners {
  drawWidth : Q;
  drawHeight : Q
}.

(** Calls to collaborators, in the order they are made. *)
Inductive Call : Type :=
| removeEditListeners
| addEditListeners
| editor_remove
| overlayManager_open
| overlayManager_close
| storage_isFull
| l10n_get (key : string)
| getFromFile (file : File)
| getFromImage (bitmap : nat)
| getFromText (text : string)
| getDrawnSignature (curves : option DrawCurves) (arrays : list (list Z)) (w h : Q)
| compressSignature (outlines : list (list Z)) (contours : bool) (thick : Z) (w h : Q)
| storage_create (description : string) (signatureData : string)
| processDrawnLines (curves : list (list Z)) (contours : bool) (thick : Z) (w h : Q)
| console_error
| console_warn (message : string)
| addSignature (data : option SignatureData) (heightInPage : Z)
    (description : string) (uuid : option string).

(** A toolbar launcher built by [#addToolbarButton]. *)
Record ToolbarButton : Type := mkToolbarButton {
  tb_uuid : option string;
  tb_title : string
}.

(** The state of one [SignatureManager] together with the part of the
    page it owns. *)
Record State : Type := mkState {
  (* private fields of the class, under their own names *)
  currentTab : option Tab;
  tabsToAltText : option (gmap (option Tab) string);
  hasDescriptionChanged : bool;
  drawCurves : option DrawCurves;
  drawPoints : option nat;
  drawPathString : template;
  drawPath : option PathElement;
  extractedSignatureData : option SignatureData;
  imagePath : option string;
  uiManager : option nat;
  currentEditor : option nat;
  (* properties of the DOM elements handed to the constructor *)
  description_value : string;
  clearDescription_disabled : bool;
  typeInput_value : string;
  addButton_disabled : bool;
  clearButton_disabled : bool;
  saveContainer_disabled : bool;
  saveCheckbox_checked : bool;
  saveContainer_fullStorage : bool;
  drawPlaceholder_hidden : bool;
  drawThickness_value : string;
  drawThickness_l10n_args : option string;
  imagePlaceholder_hidden : bool;
  imageSVG_viewBox : option string;
  imageSVG_paths : list string;
  errorBar_hidden : bool;
  dialog_waiting : bool;
  tabButton_selected : option Tab;
  panels_selected : option Tab;
  (* the store of arrays that [#drawPoints] and [#drawCurves.curves] point into *)
  arrays : list (list Z);
  (* the tab whose listeners are registered on the signal of the live [#currentTabAC]; [None] when it is [null] or aborted *)
  tabListeners : option Tab;
  (* [currentPointerId] of the closure built by [#initDrawTab]; [None] is [NaN] *)
  currentPointerId : option Z;
  (* the listener sets of the strokes not yet released, oldest first *)
  strokeListeners : list StrokeListeners;
  (* l10n lookups whose [then] callback has not run yet *)
  l10n_pending : nat;
  (* [overlayManager.active === this.#dialog] *)
  overlay_active : bool;
  (* the launchers inserted before [#addSignatureToolbarButton] *)
  toolbar : list ToolbarButton;
  (* the log of collaborator calls *)
  calls : list Call
}.

Definition eta_State : State -> State :=
  (fun s : State => mkState
    (currentTab s) (tabsToAltText s) (hasDescriptionChanged s)
    (drawCurves s) (drawPoints s) (drawPathString s) (drawPath s)
    (extractedSignatureData s) (imagePath s) (uiManager s)
    (currentEditor s) (description_value s) (clearDescription_disabled s)
    (typeInput_value s) (addButton_disabled s) (clearButton_disabled s)
    (saveContainer_disabled s) (saveCheckbox_checked s)
    (saveContainer_fullStorage s) (drawPlaceholder_hidden s)
    (drawThickness_value s) (drawThickness_l10n_args s)
    (imagePlaceholder_hidden s) (imageSVG_viewBox s) (imageSVG_paths s)
    (errorBar_hidden s) (dialog_waiting s) (tabButton_selected s)
    (panels_selected s) (arrays s) (tabListeners s) (currentPointerId s)
    (strokeListeners s) (l10n_pending s) (overlay_active s) (toolbar s)
    (calls s)).

Definition set_currentTab : option Tab -> State -> State :=
  ltac:(setter eta_State currentTab).
Definition set_tabsToAltText : option (gmap (option Tab) string) -> State -> State :=
  ltac:(setter eta_State tabsToAltText).
Definition set_hasDescriptionChanged : bool -> State -> State :=
  ltac:(setter eta_State hasDescriptionChanged).
Definition set_drawCurves : option DrawCurves -> State -> State :=
  ltac:(setter eta_State drawCurves).
Definition set_drawPoints : option nat -> State -> State :=
  ltac:(setter eta_State drawPoints).
Definition set_drawPathString : template -> State -> State :=
  ltac:(setter eta_State drawPathString).
Definition set_drawPath : option PathElement -> State -> State :=
  ltac:(setter eta_State drawPath).
Definition set_extractedSignatureData : option SignatureData -> State -> State :=
  ltac:(setter eta_State extractedSignatureData).
Definition set_imagePath : option string -> State -> State :=
  ltac:(setter eta_State imagePath).
Definition set_uiManager : option nat -> State -> State :=
  ltac:(setter eta_State uiManager).
Definition set_currentEditor : option nat -> State -> State :=
  ltac:(setter eta_State currentEditor).
Definition set_description_value : string -> State -> State :=
  ltac:(setter eta_State description_value).
Definition set_clearDescription_disabled : bool -> State -> State :=
  ltac:(setter eta_State clearDescription_disabled).
Definition set_typeInput_value : string -> State -> State :=
  ltac:(setter eta_State typeInput_value).
Definition set_addButton_disabled : bool -> State -> State :=
  ltac:(setter eta_State addButton_disabled).
Definition set_clearButton_disabled : bool -> State -> State :=
  ltac:(setter eta_State clearButton_disabled).
Definition set_saveContainer_disabled : bool -> State -> State :=
  ltac:(setter eta_State saveContainer_disabled).
Definition set_saveCheckbox_checked : bool -> State -> State :=
  ltac:(setter eta_State saveCheckbox_checked).
Definition set_saveContainer_fullStorage : bool -> State -> State :=
  ltac:(setter eta_State saveContainer_fullStorage).
Definition set_drawPlaceholder_hidden : bool -> State -> State :=
  ltac:(setter eta_State drawPlaceholder_hidden).
Definition set_drawThickness_value : string -> State -> State :=
  ltac:(setter eta_State drawThickness_value).
Definition set_drawThickness_l10n_args : option string -> State -> State :=
  ltac:(setter eta_State drawThickness_l10n_args).
Definition set_imagePlaceholder_hidden : bool -> State -> State :=
  ltac:(setter eta_State imagePlaceholder_hidden).
Definition set_imageSVG_viewBox : option string -> State -> State :=
  ltac:(setter eta_State imageSVG_viewBox).
Definition set_imageSVG_paths : list string -> State -> State :=
  ltac:(setter eta_State imageSVG_paths).
Definition set_errorBar_hidden : bool -> State -> State :=
  ltac:(setter eta_State errorBar_hidden).
Definition set_dialog_waiting : bool -> State -> State :=
  ltac:(setter eta_State dialog_waiting).
Definition set_tabButton_selected : option Tab -> State -> State :=
  ltac:(setter eta_State tabButton_selected).
Definition set_panels_selected : option Tab -> State -> State :=
  ltac:(setter eta_State panels_selected).
Definition set_arrays : list (list Z) -> State -> State :=
  ltac:(setter eta_State arrays).
Definition set_tabListeners : option Tab -> State -> State :=
  ltac:(setter eta_State tabListeners).
Definition set_currentPointerId : option Z -> State -> State :=
  ltac:(setter eta_State currentPointerId).
Definition set_strokeListeners : list StrokeListeners -> State -> State :=
  ltac:(setter eta_State strokeListeners).
Definition set_l10n_pending : nat -> State -> State :=
  ltac:(setter eta_State l10n_pending).
Definition set_overlay_active : bool -> State -> State :=
  ltac:(setter eta_State overlay_active).
Definition set_toolbar : list ToolbarButton -> State -> State :=
  ltac:(setter eta_State toolbar).
Definition set_calls : list Call -> State -> State :=
  ltac:(setter eta_State calls).

(** Computations over the state of the dialog. *)
Definition M : Type -> Type := Comp State.

Definition call (c : Call) : M unit :=
  modify (fun s => set_calls (calls s ++ [c]) s).

(** [this.#tabsToAltText.set(key, value)]; throws on [null]. *)
Definition tabsToAltText_set (key : option Tab) (value : string) : M unit :=
  m <- gets tabsToAltText ;;
  match m with
  | Some m => modify (set_tabsToAltText (Some (<[key := value]> m)))
  | None => throw
  end.

(** [this.#tabsToAltText.get(key)]: [None] is [undefined]. *)
Definition tabsToAltText_get (key : option Tab) : M (option string) :=
  m <- gets tabsToAltText ;;
  match m with
  | Some m => ret (m !! key)
  | None => throw
  end.

(** Assigning a [Map.get] result to [input.value]: [undefined] is
    converted by [ToString]. *)
Definition to_DOMString (v : option string) : string :=
  match v with Some s => s | None => "undefined" end.

(** [#resetCommon] *)
Definition resetCommon : M unit :=
  modify (set_hasDescriptionChanged false) ;;
  modify (set_description_value "") ;;
  tab <- gets currentTab ;;
  tabsToAltText_set tab "".

(** [#resetTab(name)]; [#drawPath?.remove()] and [#imagePath?.remove()]
    take the element out of its SVG, [#imagePath] being the path that was
    appended last. *)
Definition resetTab (name : Tab) : M unit :=
  match name with
  | type_tab =>
      modify (set_typeInput_value "")
  | draw_tab =>
      modify (set_drawCurves None) ;;
      modify (set_drawPoints None) ;;
      modify (set_drawPathString []) ;;
      modify (set_drawPath None) ;;
      modify (set_drawPlaceholder_hidden false) ;;
      modify (set_drawThickness_value "1")
  | image_tab =>
      modify (set_imagePlaceholder_hidden false) ;;
      p <- gets imagePath ;;
      when (truthy p)
        (modify (fun s => set_imageSVG_paths (removelast (imageSVG_paths s)) s)) ;;
      modify (set_imagePath None)
  end.

(** [#disableButtons(value)], on the truthiness of [value]. *)
Definition disableButtons (value : bool) : M unit :=
  modify (set_addButton_disabled (negb value)) ;;
  modify (set_clearButton_disabled (negb value)) ;;
  modify (set_saveContainer_disabled (negb value)).

(** [#initTypeTab(reset)]; the two listeners it registers are
    [typeInput_input] and [description_input_type] below. *)
Definition initTypeTab (reset : bool) : M unit :=
  when reset (resetTab type_tab) ;;
  v <- gets typeInput_value ;;
  disableButtons (truthy_string v) ;;
  modify (set_tabListeners (Some type_tab)).

(** [#initDrawTab(reset)]; [drawCallback] and the thickness listener are
    [drawCallback] and [drawThickness_input] below. *)
Definition initDrawTab (reset : bool) : M unit :=
  when reset (resetTab draw_tab) ;;
  p <- gets drawPath ;;
  disableButtons (truthy p) ;;
  modify (set_currentPointerId None) ;;
  modify (set_tabListeners (Some draw_tab)).

(** [#initImageTab(reset)] *)
Definition initImageTab (reset : bool) : M unit :=
  when reset (resetTab image_tab) ;;
  p <- gets imagePath ;;
  disableButtons (truthy p) ;;
  modify (set_tabListeners (Some image_tab)).

(** [#initTab(name)]; [name = None] is the call [#initTab(null)] of the
    clear button. *)
Definition initTab (name : option Tab) : M unit :=
  cur <- gets currentTab ;;
  cond (match name with Some n => is_tab cur n | None => false end) (ret tt) (
  when (truthy cur)
    (d <- gets description_value ;; tabsToAltText_set cur d) ;;
  when (truthy name) (modify (set_currentTab name)) ;;
  let reset := negb (truthy name) in
  cond reset resetCommon
    (cur <- gets currentTab ;;
     v <- tabsToAltText_get cur ;;
     modify (set_description_value (to_DOMString v))) ;;
  d <- gets description_value ;;
  modify (set_clearDescription_disabled (bool_decide (d = ""))) ;;
  modify (set_tabListeners None) ;;
  modify (set_strokeListeners []) ;;
  cur <- gets currentTab ;;
  match cur with
  | Some type_tab => initTypeTab reset
  | Some draw_tab => initDrawTab reset
  | Some image_tab => initImageTab reset
  | None => ret tt
  end).

(** *** Listeners registered by the constructor *)

(** [tabCallback] for a click on the button of [name]: the button becomes
    the selected one, the panels show [name], and the tab is initialised. *)
Definition tabCallback (name : Tab) : M unit :=
  modify (set_tabButton_selected (Some name)) ;;
  modify (set_panels_selected (Some name)) ;;
  initTab (Some name).

(** Click on the clear button. *)
Definition clearButton_click : M unit := initTab None.

(** The [input] listener on the description container.  In it
    [description] is the container handed to the constructor (the input
    is its first child), which has no [value]: the test
    [description.value === ""] compares [undefined] with the empty
    string. *)
Definition description_input : M unit :=
  modify (set_clearDescription_disabled false).

(** Click on the clear-description button. *)
Definition clearDescription_click : M unit :=
  modify (set_description_value "") ;;
  modify (set_clearDescription_disabled true).

(** Click on the close button of the error bar. *)
Definition errorCloseButton_click : M unit :=
  modify (set_errorBar_hidden true).

(** *** Listeners of the type tab *)

(** [input] on the type field. *)
Definition typeInput_input : M unit :=
  value <- gets typeInput_value ;;
  changed <- gets hasDescriptionChanged ;;
  when (negb changed)
    (modify (set_description_value value) ;;
     modify (set_clearDescription_disabled (bool_decide (value = "")))) ;;
  disableButtons (truthy_string value).

(** [input] on the description field, as registered by the type tab. *)
Definition description_input_type : M unit :=
  t <- gets typeInput_value ;;
  d <- gets description_value ;;
  modify (set_hasDescriptionChanged (negb (bool_decide (t = d)))).

(** *** Listeners of the draw tab *)

Definition l10nDescription_signature : string :=
  "pdfjs-editor-add-signature-description-default-when-drawing".

(** The three path commands the draw tab writes. *)
Definition path_M (x y : Z) : template :=
  [Lit "M "; Num x; Lit " "; Num y].

Definition path_L (x y : Z) : template :=
  [Lit "L"; Num x; Lit " "; Num y].

Definition path_C (x1 y1 x2 y2 x y : Z) : template :=
  [Lit "C"; Quot (x1 + 5 * x2) 6; Lit " "; Quot (y1 + 5 * y2) 6;
   Lit " "; Quot (5 * x2 + x) 6; Lit " "; Quot (5 * y2 + y) 6;
   Lit " "; Quot (x2 + x) 2; Lit " "; Quot (y2 + y) 2].

(** [this.#drawPathString += t] *)
Definition drawPathString_append (t : template) : M unit :=
  modify (fun s => set_drawPathString (drawPathString s ++ t) s).

(** [this.#drawPath.setAttribute("d", this.#drawPathString)] *)
Definition drawPath_set_d : M unit :=
  p <- gets drawPath ;;
  match p with
  | Some el =>
      d <- gets drawPathString ;;
      modify (set_drawPath (Some (mkPathElement (stroke_width el) (Some d))))
  | None => throw
  end.

(** A new array in the store; returns its index. *)
Definition new_array (l : list Z) : M nat :=
  r <- gets (fun s => length (arrays s)) ;;
  modify (fun s => set_arrays (arrays s ++ [l]) s) ;;
  ret r.

(** The array behind a reference. *)
Definition array_of (r : nat) : M (list Z) :=
  gets (fun s => default [] (arrays s !! r)).

(** [array.push(x, y)] through a reference. *)
Definition array_push (r : nat) (x y : Z) : M unit :=
  modify (fun s => set_arrays (alter (fun l => l ++ [x; y]) r (arrays s)) s).

(** The [then] callback of the l10n lookup started by the first stroke. *)
Definition l10n_then (description : string) : M unit :=
  d <- gets description_value ;;
  when (negb (truthy_string d)) (modify (set_description_value description)) ;;
  d <- gets description_value ;;
  modify (set_clearDescription_disabled (bool_decide (d = ""))).

(** [drawCallback], the [pointerdown] listener: [onPlaceholder] is
    [e.target === this.#drawPlaceholder], [w] and [h] the bounding box of
    the SVG.  It leaves behind the listeners of the stroke. *)
Definition drawCallback (onPlaceholder : bool) (pointerId : Z)
    (offsetX offsetY w h : Q) : M unit :=
  cp <- gets currentPointerId ;;
  cond (other_pointer cp pointerId) (ret tt) (
  modify (set_currentPointerId (Some pointerId)) ;;
  let offsetX := Math_round offsetX in
  let offsetY := Math_round offsetY in
  when onPlaceholder (modify (set_drawPlaceholder_hidden true)) ;;
  dc <- gets drawCurves ;;
  when (negb (truthy dc))
    (tv <- gets drawThickness_value ;;
     modify (set_drawCurves (Some (mkDrawCurves w h (parseInt tv) []))) ;;
     disableButtons true ;;
     modify (set_drawPath (Some (mkPathElement tv None))) ;;
     d <- gets description_value ;;
     when (bool_decide (d = ""))
       (call (l10n_get l10nDescription_signature) ;;
        modify (fun s => set_l10n_pending (S (l10n_pending s)) s))) ;;
  r <- new_array [offsetX; offsetY] ;;
  modify (set_drawPoints (Some r)) ;;
  dc <- gets drawCurves ;;
  match dc with
  | Some c =>
      modify (set_drawCurves (Some
        (mkDrawCurves (dc_width c) (dc_height c) (dc_thickness c)
           (dc_curves c ++ [r]))))
  | None => throw
  end ;;
  drawPathString_append (path_M offsetX offsetY) ;;
  drawPath_set_d ;;
  modify (fun s => set_strokeListeners
                     (strokeListeners s ++ [mkStrokeListeners w h]) s)).

(** The [pointermove] listener of a stroke. *)
Definition pointermove (l : StrokeListeners) (offsetX offsetY : Q) : M unit :=
  let x := Math_round offsetX in
  let y := Math_round offsetY in
  dp <- gets drawPoints ;;
  match dp with
  | None => throw
  | Some r =>
      drawPoints <- array_of r ;;
      cond ((x <? 0) || (y <? 0)
            || Z_gt_Q x (drawWidth l) || Z_gt_Q y (drawHeight l)
            || (bool_decide (array_at_neg drawPoints 2 = Some x)
                && bool_decide (array_at_neg drawPoints 1 = Some y)))
        (ret tt)
        (cond (bool_decide (4 ≤ length drawPoints)%nat)
           match array_slice_neg drawPoints 4 with
           | [x1; y1; x2; y2] => drawPathString_append (path_C x1 y1 x2 y2 x y)
           | _ => ret tt (* not reached: the slice has four elements *)
           end
           (drawPathString_append (path_L x y)) ;;
         array_push r x y ;;
         drawPath_set_d)
  end.

(** The [pointerup] listener of a stroke.  [finishDrawAC.abort()] is done
    by [dispatch_pointerup], which drops the listeners of the stroke. *)
Definition pointerup (pId : Z) : M unit :=
  cp <- gets currentPointerId ;;
  cond (other_pointer cp pId) (ret tt) (
  modify (set_currentPointerId None) ;;
  dp <- gets drawPoints ;;
  match dp with
  | None => throw
  | Some r =>
      drawPoints <- array_of r ;;
      match drawPoints with
      | [x0; y0] =>
          drawPathString_append (path_L x0 y0) ;;
          drawPath_set_d
      | _ => ret tt
      end
  end).

(** A [pointermove] goes to the listeners of every stroke in progress. *)
Fixpoint dispatch_pointermove (ls : list StrokeListeners)
    (offsetX offsetY : Q) : M unit :=
  match ls with
  | [] => ret tt
  | l :: ls' =>
      listener (pointermove l offsetX offsetY) ;;
      dispatch_pointermove ls' offsetX offsetY
  end.

(** A [pointerup] goes to the same listeners; it returns those that did
    not abort themselves. *)
Fixpoint dispatch_pointerup (ls : list StrokeListeners) (pId : Z)
    : M (list StrokeListeners) :=
  match ls with
  | [] => ret []
  | l :: ls' =>
      cp <- gets currentPointerId ;;
      listener (pointerup pId) ;;
      rest <- dispatch_pointerup ls' pId ;;
      ret (if other_pointer cp pId then l :: rest else rest)
  end.

(** [input] on the thickness slider. *)
Definition drawThickness_input : M unit :=
  thickness <- gets drawThickness_value ;;
  modify (set_drawThickness_l10n_args (Some thickness)) ;;
  dc <- gets drawCurves ;;
  match dc with
  | None => ret tt
  | Some c =>
      p <- gets drawPath ;;
      match p with
      | Some el => modify (set_drawPath (Some (mkPathElement thickness (attr_d el))))
      | None => throw
      end ;;
      modify (set_drawCurves (Some
        (mkDrawCurves (dc_width c) (dc_height c) (raw thickness) (dc_curves c))))
  end.

(** *** The image tab, commit and the dialog life cycle *)

(** What [await imageManager.getFromFile(file)] gives: the promise is
    rejected, or it resolves to [data] (falsy: [None]; otherwise the
    bitmap it carries). *)
Inductive FromFile : Type :=
| rejected
| resolved (data : option nat).

(** What the collaborators answer during a commit.  [getFromText] and
    [getDrawnSignature] answer with a result object, [create] with the
    new uuid or a falsy value, [processDrawnLines] with an outline or
    nothing. *)
Record Env : Type := mkEnv {
  env_getFromText : string -> SignatureData;
  env_getDrawnSignature :
    option DrawCurves -> list (list Z) -> Q -> Q -> SignatureData;
  (* [this.#drawSVG.getBoundingClientRect()] at commit *)
  env_drawSVG_rect : Q * Q;
  env_compressSignature : list (list Z) -> bool -> Z -> Q -> Q -> string;
  (* the new uuid, or a falsy value *)
  env_storage_create : string -> string -> option string;
  env_processDrawnLines : list (list Z) -> bool -> Z -> Q -> Q -> option Outline;
  (* [this.#currentEditor._drawId === null] when the dialog closes *)
  env_drawId_is_null : bool
}.

(** [if (uuid)]: [null], [undefined] and the empty string are falsy. *)
Definition truthy_uuid (uuid : option string) : bool :=
  match uuid with
  | Some u => truthy_string u
  | None => false
  end.

Section WithMimeTypes.

(** [SupportedImageMimeTypes] is imported from [pdfjs-lib]. *)
Variable SupportedImageMimeTypes : list string.

Definition supported (type : string) : bool :=
  bool_decide (type ∈ SupportedImageMimeTypes).

(** [#extractSignature(file)] stops at [await getFromFile(file)], and
    other listeners can run before it resumes.  [extractSignature_begin]
    is what it does up to the [await]: without UI manager the call
    throws inside the [try], and the method ends before any [await].
    [extractSignature_resume] is what it does once the promise is
    settled, given the answers of [getFromFile] and of [getFromImage]. *)
Definition extractSignature_begin (file : File) : M unit :=
  um <- gets uiManager ;;
  match um with
  | Some _ => call (getFromFile file)
  | None =>
      call console_error ;;
      modify (set_errorBar_hidden false) ;;
      modify (set_dialog_waiting false)
  end.

Definition extractSignature_resume (file : File) (fromFile : FromFile)
    (fromImage : option SignatureData) : M unit :=
  data <- match fromFile with
          | resolved data => ret data
          | rejected => call console_error ;; ret None
          end ;;
  match data with
  | None =>
      modify (set_errorBar_hidden false) ;;
      modify (set_dialog_waiting false)
  | Some bitmap =>
      ce <- gets currentEditor ;;
      match ce with
      | None => throw
      | Some _ =>
          call (getFromImage bitmap) ;;
          modify (set_extractedSignatureData fromImage) ;;
          match fromImage with
          | None => throw
          | Some d =>
              match outline d with
              | None => modify (set_dialog_waiting false)
              | Some outline =>
                  modify (set_imagePlaceholder_hidden true) ;;
                  disableButtons true ;;
                  modify (set_imagePath (Some (toSVGPath outline))) ;;
                  modify (set_imageSVG_viewBox (Some (viewBox outline))) ;;
                  modify (fun s => set_imageSVG_paths
                                     (imageSVG_paths s ++ [toSVGPath outline]) s) ;;
                  v <- gets description_value ;;
                  when (bool_decide (v = ""))
                    (modify (set_description_value (file_name file)) ;;
                     v <- gets description_value ;;
                     modify (set_clearDescription_disabled (bool_decide (v = "")))) ;;
                  modify (set_dialog_waiting false)
              end
          end
      end
  end.

(** [#extractSignature(file)] when the promise is settled before any
    other listener runs. *)
Definition extractSignature (file : File) (fromFile : FromFile)
    (fromImage : option SignatureData) : M unit :=
  um <- gets uiManager ;;
  extractSignature_begin file ;;
  when (truthy um) (extractSignature_resume file fromFile fromImage).

(** [keydown] on the picker link and [click] on the picker. *)
Definition imagePicker_click : M unit :=
  modify (set_dialog_waiting true).

Definition imagePickerLink_keydown (key : string) : M unit :=
  when (bool_decide (key = "Enter") || bool_decide (key = " "))
    (listener imagePicker_click).

(** [change] on the picker; [files] is [this.#imagePicker.files]. *)
Definition imagePicker_change (files : option (list File))
    (fromFile : FromFile) (fromImage : option SignatureData) : M unit :=
  match files ≫= head with
  | Some file =>
      cond (supported (file_type file))
        (extractSignature file fromFile fromImage)
        (modify (set_errorBar_hidden false) ;;
         modify (set_dialog_waiting false))
  | None =>
      modify (set_errorBar_hidden false) ;;
      modify (set_dialog_waiting false)
  end.

(** [cancel] on the picker. *)
Definition imagePicker_cancel : M unit :=
  modify (set_dialog_waiting false).

(** [dragover] on the placeholder only writes [dataTransfer.dropEffect]:
    the value it gives it. *)
Definition dragover_dropEffect (types : list string) (effectAllowed : string)
    : string :=
  if bool_decide (Exists (fun t => supported t = true) types)
  then (if bool_decide (effectAllowed = "copy") then "copy" else "move")
  else "none".

(** [drop] on the placeholder.  The extraction it starts is not awaited:
    it stops at [await getFromFile], the listener sets the waiting class,
    and the extraction goes on.  Only when [#uiManager] is [null] does the
    extraction fail before any [await] and run first. *)
Definition imagePlaceholder_drop (files : option (list File))
    (fromFile : FromFile) (fromImage : option SignatureData) : M unit :=
  match files with
  | None | Some [] => ret tt
  | Some files =>
      let extraction :=
        match find (fun f => supported (file_type f)) files with
        | Some file => listener (extractSignature file fromFile fromImage)
        | None => ret tt
        end in
      um <- gets uiManager ;;
      match um with
      | Some _ => modify (set_dialog_waiting true) ;; extraction
      | None => extraction ;; modify (set_dialog_waiting true)
      end
  end.

(** The [change] and the [drop] up to the [await] of the extraction
    they start. *)
Definition imagePicker_change_begin (files : option (list File)) : M unit :=
  match files ≫= head with
  | Some file =>
      cond (supported (file_type file))
        (extractSignature_begin file)
        (modify (set_errorBar_hidden false) ;;
         modify (set_dialog_waiting false))
  | None =>
      modify (set_errorBar_hidden false) ;;
      modify (set_dialog_waiting false)
  end.

Definition imagePlaceholder_drop_begin (files : option (list File)) : M unit :=
  match files with
  | None | Some [] => ret tt
  | Some files =>
      match find (fun f => supported (file_type f)) files with
      | Some file => listener (extractSignature_begin file)
      | None => ret tt
      end ;;
      modify (set_dialog_waiting true)
  end.

(** [#getOutlineForType] and [#getOutlineForDraw] *)
Definition getOutlineForType (env : Env) : M SignatureData :=
  ce <- gets currentEditor ;;
  match ce with
  | None => throw
  | Some _ =>
      v <- gets typeInput_value ;;
      call (getFromText v) ;;
      ret (env_getFromText env v)
  end.

Definition getOutlineForDraw (env : Env) : M SignatureData :=
  let (w, h) := env_drawSVG_rect env in
  ce <- gets currentEditor ;;
  match ce with
  | None => throw
  | Some _ =>
      dc <- gets drawCurves ;;
      a <- gets arrays ;;
      call (getDrawnSignature dc a w h) ;;
      ret (env_getDrawnSignature env dc a w h)
  end.

(** [#addToolbarButton(signatureData, uuid, description)] *)
Definition addToolbarButton (env : Env) (curves : list (list Z))
    (contours : bool) (thick : Z) (w h : Q)
    (uuid : option string) (description : string) : M unit :=
  call (processDrawnLines curves contours thick w h) ;;
  match env_processDrawnLines env curves contours thick w h with
  | None => ret tt
  | Some _ =>
      modify (fun s => set_toolbar
                         (toolbar s ++ [mkToolbarButton uuid description]) s)
  end.

(** [#close], the listener of the [close] event of the dialog *)
Definition close (env : Env) : M unit :=
  ce <- gets currentEditor ;;
  match ce with
  | None => throw
  | Some _ => when (env_drawId_is_null env) (call editor_remove)
  end ;;
  um <- gets uiManager ;;
  when (truthy um) (call addEditListeners) ;;
  modify (set_tabListeners None) ;;
  modify (set_strokeListeners []) ;;
  modify (set_uiManager None) ;;
  modify (set_currentEditor None) ;;
  resetCommon ;;
  resetTab type_tab ;;
  resetTab draw_tab ;;
  resetTab image_tab ;;
  disableButtons false ;;
  modify (set_currentTab None) ;;
  modify (set_tabsToAltText None).

(** [#finish]: closing the dialog through the overlay manager fires its
    [close] event. *)
Definition finish (env : Env) : M unit :=
  active <- gets overlay_active ;;
  when active
    (call overlayManager_close ;;
     modify (set_overlay_active false) ;;
     listener (close env)).

(** [#cancel] and [destroy] *)
Definition cancel (env : Env) : M unit := finish env.

Definition destroy (env : Env) : M unit :=
  modify (set_uiManager None) ;;
  finish env.

(** [#add] stops at [await compressSignature(...)] and at [await
    create(...)] when the save checkbox is checked, and other listeners
    can run before it resumes.  Its stretches are: the [switch] on the
    current tab; *)
Definition add_payload (env : Env) : M (option SignatureData) :=
  tab <- gets currentTab ;;
  match tab with
  | Some type_tab => d <- getOutlineForType env ;; ret (Some d)
  | Some draw_tab => d <- getOutlineForDraw env ;; ret (Some d)
  | Some image_tab => gets extractedSignatureData
  | None => ret None
  end.

(** with the checkbox checked, the reading of the description and the
    destructuring of the payload, up to the first [await]; *)
Definition add_compress (data : option SignatureData)
    : M (string * SignatureData) :=
  description <- gets description_value ;;
  match data with
  | None => throw
  | Some d =>
      call (compressSignature (newCurves d) (areContours d)
              (thickness d) (width d) (height d)) ;;
      ret (description, d)
  end.

(** from there to the second [await]; *)
Definition add_create (env : Env) (description : string) (d : SignatureData)
    : M unit :=
  let signatureData :=
    env_compressSignature env (newCurves d) (areContours d)
      (thickness d) (width d) (height d) in
  call (storage_create description signatureData).

(** once [create] has answered, the launcher or the warning; *)
Definition add_stored (env : Env) (description : string) (d : SignatureData)
    : M (option string) :=
  let signatureData :=
    env_compressSignature env (newCurves d) (areContours d)
      (thickness d) (width d) (height d) in
  let uuid := env_storage_create env description signatureData in
  cond (truthy_uuid uuid)
    (addToolbarButton env (newCurves d) (areContours d)
       (thickness d) (width d) (height d) uuid description)
    (call (console_warn
             "SignatureManager.add: cannot save the signature.")) ;;
  ret uuid.

(** and the call of [addSignature], followed by [#finish]. *)
Definition add_hand_over (env : Env) (data : option SignatureData)
    (uuid : option string) : M unit :=
  ce <- gets currentEditor ;;
  match ce with
  | None => throw
  | Some _ =>
      description <- gets description_value ;;
      call (addSignature data DEFAULT_HEIGHT_IN_PAGE description uuid)
  end ;;
  finish env.

(** [#add] when each awaited promise is settled before any other
    listener runs. *)
Definition add (env : Env) : M unit :=
  data <- add_payload env ;;
  checked <- gets saveCheckbox_checked ;;
  uuid <- cond checked
            (saved <- add_compress data ;;
             add_create env (fst saved) (snd saved) ;;
             add_stored env (fst saved) (snd saved))
            (ret None) ;;
  add_hand_over env data uuid.

(** [open({ uiManager, editor })], given the answer of
    [signatureStorage.isFull()]; it ends with a click on the type tab. *)
Definition open (ui editor : nat) (isStorageFull : bool) : M unit :=
  m <- gets tabsToAltText ;;
  when (negb (truthy m))
    (modify (set_tabsToAltText
       (Some (list_to_map ((fun name => (Some name, "")) <$> tabButtons_keys))))) ;;
  modify (set_uiManager (Some ui)) ;;
  modify (set_currentEditor (Some editor)) ;;
  call removeEditListeners ;;
  call storage_isFull ;;
  modify (set_saveContainer_fullStorage isStorageFull) ;;
  modify (set_saveCheckbox_checked (negb isStorageFull)) ;;
  call overlayManager_open ;;
  modify (set_overlay_active true) ;;
  listener (tabCallback type_tab).

(** *** Events of an open dialog *)

(** What the page can deliver to the dialog while it is open; each
    event stands for one run of the listeners registered for it, in
    whatever state: that a button gets no click while it is disabled,
    and that [drawCallback] is registered on the placeholder until it
    creates the drawing and on the SVG from then on, so that the target
    of a [pointerdown] is the placeholder for the press that creates the
    drawing and for no other, is not part of [dispatch].  An edit
    event carries the value the user left in the field.
    [picker_change] and [placeholder_drop] are the change and the drop
    whose extraction is settled before anything else is delivered;
    [picker_change_pending] and [placeholder_drop_pending] are the same
    two up to the [await] of the extraction, and [getFromFile_settled]
    is the extraction resuming, whatever the tab is by then.

    What ends the session is not in this type: the click on add, the
    click on cancel and the [close] event of the dialog, which the
    Escape key fires as well, are the methods [add], [cancel] and
    [close] above. *)
Inductive Event : Type :=
| tab_click (name : Tab)
| clear_click
| clearDescription_clicked
| errorClose_click
| saveCheckbox_click
| type_edit (value : string)
| description_edit (value : string)
| thickness_edit (value : string)
| pointerdown_on (onPlaceholder : bool) (pointerId : Z) (offsetX offsetY w h : Q)
| pointermove_to (offsetX offsetY : Q)
| pointerup_of (pointerId : Z)
| l10n_resolved (description : string)
| picker_keydown (key : string)
| picker_click
| picker_change (files : option (list File)) (fromFile : FromFile)
    (fromImage : option SignatureData)
| picker_cancel
| placeholder_drop (files : option (list File)) (fromFile : FromFile)
    (fromImage : option SignatureData)
| picker_change_pending (files : option (list File))
| placeholder_drop_pending (files : option (list File))
| getFromFile_settled (file : File) (fromFile : FromFile)
    (fromImage : option SignatureData).

(** The listeners of a tab run only while the tab's registration is
    live. *)
Definition when_tab (t : Tab) (m : M unit) : M unit :=
  tl <- gets tabListeners ;;
  when (is_tab tl t) (listener m).

(** Dispatch of one event to the listeners registered for it. *)
Definition dispatch (e : Event) : M unit :=
  match e with
  | tab_click name => listener (tabCallback name)
  | clear_click => listener clearButton_click
  | clearDescription_clicked => listener clearDescription_click
  | errorClose_click => listener errorCloseButton_click
  | saveCheckbox_click =>
      modify (fun s => set_saveCheckbox_checked (negb (saveCheckbox_checked s)) s)
  | type_edit value =>
      modify (set_typeInput_value value) ;;
      when_tab type_tab typeInput_input
  | description_edit value =>
      modify (set_description_value value) ;;
      when_tab type_tab description_input_type ;;
      listener description_input
  | thickness_edit value =>
      modify (set_drawThickness_value value) ;;
      when_tab draw_tab drawThickness_input
  | pointerdown_on onPlaceholder pointerId offsetX offsetY w h =>
      when_tab draw_tab (drawCallback onPlaceholder pointerId offsetX offsetY w h)
  | pointermove_to offsetX offsetY =>
      ls <- gets strokeListeners ;;
      dispatch_pointermove ls offsetX offsetY
  | pointerup_of pointerId =>
      ls <- gets strokeListeners ;;
      rest <- dispatch_pointerup ls pointerId ;;
      modify (set_strokeListeners rest)
  | l10n_resolved description =>
      n <- gets l10n_pending ;;
      match n with
      | O => ret tt
      | S n' =>
          modify (set_l10n_pending n') ;;
          listener (l10n_then description)
      end
  | picker_keydown key => when_tab image_tab (imagePickerLink_keydown key)
  | picker_click => when_tab image_tab imagePicker_click
  | picker_change files fromFile fromImage =>
      when_tab image_tab (imagePicker_change files fromFile fromImage)
  | picker_cancel => when_tab image_tab imagePicker_cancel
  | placeholder_drop files fromFile fromImage =>
      when_tab image_tab (imagePlaceholder_drop files fromFile fromImage)
  | picker_change_pending files =>
      when_tab image_tab (imagePicker_change_begin files)
  | placeholder_drop_pending files =>
      when_tab image_tab (imagePlaceholder_drop_begin files)
  | getFromFile_settled file fromFile fromImage =>
      listener (extractSignature_resume file fromFile fromImage)
  end.

(** The state after an event, and after a list of events. *)
Definition step (s : State) (e : Event) : State := exec (dispatch e) s.

Definition run (s : State) (es : list Event) : State := fold_left step es s.

(** The states a list of events goes through, each with the event
    delivered in it. *)
Fixpoint trace (s : State) (es : list Event) : list (State * Event) :=
  match es with
  | [] => []
  | e :: es => (s, e) :: trace (step s e) es
  end.

(** An extraction that resumes and traces an outline does so in time
    when the image tab is the current tab at that moment. *)
Definition traces_outline (e : Event) : bool :=
  match e with
  | getFromFile_settled _ (resolved (Some _)) (Some d) => truthy (outline d)
  | _ => false
  end.

Definition in_time (s : State) (e : Event) : Prop :=
  traces_outline e = true -> currentTab s = Some image_tab.

Definition timely (s : State) (es : list Event) : Prop :=
  Forall (fun se => in_time (fst se) (snd se)) (trace s es).

(** The state of a freshly constructed manager: the field initialisers
    of the class, empty fields, nothing drawn or traced, no dialog. *)
Definition initial : State :=
  {| currentTab := None; tabsToAltText := None; hasDescriptionChanged := false;
     drawCurves := None; drawPoints := None; drawPathString := [];
     drawPath := None; extractedSignatureData := None; imagePath := None;
     uiManager := None; currentEditor := None;
     description_value := ""; clearDescription_disabled := true;
     typeInput_value := ""; addButton_disabled := true;
     clearButton_disabled := true; saveContainer_disabled := true;
     saveCheckbox_checked := false; saveContainer_fullStorage := false;
     drawPlaceholder_hidden := false; drawThickness_value := "1";
     drawThickness_l10n_args := None; imagePlaceholder_hidden := false;
     imageSVG_viewBox := None; imageSVG_paths := [];
     errorBar_hidden := true; dialog_waiting := false;
     tabButton_selected := None; panels_selected := None;
     arrays := []; tabListeners := None; currentPointerId := None;
     strokeListeners := []; l10n_pending := 0%nat; overlay_active := false;
     toolbar := []; calls := [] |}.

(** A dialog that is not open: the state [#close] leaves, and the state
    of a new manager. *)
Record closed (s : State) : Prop := {
  closed_currentTab : currentTab s = None;
  closed_tabsToAltText : tabsToAltText s = None;
  closed_drawCurves : drawCurves s = None;
  closed_drawPoints : drawPoints s = None;
  closed_drawPath : drawPath s = None;
  closed_imagePath : imagePath s = None;
  closed_tabListeners : tabListeners s = None;
  closed_strokeListeners : strokeListeners s = []
}.

(** The states of one open dialog: [open] on a closed one, then events. *)
Inductive reachable : State -> Prop :=
| reachable_open s ui editor isStorageFull :
    closed s -> reachable (exec (open ui editor isStorageFull) s)
| reachable_step s e :
    reachable s -> reachable (step s e).

End WithMimeTypes.

(** *** Notions used to state the properties *)

(** The description stored for a tab in [#tabsToAltText]. *)
Definition snapshot (s : State) (t : Tab) : option string :=
  tabsToAltText s ≫= fun m => m !! Some t.

(** The capture state of each tab: what the user typed; the stroke
    buffer, the path string, the path element and the controls of the
    draw panel; the traced path, the extracted data and the image panel. *)
Inductive Capture : Type :=
| typed (text : string)
| drawn (curves : option DrawCurves) (points : option nat)
    (store : list (list Z)) (pathString : template)
    (path : option PathElement) (placeholderHidden : bool)
    (thicknessValue : string)
| traced (path : option string) (data : option SignatureData)
    (placeholderHidden : bool) (svgPaths : list string)
    (svgViewBox : option string).

Definition capture (t : Tab) (s : State) : Capture :=
  match t with
  | type_tab => typed (typeInput_value s)
  | draw_tab =>
      drawn (drawCurves s) (drawPoints s) (arrays s) (drawPathString s)
        (drawPath s) (drawPlaceholder_hidden s) (drawThickness_value s)
  | image_tab =>
      traced (imagePath s) (extractedSignatureData s)
        (imagePlaceholder_hidden s) (imageSVG_paths s) (imageSVG_viewBox s)
  end.

(** A tab whose capture was cleared: no text; no stroke buffer, path
    string or path; no traced path. *)
Definition cleared (t : Tab) (s : State) : Prop :=
  match t with
  | type_tab => typeInput_value s = ""
  | draw_tab =>
      drawCurves s = None ∧ drawPoints s = None ∧
      drawPathString s = [] ∧ drawPath s = None
  | image_tab => imagePath s = None
  end.

(** What the three [#init...Tab] methods hand to [#disableButtons]: the
    typed text, the path of the drawing, the path of the traced image. *)
Definition has_capture (s : State) : bool :=
  match currentTab s with
  | Some type_tab => truthy_string (typeInput_value s)
  | Some draw_tab => truthy (drawPath s)
  | Some image_tab => truthy (imagePath s)
  | None => false
  end.

(** The add and clear buttons and the save container all carry the
    disabled state [d]. *)
Definition controls_disabled (s : State) (d : bool) : Prop :=
  addButton_disabled s = d ∧ clearButton_disabled s = d ∧
  saveContainer_disabled s = d.

(** Strokes of the drawing: all those begun by a [pointerdown], and those
    among them whose [pointerup] was handled (their listeners are gone). *)
Definition strokes_begun (s : State) : nat :=
  match drawCurves s with
  | Some c => length (dc_curves c)
  | None => 0
  end.

Definition strokes_completed (s : State) : nat :=
  (strokes_begun s - length (strokeListeners s))%nat.

(** The payload [#add] resolves from the active tab. *)
Definition resolved_payload (env : Env) (s : State) : option SignatureData :=
  match currentTab s with
  | Some type_tab => Some (env_getFromText env (typeInput_value s))
  | Some draw_tab =>
      Some (env_getDrawnSignature env (drawCurves s) (arrays s)
              (fst (env_drawSVG_rect env)) (snd (env_drawSVG_rect env)))
  | Some image_tab => extractedSignatureData s
  | None => None
  end.

Definition is_addSignature (c : Call) : bool :=
  match c with addSignature _ _ _ _ => true | _ => false end.

Definition is_storage_create (c : Call) : bool :=
  match c with storage_create _ _ => true | _ => false end.

(** The calls made since the log was [before]. *)
Definition calls_since (before : list Call) (s : State) : list Call :=
  drop (length before) (calls s).

(** **** Commit *)

(** The answer of [compressSignature] for a payload. *)
Definition compressed (env : Env) (d : SignatureData) : string :=
  env_compressSignature env (newCurves d) (areContours d) (thickness d)
    (width d) (height d).

(** The collaborators [#add] calls before it calls [#finish], and the
    launchers it adds to the toolbar. *)
Definition commit_calls (env : Env) (s : State) : list Call :=
  let description := description_value s in
  match currentTab s with
  | Some type_tab => [getFromText (typeInput_value s)]
  | Some draw_tab =>
      [getDrawnSignature (drawCurves s) (arrays s)
         (fst (env_drawSVG_rect env)) (snd (env_drawSVG_rect env))]
  | _ => []
  end ++
  match saveCheckbox_checked s, resolved_payload env s with
  | true, Some d =>
      let uuid := env_storage_create env description (compressed env d) in
      [compressSignature (newCurves d) (areContours d) (thickness d)
         (width d) (height d);
       storage_create description (compressed env d)] ++
      (if truthy_uuid uuid then
         [processDrawnLines (newCurves d) (areContours d) (thickness d)
            (width d) (height d)]
       else [console_warn "SignatureManager.add: cannot save the signature."]) ++
      [addSignature (Some d) DEFAULT_HEIGHT_IN_PAGE description uuid]
  | _, payload =>
      [addSignature payload DEFAULT_HEIGHT_IN_PAGE description None]
  end.

Definition commit_launchers (env : Env) (s : State) : list ToolbarButton :=
  let description := description_value s in
  match saveCheckbox_checked s, resolved_payload env s with
  | true, Some d =>
      let uuid := env_storage_create env description (compressed env d) in
      if truthy_uuid uuid then
        match env_processDrawnLines env (newCurves d) (areContours d)
                (thickness d) (width d) (height d) with
        | Some _ => [mkToolbarButton uuid description]
        | None => []
        end
      else []
  | _, _ => []
  end.

(** **** Strokes as lists of points *)

(** The flat array [#drawPoints] of a list of points. *)
Definition flat (pts : list (Z * Z)) : list Z :=
  flat_map (fun p => [fst p; snd p]) pts.

(** The test of the [pointermove] listener that discards a position:
    outside the box, or the point recorded last. *)
Definition discarded (l : StrokeListeners) (last : Z * Z) (x y : Z) : bool :=
  (x <? 0) || (y <? 0) || Z_gt_Q x (drawWidth l) || Z_gt_Q y (drawHeight l)
  || ((x =? fst last) && (y =? snd last)).

(** The points a sequence of pointer positions adds to a stroke whose
    last point is [last]. *)
Fixpoint accepted (l : StrokeListeners) (last : Z * Z) (moves : list (Q * Q))
    : list (Z * Z) :=
  match moves with
  | [] => []
  | (ox, oy) :: moves' =>
      let x := Math_round ox in
      let y := Math_round oy in
      if discarded l last x y then accepted l last moves'
      else (x, y) :: accepted l (x, y) moves'
  end.

(** One curve command per point, from the two points before it. *)
Fixpoint curves_from (a b : Z * Z) (pts : list (Z * Z)) : template :=
  match pts with
  | [] => []
  | p :: pts' =>
      path_C (fst a) (snd a) (fst b) (snd b) (fst p) (snd p)
      ++ curves_from b p pts'
  end.

(** The path of a stroke as the listeners build it: a move to the first
    point, a line to the second, a curve for every later point. *)
Definition stroke_path (pts : list (Z * Z)) : template :=
  match pts with
  | [] => []
  | [p0] => path_M (fst p0) (snd p0)
  | p0 :: p1 :: pts' =>
      path_M (fst p0) (snd p0) ++ path_L (fst p1) (snd p1)
      ++ curves_from p0 p1 pts'
  end.

(** The path of a stroke in the words of the specification: a move to
    the first point, lines to the second and to the third, a curve for
    every point from the fourth on. *)
Definition spec_stroke_path (pts : list (Z * Z)) : template :=
  match pts with
  | [] => []
  | [p0] => path_M (fst p0) (snd p0)
  | [p0; p1] => path_M (fst p0) (snd p0) ++ path_L (fst p1) (snd p1)
  | p0 :: p1 :: p2 :: pts' =>
      path_M (fst p0) (snd p0) ++ path_L (fst p1) (snd p1)
      ++ path_L (fst p2) (snd p2) ++ curves_from p1 p2 pts'
  end.

(** **** The states of an open dialog *)

(** What holds of the dialog from [open] to its close. *)
Record session (s : State) : Prop := {
  session_snapshots :
    ∃ m, tabsToAltText s = Some m ∧ ∀ t, is_Some (m !! Some t);
  session_tab : is_Some (currentTab s);
  session_button : tabButton_selected s = currentTab s;
  session_panels : panels_selected s = currentTab s;
  session_listeners : tabListeners s = currentTab s;
  session_editor : is_Some (currentEditor s);
  session_uiManager : is_Some (uiManager s);
  session_overlay : overlay_active s = true;
  session_path : truthy (drawCurves s) = truthy (drawPath s);
  session_strokes : ∀ c, drawCurves s = Some c -> dc_curves c ≠ []
}.

(** The three controls are enabled exactly when the current tab holds a
    capture. *)
Definition controls_follow (s : State) : Prop :=
  controls_disabled s (negb (has_capture s)).

(** **** Frames of the pointer listeners *)

(** [s] with the path string, the array store, the path element and the
    pointer id of the closure replaced. *)
Definition stroke_write (d : template) (a : list (list Z))
    (p : option PathElement) (cp : option Z) (s : State) : State :=
  {| currentTab := currentTab s; tabsToAltText := tabsToAltText s;
     hasDescriptionChanged := hasDescriptionChanged s;
     drawCurves := drawCurves s; drawPoints := drawPoints s;
     drawPathString := d; drawPath := p;
     extractedSignatureData := extractedSignatureData s;
     imagePath := imagePath s; uiManager := uiManager s;
     currentEditor := currentEditor s;
     description_value := description_value s;
     clearDescription_disabled := clearDescription_disabled s;
     typeInput_value := typeInput_value s;
     addButton_disabled := addButton_disabled s;
     clearButton_disabled := clearButton_disabled s;
     saveContainer_disabled := saveContainer_disabled s;
     saveCheckbox_checked := saveCheckbox_checked s;
     saveContainer_fullStorage := saveContainer_fullStorage s;
     drawPlaceholder_hidden := drawPlaceholder_hidden s;
     drawThickness_value := drawThickness_value s;
     drawThickness_l10n_args := drawThickness_l10n_args s;
     imagePlaceholder_hidden := imagePlaceholder_hidden s;
     imageSVG_viewBox := imageSVG_viewBox s;
     imageSVG_paths := imageSVG_paths s;
     errorBar_hidden := errorBar_hidden s;
     dialog_waiting := dialog_waiting s;
     tabButton_selected := tabButton_selected s;
     panels_selected := panels_selected s; arrays := a;
     tabListeners := tabListeners s; currentPointerId := cp;
     strokeListeners := strokeListeners s; l10n_pending := l10n_pending s;
     overlay_active := overlay_active s; toolbar := toolbar s;
     calls := calls s |}.

(** The listeners of a stroke write those four and nothing else, and
    they neither create nor remove the path element. *)
Definition stroke_frame (s s' : State) : Prop :=
  ∃ d a p cp, s' = stroke_write d a p cp s ∧ truthy p = truthy (drawPath s).

(** The state of a stroke in progress: its listeners are the only ones,
    and [#drawPoints] holds the points [front ++ [last]], whose path was
    appended to [base] and written to the path element. *)
Definition stroking (l : StrokeListeners) (base : template)
    (front : list (Z * Z)) (last : Z * Z) (s : State) : Prop :=
  strokeListeners s = [l] ∧
  ∃ r el,
    drawPoints s = Some r ∧
    arrays s !! r = Some (flat (front ++ [last])) ∧
    drawPath s = Some el ∧
    attr_d el = Some (drawPathString s) ∧
    drawPathString s = base ++ stroke_path (front ++ [last]).

(** A template holds a curve command. *)
Definition has_curve (t : template) : bool :=
  bool_decide (Lit "C" ∈ t).


(** *** Notions used to state further properties of the draw tab *)

(** The strokes of the drawing as [#drawCurves.curves] gives them: for
    each curve, the array of its points. *)
Definition drawn_strokes (s : State) : list (list Z) :=
  match drawCurves s with
  | Some c => (fun r => default [] (arrays s !! r)) <$> dc_curves c
  | None => []
  end.

(** The draw tab between two strokes: its listeners are live, no stroke
    is in progress and no pointer is followed. *)
Definition at_rest (s : State) : Prop :=
  tabListeners s = Some draw_tab ∧ strokeListeners s = [] ∧
  currentPointerId s = None ∧ truthy (drawCurves s) = truthy (drawPath s).

(** Every curve refers to an array of the store. *)
Definition refs_valid (s : State) : Prop :=
  ∀ c, drawCurves s = Some c ->
    Forall (fun r => (r < length (arrays s))%nat) (dc_curves c).

(** One stroke of the user: where the pointer went down, the bounding
    box of the SVG then, and the positions the pointer moved through
    before it went up. *)
Record Stroke : Type := mkStroke {
  stroke_onPlaceholder : bool;
  stroke_pointerId : Z;
  stroke_down : Q * Q;
  stroke_box : Q * Q;
  stroke_moves : list (Q * Q)
}.

Definition stroke_listeners (k : Stroke) : StrokeListeners :=
  mkStrokeListeners (fst (stroke_box k)) (snd (stroke_box k)).

Definition stroke_start (k : Stroke) : Z * Z :=
  (Math_round (fst (stroke_down k)), Math_round (snd (stroke_down k))).

Definition pointerdown_of (k : Stroke) : Event :=
  pointerdown_on (stroke_onPlaceholder k) (stroke_pointerId k)
    (fst (stroke_down k)) (snd (stroke_down k))
    (fst (stroke_box k)) (snd (stroke_box k)).

Definition stroke_events (k : Stroke) : list Event :=
  pointerdown_of k
  :: ((fun m => pointermove_to (fst m) (snd m)) <$> stroke_moves k)
  ++ [pointerup_of (stroke_pointerId k)].

(** The points the listeners record for a stroke. *)
Definition stroke_points (k : Stroke) : list (Z * Z) :=
  stroke_start k :: accepted (stroke_listeners k) (stroke_start k) (stroke_moves k).

(** The path of a stroke once the pointer is up: a stroke of one point
    is closed by a line to that point. *)
Definition released_path (pts : list (Z * Z)) : template :=
  stroke_path pts ++
  match pts with
  | [p0] => path_L (fst p0) (snd p0)
  | _ => []
  end.

(** The events of the pointer. *)
Definition is_pointer_event (e : Event) : bool :=
  match e with
  | pointerdown_on _ _ _ _ _ _ | pointermove_to _ _ | pointerup_of _ => true
  | _ => false
  end.

(** What the listeners of a stroke leave alone besides what
    [stroke_frame] says: the pointer they follow, and every array of the
    store but the one of the stroke, whose number of arrays stays. *)
Definition move_frame (s s' : State) : Prop :=
  currentPointerId s' = currentPointerId s ∧
  tabListeners s' = tabListeners s ∧
  drawCurves s' = drawCurves s ∧
  drawPoints s' = drawPoints s ∧
  strokeListeners s' = strokeListeners s ∧
  length (arrays s') = length (arrays s) ∧
  ∀ r j, drawPoints s = Some r -> j ≠ r -> arrays s' !! j = arrays s !! j.

(** *** Notions used to state further properties of a session *)

(** The calls an event of the open dialog can make: the lookup of the
    default description, the decoding and the tracing of an image, and
    the report of a decoding failure on the console. *)
Definition is_lookup (c : Call) : bool :=
  match c with
  | l10n_get _ | getFromFile _ | getFromImage _ | console_error => true
  | _ => false
  end.

(** *** Focus among the tab buttons *)

(** [array[i]] for an index that may be negative: [undefined] outside
    the array. *)
Definition array_get {A : Type} (l : list A) (i : Z) : option A :=
  if i <? 0 then None else l !! Z.to_nat i.

(** The [keydown] listener [#initTabButtons] puts on the button at
    index [i] of [buttonsArray]: the tab whose button it gives the focus
    to, if any.  It writes nothing else. *)
Definition tabButton_keydown (i : nat) (key : string) : option Tab :=
  if negb (bool_decide (key = "ArrowLeft"))
     && negb (bool_decide (key = "ArrowRight"))
  then None
  else array_get tabButtons_keys
         (Z.of_nat i + (if bool_decide (key = "ArrowLeft") then -1 else 1)).

(** *** The stored signatures in the toolbar

    [loadSignatures] and [#signaturesChanged] fill the toolbar with one
    launcher per stored signature.  They read two more fields of the
    manager, [#loadSignaturesPromise] and, for their guards, whether the
    constructor was given a toolbar button and a storage; [Manager]
    adds them to the state of the dialog, whose [toolbar] holds the
    elements that precede [#addSignatureToolbarButton].  The listeners
    [#addToolbarButton] puts on a launcher (its click and the click on
    its delete button) are not part of [ToolbarButton] and are left
    out. *)

(** What [SignatureExtractor.decompressSignature] resolves to. *)
Record Decompressed : Type := mkDecompressed {
  outlines : list (list Z);
  dec_areContours : bool;
  dec_thickness : Z;
  dec_width : Q;
  dec_height : Q
}.

(** A value of the map [signatureStorage.getAll()] resolves to. *)
Record Stored : Type := mkStored {
  st_description : string;
  st_signatureData : string
}.

(** The calls to the storage and to the decompression, in order. *)
Inductive StorageCall : Type :=
| storage_getAll
| decompressSignature (signatureData : string).

(** The promise held by [#loadSignaturesPromise] once it is settled:
    rejected, because [getAll] was, or fulfilled with the pair
    [[signatures, signaturesData]]. *)
Inductive Loaded : Type :=
| load_rejected
| load_fulfilled (signatures : list (string * Stored))
    (signaturesData : list (option Decompressed)).

Record Manager : Type := mkManager {
  dialog : State;
  (* [#addSignatureToolbarButton] and [#signatureStorage] are not null *)
  has_addSignatureToolbarButton : bool;
  has_signatureStorage : bool;
  loadSignaturesPromise : option Loaded;
  storage_calls : list StorageCall
}.

Definition eta_Manager : Manager -> Manager :=
  (fun mg : Manager => mkManager
    (dialog mg) (has_addSignatureToolbarButton mg) (has_signatureStorage mg)
    (loadSignaturesPromise mg) (storage_calls mg)).

Definition set_dialog : State -> Manager -> Manager :=
  ltac:(setter eta_Manager dialog).
Definition set_loadSignaturesPromise : option Loaded -> Manager -> Manager :=
  ltac:(setter eta_Manager loadSignaturesPromise).
Definition set_storage_calls : list StorageCall -> Manager -> Manager :=
  ltac:(setter eta_Manager storage_calls).

(** A method of the dialog run on the manager. *)
Definition in_dialog {A : Type} (m : M A) : Comp Manager A :=
  fun mg => match m (dialog mg) with (r, s') => (r, set_dialog s' mg) end.

Definition storage_call (c : StorageCall) : Comp Manager unit :=
  modify (fun mg => set_storage_calls (storage_calls mg ++ [c]) mg).

(** The loop of [loadSignatures] over the entries of [signatures], from
    the counter [i] on: [signaturesData[i++]], and a launcher for the
    entry when that is not falsy. *)
Fixpoint render_signatures (env : Env) (signatures : list (string * Stored))
    (signaturesData : list (option Decompressed)) (i : nat)
    : Comp Manager unit :=
  match signatures with
  | [] => ret tt
  | (uuid, stored) :: rest =>
      match signaturesData !! i with
      | Some (Some data) =>
          in_dialog (addToolbarButton env (outlines data) (dec_areContours data)
                       (dec_thickness data) (dec_width data) (dec_height data)
                       (Some uuid) (st_description stored))
      | _ => ret tt
      end ;;
      render_signatures env rest signaturesData (S i)
  end.

(** The promise [loadSignatures] builds: [getAll], then the
    decompression of every value; [all] is what [getAll] resolves to,
    [None] when it is rejected. *)
Definition start_loading (decompress : string -> option Decompressed)
    (all : option (list (string * Stored))) : Comp Manager unit :=
  storage_call storage_getAll ;;
  match all with
  | None => modify (set_loadSignaturesPromise (Some load_rejected))
  | Some signatures =>
      let data := (fun e => st_signatureData (snd e)) <$> signatures in
      modify (fun mg => set_storage_calls
                          (storage_calls mg ++ (decompressSignature <$> data)) mg) ;;
      modify (set_loadSignaturesPromise
                (Some (load_fulfilled signatures (decompress <$> data))))
  end.

(** Whether [#addSignatureToolbarButton.previousElementSibling] is an
    element: whether a launcher precedes the button. *)
Definition has_previousElementSibling (mg : Manager) : bool :=
  match toolbar (dialog mg) with
  | [] => false
  | _ :: _ => true
  end.

(** [loadSignatures(reload)] stops at [await
    this.#loadSignaturesPromise].  [loadSignatures_begin] is what it
    does up to there: it answers the promise it waits for, or nothing
    when it returns before.  [loadSignatures_resume] is what it does
    with a promise that is settled: a rejected one makes the [await]
    throw. *)
Definition loadSignatures_begin (decompress : string -> option Decompressed)
    (reload : bool) (all : option (list (string * Stored)))
    : Comp Manager (option Loaded) :=
  button <- gets has_addSignatureToolbarButton ;;
  previous <- gets has_previousElementSibling ;;
  storage <- gets has_signatureStorage ;;
  cond (negb button || (negb reload && previous) || negb storage)
    (ret None) (
  p <- gets loadSignaturesPromise ;;
  stop <- cond (negb (truthy p))
            (start_loading decompress all ;; ret (negb reload))
            (ret false) ;;
  cond stop (ret None) (
  p <- gets loadSignaturesPromise ;;
  match p with
  | Some l => ret (Some l)
  | None => throw
  end)).

Definition loadSignatures_resume (env : Env) (p : Loaded) : Comp Manager unit :=
  match p with
  | load_fulfilled signatures signaturesData =>
      modify (set_loadSignaturesPromise None) ;;
      render_signatures env signatures signaturesData 0
  | load_rejected => throw
  end.

(** [loadSignatures(reload)] when the promise it waits for is settled
    before anything else runs: no other call is waiting for the same
    promise when this one resumes. *)
Definition loadSignatures (env : Env)
    (decompress : string -> option Decompressed) (reload : bool)
    (all : option (list (string * Stored))) : Comp Manager unit :=
  p <- loadSignatures_begin decompress reload all ;;
  match p with
  | Some l => loadSignatures_resume env l
  | None => ret tt
  end.

(** [#signaturesChanged], the listener of [storedsignatureschanged]:
    every element before the toolbar button is removed first. *)
Definition signaturesChanged (env : Env)
    (decompress : string -> option Decompressed)
    (all : option (list (string * Stored))) : Comp Manager unit :=
  button <- gets has_addSignatureToolbarButton ;;
  cond (negb button) throw (
  in_dialog (modify (set_toolbar [])) ;;
  modify (set_loadSignaturesPromise None) ;;
  loadSignatures env decompress true all).

(** The launcher of one stored signature, when its data can be
    decompressed and drawn. *)
Definition launcher_of (env : Env) (decompress : string -> option Decompressed)
    (e : string * Stored) : option ToolbarButton :=
  match decompress (st_signatureData (snd e)) with
  | Some data =>
      match env_processDrawnLines env (outlines data) (dec_areContours data)
              (dec_thickness data) (dec_width data) (dec_height data) with
      | Some _ => Some (mkToolbarButton (Some (fst e)) (st_description (snd e)))
      | None => None
      end
  | None => None
  end.

(** The command [processDrawnLines] is called with for one stored
    signature that can be decompressed. *)
Definition drawn_of (decompress : string -> option Decompressed)
    (e : string * Stored) : option Call :=
  match decompress (st_signatureData (snd e)) with
  | Some data =>
      Some (processDrawnLines (outlines data) (dec_areContours data)
              (dec_thickness data) (dec_width data) (dec_height data))
  | None => None
  end.

(** The data stored with the signatures, in the order of the storage. *)
Definition stored_data (signatures : list (string * Stored)) : list string :=
  (fun e => st_signatureData (snd e)) <$> signatures.

(** The manager with the launchers of [signatures] appended to the
    toolbar and the calls of [processDrawnLines] made for them. *)
Definition rendered (env : Env) (decompress : string -> option Decompressed)
    (signatures : list (string * Stored)) (mg : Manager) : Manager :=
  set_dialog
    (set_calls (calls (dialog mg) ++ omap (drawn_of decompress) signatures)
       (set_toolbar
          (toolbar (dialog mg) ++ omap (launcher_of env decompress) signatures)
          (dialog mg))) mg.

(** The manager with a load started: the storage asked, every value
    decompressed, and the promise kept. *)
Definition loading (decompress : string -> option Decompressed)
    (signatures : list (string * Stored)) (mg : Manager) : Manager :=
  set_loadSignaturesPromise
    (Some (load_fulfilled signatures (decompress <$> stored_data signatures)))
    (set_storage_calls
       (storage_calls mg ++
        storage_getAll :: (decompressSignature <$> stored_data signatures)) mg).

End SignatureManager.

(** ** The description editor *)

Module EditDescriptionDialog.

(** What [editor.getSignaturePreview()] returns. *)
Record Preview : Type := mkPreview {
  preview_areContours : bool;
  preview_viewBox : string;
  preview_toSVGPath : string
}.

(** The [path] appended to the preview SVG. *)
Record PreviewPath : Type := mkPreviewPath {
  path_d : string;
  path_contours : bool
}.

Inductive Call : Type :=
| removeEditListeners
| addEditListeners
| getSignaturePreview (editor : nat)
| overlayManager_open
| overlayManager_close.

(** The state of the dialog, and the editors of the page: an editor is
    named by a number and [editor_description] holds the [description]
    property of each. *)
Record State : Type := mkState {
  currentEditor : option nat;
  (* [undefined] until the first [open] *)
  previousDescription : option string;
  uiManager : option nat;
  description_value : string;
  clearDescription_disabled : bool;
  updateButton_disabled : bool;
  signatureSVG_aria_label : option string;
  signatureSVG_viewBox : option string;
  signatureSVG_children : list PreviewPath;
  overlay_active : bool;
  editor_description : nat -> string;
  calls : list Call
}.

Definition eta_State : State -> State :=
  (fun s : State => mkState
    (currentEditor s) (previousDescription s) (uiManager s)
    (description_value s) (clearDescription_disabled s)
    (updateButton_disabled s) (signatureSVG_aria_label s)
    (signatureSVG_viewBox s) (signatureSVG_children s) (overlay_active s)
    (editor_description s) (calls s)).

Definition set_currentEditor : option nat -> State -> State :=
  ltac:(setter eta_State currentEditor).
Definition set_previousDescription : option string -> State -> State :=
  ltac:(setter eta_State previousDescription).
Definition set_uiManager : option nat -> State -> State :=
  ltac:(setter eta_State uiManager).
Definition set_description_value : string -> State -> State :=
  ltac:(setter eta_State description_value).
Definition set_clearDescription_disabled : bool -> State -> State :=
  ltac:(setter eta_State clearDescription_disabled).
Definition set_updateButton_disabled : bool -> State -> State :=
  ltac:(setter eta_State updateButton_disabled).
Definition set_signatureSVG_aria_label : option string -> State -> State :=
  ltac:(setter eta_State signatureSVG_aria_label).
Definition set_signatureSVG_viewBox : option string -> State -> State :=
  ltac:(setter eta_State signatureSVG_viewBox).
Definition set_signatureSVG_children : list PreviewPath -> State -> State :=
  ltac:(setter eta_State signatureSVG_children).
Definition set_overlay_active : bool -> State -> State :=
  ltac:(setter eta_State overlay_active).
Definition set_editor_description : (nat -> string) -> State -> State :=
  ltac:(setter eta_State editor_description).
Definition set_calls : list Call -> State -> State :=
  ltac:(setter eta_State calls).

Definition M : Type -> Type := Comp State.

Definition call (c : Call) : M unit :=
  modify (fun s => set_calls (calls s ++ [c]) s).

(** Click on the clear button of the description. *)
Definition clearDescription_click : M unit :=
  modify (set_description_value "") ;;
  modify (set_clearDescription_disabled true).

(** [input] on the description field. *)
Definition descriptionInput_input : M unit :=
  value <- gets description_value ;;
  prev <- gets previousDescription ;;
  modify (set_clearDescription_disabled (bool_decide (value = ""))) ;;
  modify (set_updateButton_disabled (bool_decide (Some value = prev))) ;;
  modify (set_signatureSVG_aria_label (Some value)).

(** [#close], the listener of the [close] event; removing the first
    child of the preview throws when there is none. *)
Definition close : M unit :=
  um <- gets uiManager ;;
  when (truthy um) (call addEditListeners) ;;
  modify (set_uiManager None) ;;
  modify (set_currentEditor None) ;;
  children <- gets signatureSVG_children ;;
  match children with
  | [] => throw
  | _ :: rest => modify (set_signatureSVG_children rest)
  end.

(** [#finish] *)
Definition finish : M unit :=
  active <- gets overlay_active ;;
  when active
    (call overlayManager_close ;;
     modify (set_overlay_active false) ;;
     listener close).

(** [open(editor)]; [ui] is [editor._uiManager] and [preview] the answer
    of [editor.getSignaturePreview()].  The field is taken to hold the
    string it is given: an input that rewrites what it is given, as a
    text input does with line breaks, would leave the field different
    from [#previousDescription], which gets the string of the editor as
    it is. *)
Definition open (editor ui : nat) (preview : Preview) : M unit :=
  modify (set_uiManager (Some ui)) ;;
  modify (set_currentEditor (Some editor)) ;;
  d <- gets (fun s => editor_description s editor) ;;
  modify (set_description_value d) ;;
  modify (set_previousDescription (Some d)) ;;
  listener descriptionInput_input ;;
  call removeEditListeners ;;
  call (getSignaturePreview editor) ;;
  modify (fun s => set_signatureSVG_children
                     (signatureSVG_children s ++
                      [mkPreviewPath (preview_toSVGPath preview)
                         (preview_areContours preview)]) s) ;;
  modify (set_signatureSVG_viewBox (Some (preview_viewBox preview))) ;;
  call overlayManager_open ;;
  modify (set_overlay_active true).

(** [#update] *)
Definition update : M unit :=
  description <- gets description_value ;;
  prev <- gets previousDescription ;;
  cond (bool_decide (prev = Some description)) finish (
  ce <- gets currentEditor ;;
  match ce with
  | None => throw
  | Some editor =>
      modify (fun s => set_editor_description
                         (<[editor := description]> (editor_description s)) s)
  end ;;
  finish).

(** What the user can do between [open] and a click on update or cancel:
    edit the description or clear it. *)
Inductive Event : Type :=
| description_edit (value : string)
| clearDescription_clicked.

Definition dispatch (e : Event) : M unit :=
  match e with
  | description_edit value =>
      modify (set_description_value value) ;;
      listener descriptionInput_input
  | clearDescription_clicked => listener clearDescription_click
  end.

Definition step (s : State) (e : Event) : State := exec (dispatch e) s.

Definition run (s : State) (es : list Event) : State := fold_left step es s.

(** A dialog that was never opened, on a page whose editors have the
    descriptions [descriptions]. *)
Definition initial (descriptions : nat -> string) : State :=
  {| currentEditor := None; previousDescription := None; uiManager := None;
     description_value := ""; clearDescription_disabled := true;
     updateButton_disabled := true; signatureSVG_aria_label := None;
     signatureSVG_viewBox := None; signatureSVG_children := [];
     overlay_active := false; editor_description := descriptions;
     calls := [] |}.

(** Editing leaves the target, the snapshot, the preview, the overlay,
    the editors of the page and the log alone. *)
Definition edit_frame (s s' : State) : Prop :=
  currentEditor s' = currentEditor s ∧
  previousDescription s' = previousDescription s ∧
  uiManager s' = uiManager s ∧
  signatureSVG_children s' = signatureSVG_children s ∧
  overlay_active s' = overlay_active s ∧
  editor_description s' = editor_description s ∧
  calls s' = calls s.


(** The description editor when it is not shown: no target, no UI
    manager, no preview, not the active overlay. *)
Definition closed (s : State) : Prop :=
  currentEditor s = None ∧ uiManager s = None ∧
  signatureSVG_children s = [] ∧ overlay_active s = false.

End EditDescriptionDialog.


(** * Properties of the add-signature dialog *)

Module SignatureManagerSpec.

Import SignatureManager.

(** Symbolic execution of a listener on a state given by its fields:
    unfold the listeners, the combinators and the field updates, and
    split on the tests that remain. *)
Ltac eval_comp :=
  cbv beta iota zeta delta [
    outline newCurves areContours thickness width height viewBox toSVGPath
    file_name file_type dc_width dc_height dc_thickness dc_curves
    stroke_width attr_d drawWidth drawHeight env_getFromText
    env_getDrawnSignature env_drawSVG_rect env_compressSignature
    env_storage_create env_processDrawnLines env_drawId_is_null
    threw exec bind gets modify cond when ret throw listener fst snd negb andb orb
    truthy
    Tab_eqb is_tab other_pointer call tabsToAltText_set tabsToAltText_get
    resetCommon resetTab disableButtons initTypeTab initDrawTab initImageTab
    initTab tabCallback clearButton_click description_input
    clearDescription_click errorCloseButton_click typeInput_input
    description_input_type drawPathString_append new_array array_of array_push drawPath_set_d l10n_then
    drawCallback pointermove pointerup drawThickness_input extractSignature
    extractSignature_begin extractSignature_resume imagePicker_change_begin
    imagePlaceholder_drop_begin add_payload add_compress add_create add_stored
    add_hand_over
    imagePicker_click imagePickerLink_keydown imagePicker_change
    imagePicker_cancel imagePlaceholder_drop getOutlineForType
    getOutlineForDraw addToolbarButton close finish cancel destroy add open
    when_tab dispatch step
    set_currentTab set_tabsToAltText set_hasDescriptionChanged set_drawCurves
    set_drawPoints set_drawPathString set_drawPath set_extractedSignatureData
    set_imagePath set_uiManager set_currentEditor set_description_value
    set_clearDescription_disabled set_typeInput_value set_addButton_disabled
    set_clearButton_disabled set_saveContainer_disabled
    set_saveCheckbox_checked set_saveContainer_fullStorage
    set_drawPlaceholder_hidden set_drawThickness_value
    set_drawThickness_l10n_args set_imagePlaceholder_hidden
    set_imageSVG_viewBox set_imageSVG_paths set_errorBar_hidden
    set_dialog_waiting set_tabButton_selected set_panels_selected set_arrays
    set_tabListeners set_currentPointerId set_strokeListeners
    set_l10n_pending set_overlay_active set_toolbar set_calls
    currentTab tabsToAltText hasDescriptionChanged drawCurves drawPoints
    drawPathString drawPath extractedSignatureData imagePath uiManager
    currentEditor description_value clearDescription_disabled typeInput_value
    addButton_disabled clearButton_disabled saveContainer_disabled
    saveCheckbox_checked saveContainer_fullStorage drawPlaceholder_hidden
    drawThickness_value drawThickness_l10n_args imagePlaceholder_hidden
    imageSVG_viewBox imageSVG_paths errorBar_hidden dialog_waiting
    tabButton_selected panels_selected arrays tabListeners currentPointerId
    strokeListeners l10n_pending overlay_active toolbar calls].

Ltac case_stuck :=
  match goal with
  | |- context [match ?x with _ => _ end] => is_var x; destruct x
  | |- context [if ?c then _ else _] => destruct c eqn:?
  | |- context [match ?x with Some _ => _ | None => _ end] => destruct x eqn:?
  | |- context [match ?x with [] => _ | _ :: _ => _ end] => destruct x eqn:?
  end.

Ltac sym_exec := eval_comp; repeat (case_stuck; eval_comp).

(** ** Clearing the signature *)

(** C10. With a tab active, a click on the clear button returns without
    an exception, keeps the tab, empties the description field, resets
    the dirty flag and the description stored for that tab, and clears
    the capture of that tab: the typed text, or the stroke buffer with
    the path string and the path element, or the traced path.  The
    capture of each of the two other tabs and the descriptions stored
    for them are what they were. *)
Theorem clearSignature_resets_only_active_tab
    (s : State) (t : Tab) (m : gmap (option Tab) string) :
  currentTab s = Some t ->
  tabsToAltText s = Some m ->
  let s' := exec clearButton_click s in
  threw clearButton_click s = false ∧
  currentTab s' = Some t ∧
  description_value s' = "" ∧
  hasDescriptionChanged s' = false ∧
  tabsToAltText s' = Some (<[Some t := ""]> m) ∧
  snapshot s' t = Some "" ∧
  cleared t s' ∧
  ∀ t', t' ≠ t ->
    capture t' s' = capture t' s ∧ snapshot s' t' = snapshot s t'.
Proof.
  intros Ht Hm s'; subst s'.
  unfold snapshot, threw, cleared, capture.
  destruct s; simpl in Ht, Hm; subst.
  destruct t; sym_exec; rewrite ?insert_insert_eq.
  all: repeat match goal with |- _ ∧ _ => split end; try done.
  all: try (simpl; by rewrite lookup_insert_eq).
  all: intros [] ?; try done; split; try done; simpl; by rewrite lookup_insert_ne.
Qed.

(** ** Frames of the pointer listeners *)

Lemma stroke_frame_refl (s : State) : stroke_frame s s.
Proof.
  exists (drawPathString s), (arrays s), (drawPath s), (currentPointerId s).
  by destruct s.
Qed.

Lemma stroke_frame_trans (s1 s2 s3 : State) :
  stroke_frame s1 s2 -> stroke_frame s2 s3 -> stroke_frame s1 s3.
Proof.
  intros (d & a & p & cp & -> & Hp) (d' & a' & p' & cp' & -> & Hp').
  exists d', a', p', cp'. split; [reflexivity|].
  by rewrite Hp'.
Qed.

Lemma pointermove_frame (l : StrokeListeners) (ox oy : Q) (s : State) :
  stroke_frame s (exec (pointermove l ox oy) s).
Proof.
  unfold stroke_frame. destruct s.
  sym_exec; do 4 eexists; (split; [reflexivity|done]).
Qed.

Lemma pointerup_frame (pId : Z) (s : State) :
  stroke_frame s (exec (pointerup pId) s).
Proof.
  unfold stroke_frame. destruct s.
  sym_exec; do 4 eexists; (split; [reflexivity|done]).
Qed.

Lemma dispatch_pointermove_frame (ls : list StrokeListeners) (ox oy : Q) (s : State) :
  stroke_frame s (exec (dispatch_pointermove ls ox oy) s).
Proof.
  revert s; induction ls as [|l ls IH]; intros s; [apply stroke_frame_refl|].
  eapply stroke_frame_trans; [apply (pointermove_frame l ox oy)|].
  apply IH.
Qed.

Lemma dispatch_pointerup_cons
    (l : StrokeListeners) (ls : list StrokeListeners) (pId : Z) (s : State) :
  dispatch_pointerup (l :: ls) pId s =
  match dispatch_pointerup ls pId (exec (pointerup pId) s) with
  | (Some rest, s') =>
      (Some (if other_pointer (currentPointerId s) pId
             then l :: rest else rest), s')
  | (None, s') => (None, s')
  end.
Proof. reflexivity. Qed.

Lemma dispatch_pointerup_frame (ls : list StrokeListeners) (pId : Z) (s : State) :
  stroke_frame s (exec (dispatch_pointerup ls pId) s) ∧
  is_Some (fst (dispatch_pointerup ls pId s)).
Proof.
  revert s; induction ls as [|l ls IH]; intros s.
  { split; [apply stroke_frame_refl|by eexists]. }
  pose proof (pointerup_frame pId s) as Hup.
  destruct (IH (exec (pointerup pId) s)) as [IH1 [rest IH2]].
  unfold exec at 1. rewrite dispatch_pointerup_cons.
  change (stroke_frame (exec (pointerup pId) s)
            (snd (dispatch_pointerup ls pId (exec (pointerup pId) s)))) in IH1.
  destruct (dispatch_pointerup ls pId (exec (pointerup pId) s)) as [[r|] s''];
    simpl in *; [|done].
  split; [|by eexists].
  exact (stroke_frame_trans _ _ _ Hup IH1).
Qed.

(** ** The states of an open dialog *)

Section WithMimeTypes.

Variable SupportedImageMimeTypes : list string.

#[local] Abbreviation step := (SignatureManager.step SupportedImageMimeTypes).
#[local] Abbreviation run := (SignatureManager.run SupportedImageMimeTypes).
#[local] Abbreviation reachable :=
  (SignatureManager.reachable SupportedImageMimeTypes).
#[local] Abbreviation trace := (SignatureManager.trace SupportedImageMimeTypes).
#[local] Abbreviation timely := (SignatureManager.timely SupportedImageMimeTypes).

Lemma run_cons (s : State) (e : Event) (es : list Event) :
  run s (e :: es) = run (step s e) es.
Proof. reflexivity. Qed.

Lemma run_app (s : State) (es es' : list Event) :
  run s (es ++ es') = run (run s es) es'.
Proof. apply fold_left_app. Qed.

Lemma run_snoc (s : State) (es : list Event) (e : Event) :
  run s (es ++ [e]) = step (run s es) e.
Proof. by rewrite run_app. Qed.

(** The pointer events go through the listeners of the strokes only. *)
Lemma step_pointermove_frame (s : State) (ox oy : Q) :
  stroke_frame s (step s (pointermove_to ox oy)).
Proof. apply dispatch_pointermove_frame. Qed.

Lemma step_pointerup_frame (s : State) (pId : Z) :
  ∃ ls s', stroke_frame s s' ∧
           step s (pointerup_of pId) = set_strokeListeners ls s'.
Proof.
  destruct (dispatch_pointerup_frame (strokeListeners s) pId s) as [H [ls Hls]].
  exists ls, (exec (dispatch_pointerup (strokeListeners s) pId) s).
  split; [done|].
  unfold SignatureManager.step, dispatch, exec at 1, bind at 1, gets at 1.
  unfold bind at 1. unfold exec.
  destruct (dispatch_pointerup (strokeListeners s) pId s) as [[r|] s'];
    simpl in *; [|done].
  by injection Hls as ->.
Qed.

Ltac use_session H :=
  destruct H as [(?m & ? & ?) [?t ?] ? ? ? [?ed ?] [?ui ?] ? ? ?].

Ltac session_fields :=
  constructor;
  unfold controls_disabled, has_capture, truthy_string in *; simpl in *;
  repeat match goal with
  | |- _ ∧ _ => split
  | |- is_Some (Some _) => by eexists
  | |- ∃ m, Some _ = Some m ∧ _ => eexists; split; [reflexivity|]
  end;
  try done;
  repeat match goal with
  | H : bool_decide _ = _ |- _ => rewrite H
  end;
  try done;
  try (intros ?; rewrite !lookup_insert; repeat case_decide; by eauto);
  try (intros ? ?; simplify_eq; simpl;
       by (intros [_ ?]%app_eq_nil || eauto));
  try (intros ? ?; simplify_eq; simpl;
       match goal with
       | H : ∀ c, Some _ = Some c -> _ |- _ => by apply (H _ eq_refl)
       end);
  repeat match goal with
  | |- context [bool_decide ?P] => destruct (bool_decide P) eqn:?; simpl in *
  end;
  try congruence.

Lemma stroke_frame_session (s s' : State) :
  session s -> stroke_frame s s' -> session s'.
Proof.
  intros H (d & a & p & cp & -> & Hp).
  use_session H. destruct s; simpl in *; subst.
  session_fields; destruct t; simpl in *; try done; by rewrite Hp.
Qed.

Lemma set_strokeListeners_session (s : State) (ls : list StrokeListeners) :
  session s -> session (set_strokeListeners ls s).
Proof.
  intros H. use_session H. destruct s; simpl in *; subst.
  by session_fields.
Qed.

Lemma step_session (s : State) (e : Event) :
  session s -> session (step s e).
Proof.
  intros H.
  destruct e.
  10:{ eapply stroke_frame_session; [done|apply step_pointermove_frame]. }
  10:{ destruct (step_pointerup_frame s pointerId) as (ls & s' & Hf & ->).
       apply set_strokeListeners_session. by eapply stroke_frame_session. }
  all: try destruct files as [[|? ?]|].
  all: use_session H; destruct s; simpl in *; subst; destruct t; sym_exec; session_fields.
Qed.

(** [open] starts every tab with the empty description. *)
Lemma open_snapshots (t : option Tab) :
  (list_to_map ((fun name => (Some name, "")) <$> tabButtons_keys)
     : gmap (option Tab) string) !! t =
  match t with Some _ => Some "" | None => None end.
Proof. by destruct t as [[]|]. Qed.

Lemma open_session (s : State) (ui editor : nat) (isStorageFull : bool) :
  closed s -> session (exec (open ui editor isStorageFull) s).
Proof.
  intros [].
  destruct s; simpl in *; subst; sym_exec; session_fields.
  all: intros t; rewrite open_snapshots; by eexists.
Qed.

Lemma open_state (s : State) (ui editor : nat) (isStorageFull : bool) :
  closed s ->
  let s' := exec (open ui editor isStorageFull) s in
  currentTab s' = Some type_tab ∧
  (∀ t, snapshot s' t = Some "") ∧
  description_value s' = "" ∧
  saveCheckbox_checked s' = negb isStorageFull ∧
  saveContainer_fullStorage s' = isStorageFull ∧
  calls_since (calls s) s' =
    [removeEditListeners; storage_isFull; overlayManager_open].
Proof.
  intros []. unfold snapshot, calls_since.
  destruct s; simpl in *; subst; sym_exec;
    (repeat split; try done;
     [ intros t; simpl; by rewrite open_snapshots
     | rewrite <- !app_assoc; by rewrite drop_app_length ]).
Qed.

Lemma reachable_session (s : State) : reachable s -> session s.
Proof.
  induction 1 as [s ui editor full Hc | s e _ IH].
  - by apply open_session.
  - by apply step_session.
Qed.

Lemma reachable_run (s : State) (es : list Event) :
  reachable s -> reachable (run s es).
Proof.
  revert s; induction es as [|e es IH]; intros s H; [done|].
  rewrite run_cons. apply IH. by constructor.
Qed.

(** ** The type tab and the description *)

(** A keystroke in the type field while its listeners are live. *)
Lemma type_edit_live (s : State) (v : string) :
  tabListeners s = Some type_tab ->
  let s' := step s (type_edit v) in
  typeInput_value s' = v ∧
  description_value s' =
    (if hasDescriptionChanged s then description_value s else v) ∧
  hasDescriptionChanged s' = hasDescriptionChanged s ∧
  tabListeners s' = Some type_tab.
Proof.
  intros H. destruct s; simpl in *; subst. by sym_exec.
Qed.

(** A keystroke never touches the description once the flag is set. *)
Lemma type_edit_dirty (s : State) (v : string) :
  hasDescriptionChanged s = true ->
  let s' := step s (type_edit v) in
  description_value s' = description_value s ∧
  hasDescriptionChanged s' = true.
Proof.
  intros H. destruct s; simpl in *; subst. by sym_exec.
Qed.

Lemma type_edits_dirty (vs : list string) (s : State) :
  hasDescriptionChanged s = true ->
  description_value (run s (type_edit <$> vs)) = description_value s ∧
  hasDescriptionChanged (run s (type_edit <$> vs)) = true.
Proof.
  revert s; induction vs as [|v vs IH]; intros s H; [done|].
  rewrite fmap_cons, run_cons.
  destruct (type_edit_dirty s v H) as [Hd Hf].
  destruct (IH _ Hf) as [-> ->]. done.
Qed.

Lemma type_edits_live (vs : list string) (s : State) :
  tabListeners s = Some type_tab ->
  hasDescriptionChanged s = false ->
  tabListeners (run s (type_edit <$> vs)) = Some type_tab ∧
  hasDescriptionChanged (run s (type_edit <$> vs)) = false.
Proof.
  revert s; induction vs as [|v vs IH]; intros s Hl Hf; [done|].
  rewrite fmap_cons, run_cons.
  destruct (type_edit_live s v Hl) as (_ & _ & Hf' & Hl').
  apply IH; congruence.
Qed.

(** Which events can clear the dirty flag. *)
Lemma dirty_flag_cleared (s : State) (e : Event) :
  hasDescriptionChanged s = true ->
  hasDescriptionChanged (step s e) = false ->
  e = clear_click ∨
  ∃ d, e = description_edit d ∧ tabListeners s = Some type_tab ∧
       description_value (step s e) = typeInput_value (step s e).
Proof.
  intros H H'.
  destruct e; try (by left).
  all: try (right; eexists; split; [reflexivity|]).
  9:{ destruct (step_pointermove_frame s offsetX offsetY) as (?&?&?&?&Heq&_).
      rewrite Heq in H'. simpl in H'. congruence. }
  9:{ destruct (step_pointerup_frame s pointerId) as (?&?&(?&?&?&?&->&_)&Heq).
      rewrite Heq in H'. simpl in H'. congruence. }
  all: try destruct files as [[|? ?]|].
  all: destruct s; simpl in *; subst; revert H'; sym_exec; try done.
  all: intros _; split; [done|].
  all: match goal with
       | H : bool_decide _ = true |- _ => apply bool_decide_eq_true_1 in H
       end; done.
Qed.

(** An edit of the description while the listeners of the type tab are
    live. *)
Lemma description_edit_live (s : State) (d : string) :
  tabListeners s = Some type_tab ->
  let s' := step s (description_edit d) in
  description_value s' = d ∧ typeInput_value s' = typeInput_value s ∧
  hasDescriptionChanged s' = negb (bool_decide (typeInput_value s = d)).
Proof. intros Hl. destruct s; simpl in *; subst. by sym_exec. Qed.

(** A set flag stays set through events none of which is a click on the
    clear button or an edit that leaves the description equal to the
    typed text, and the keystrokes among them leave the description
    alone. *)
Lemma flag_stays_set (es : list Event) (s : State) :
  hasDescriptionChanged s = true ->
  Forall (fun se =>
            snd se ≠ clear_click ∧
            ∀ d, snd se = description_edit d ->
                 tabListeners (fst se) = Some type_tab ->
                 d ≠ typeInput_value (fst se)) (trace s es) ->
  hasDescriptionChanged (run s es) = true ∧
  Forall (fun se =>
            ∀ v, snd se = type_edit v ->
                 description_value (step (fst se) (snd se)) =
                 description_value (fst se)) (trace s es).
Proof.
  revert s; induction es as [|e es IH]; intros s Hf Hex.
  { split; [done|constructor]. }
  cbn [SignatureManager.trace] in *.
  apply Forall_cons_1 in Hex as [[Hnc Hne] Hex]. simpl in Hnc, Hne.
  assert (Hf' : hasDescriptionChanged (step s e) = true).
  { destruct (hasDescriptionChanged (step s e)) eqn:E; [done|].
    destruct (dirty_flag_cleared s e Hf E) as [->|(d & -> & Hl & Heq)]; [done|].
    destruct (description_edit_live s d Hl) as (Hd & Ht & _).
    exfalso. apply (Hne d eq_refl Hl). by rewrite Hd, Ht in Heq. }
  rewrite run_cons. destruct (IH _ Hf' Hex) as [H1 H2].
  split; [done|]. apply Forall_cons_2; [|done].
  simpl. intros v ->. by apply type_edit_dirty.
Qed.

(** C4, as amended. In the type tab (its listeners live): as long as
    the dirty flag is false, after every keystroke of any sequence of
    keystrokes the description equals the typed text and the flag is
    still false; an edit of the description sets the flag to (typed
    text != description).  From a state where the flag is set, no
    sequence of keystrokes changes the description or the flag; and
    through any events, in any tab, none of which is a click on the
    clear-signature button or an edit that leaves the description equal
    to the typed text while the type tab's listeners are live, the flag
    stays set and every keystroke among them leaves the description as
    it was. *)
Theorem type_tab_mirroring (s : State) :
  (tabListeners s = Some type_tab ->
   hasDescriptionChanged s = false ->
   ∀ vs v, let s' := run s (type_edit <$> (vs ++ [v])) in
     typeInput_value s' = v ∧ description_value s' = v ∧
     hasDescriptionChanged s' = false) ∧
  (tabListeners s = Some type_tab ->
   ∀ d, let s' := step s (description_edit d) in
     description_value s' = d ∧ typeInput_value s' = typeInput_value s ∧
     hasDescriptionChanged s' = negb (bool_decide (typeInput_value s = d))) ∧
  (hasDescriptionChanged s = true ->
   ∀ vs, let s' := run s (type_edit <$> vs) in
     description_value s' = description_value s ∧
     hasDescriptionChanged s' = true) ∧
  (hasDescriptionChanged s = true ->
   ∀ es,
     Forall (fun se =>
               snd se ≠ clear_click ∧
               ∀ d, snd se = description_edit d ->
                    tabListeners (fst se) = Some type_tab ->
                    d ≠ typeInput_value (fst se)) (trace s es) ->
     hasDescriptionChanged (run s es) = true ∧
     Forall (fun se =>
               ∀ v, snd se = type_edit v ->
                    description_value (step (fst se) (snd se)) =
                    description_value (fst se)) (trace s es)).
Proof.
  split; [|split; [|split]].
  - intros Hl Hf vs v s'. subst s'.
    rewrite fmap_app, run_app. simpl.
    destruct (type_edits_live vs s Hl Hf) as [Hl' Hf'].
    destruct (type_edit_live (run s (type_edit <$> vs)) v Hl') as (-> & -> & -> & _).
    by rewrite Hf'.
  - intros Hl d. by apply description_edit_live.
  - intros Hf vs. by apply type_edits_dirty.
  - intros Hf es. by apply flag_stays_set.
Qed.

(** C5, as amended. A click on the clear-description control empties the
    description, disables the control and changes nothing else, so the
    dirty flag is what it was.  While the flag is set a keystroke in the
    type field leaves the description and the flag alone.  The only
    events that clear a set flag are an edit of the description, with
    the type tab's listeners live, that leaves it equal to the typed
    text, and a click on the clear-signature button. *)
Theorem clearDescription_keeps_dirty_flag (s : State) :
  let s1 := step s clearDescription_clicked in
  s1 = set_clearDescription_disabled true (set_description_value "" s) ∧
  description_value s1 = "" ∧
  clearDescription_disabled s1 = true ∧
  hasDescriptionChanged s1 = hasDescriptionChanged s ∧
  (∀ s' v, hasDescriptionChanged s' = true ->
     description_value (step s' (type_edit v)) = description_value s' ∧
     hasDescriptionChanged (step s' (type_edit v)) = true) ∧
  (∀ s' e, hasDescriptionChanged s' = true ->
     hasDescriptionChanged (step s' e) = false ->
     e = clear_click ∨
     ∃ d, e = description_edit d ∧ tabListeners s' = Some type_tab ∧
          description_value (step s' e) = typeInput_value (step s' e)).
Proof.
  repeat split; try (by destruct s).
  - apply type_edit_dirty; done.
  - apply type_edit_dirty; done.
  - apply dirty_flag_cleared.
Qed.

(** ** Extraction of an image without outline *)

Lemma extractSignature_without_outline
    (s : State) (file : File) (bitmap : nat) (d : SignatureData) :
  is_Some (uiManager s) ->
  is_Some (currentEditor s) ->
  outline d = None ->
  let extraction := extractSignature file (resolved (Some bitmap)) (Some d) in
  let s' := exec extraction s in
  threw extraction s = false ∧
  s' = set_dialog_waiting false
         (set_extractedSignatureData (Some d) (set_calls (calls s') s)) ∧
  calls_since (calls s) s' = [getFromFile file; getFromImage bitmap].
Proof.
  intros [ui Hui] [ed Hed] Hd extraction s'. subst extraction s'.
  unfold calls_since.
  destruct d; simpl in Hd; subst.
  destruct s; simpl in *; subst. sym_exec.
  repeat split. rewrite <- !app_assoc; by rewrite drop_app_length.
Qed.

Lemma extraction_events
    (s : State) (file : File) (files : list File)
    (bitmap : nat) (d : SignatureData) :
  is_Some (uiManager s) ->
  is_Some (currentEditor s) ->
  outline d = None ->
  tabListeners s = Some image_tab ->
  supported SupportedImageMimeTypes (file_type file) = true ->
  let s' := exec (extractSignature file (resolved (Some bitmap)) (Some d)) s in
  step s (picker_change (Some (file :: files))
            (resolved (Some bitmap)) (Some d)) = s' ∧
  step s (placeholder_drop (Some (file :: files))
            (resolved (Some bitmap)) (Some d)) = s'.
Proof.
  intros [ui Hui] [ed Hed] Hd Hl Hsup s'. subst s'.
  unfold SignatureManager.step, dispatch.
  destruct file, d; simpl in Hsup, Hd.
  destruct s; simpl in *; subst.
  split; eval_comp; cbn [mbind option_bind head find];
    rewrite Hsup; by eval_comp.
Qed.

(** C7, as amended. When the file is decoded and the tracing returns a
    result without outline, [#extractSignature] returns without an
    exception, resets the waiting indicator, stores the result in
    [#extractedSignatureData] and changes nothing else: the traced path,
    the image panel, the three controls, the description and the error
    bar are what they were, and the only collaborators called are
    [getFromFile] and [getFromImage].  So a tab without a traced path
    and with its controls disabled stays so.  The same holds when the
    extraction is started by the picker or by a drop with the file in
    first place, the image tab's listeners being live and the type of
    the file supported. *)
Theorem extraction_without_outline
    (s : State) (file : File) (bitmap : nat) (d : SignatureData) :
  is_Some (uiManager s) ->
  is_Some (currentEditor s) ->
  outline d = None ->
  let extraction := extractSignature file (resolved (Some bitmap)) (Some d) in
  let s' := exec extraction s in
  threw extraction s = false ∧
  s' = set_dialog_waiting false
         (set_extractedSignatureData (Some d) (set_calls (calls s') s)) ∧
  calls_since (calls s) s' = [getFromFile file; getFromImage bitmap] ∧
  dialog_waiting s' = false ∧
  errorBar_hidden s' = errorBar_hidden s ∧
  extractedSignatureData s' = Some d ∧
  (imagePath s = None -> controls_disabled s true ->
   imagePath s' = None ∧ controls_disabled s' true ∧
   imageSVG_paths s' = imageSVG_paths s ∧
   imagePlaceholder_hidden s' = imagePlaceholder_hidden s) ∧
  (tabListeners s = Some image_tab ->
   supported SupportedImageMimeTypes (file_type file) = true ->
   ∀ files,
     step s (picker_change (Some (file :: files))
               (resolved (Some bitmap)) (Some d)) = s' ∧
     step s (placeholder_drop (Some (file :: files))
               (resolved (Some bitmap)) (Some d)) = s').
Proof.
  intros Hui Hed Hd extraction s'.
  destruct (extractSignature_without_outline s file bitmap d Hui Hed Hd)
    as (Ht & Heq & Hcalls).
  fold extraction in Ht, Heq, Hcalls. fold s' in Heq, Hcalls.
  assert (Hw : dialog_waiting s' = false) by by rewrite Heq.
  split; [done|]. split; [done|]. split; [done|]. split; [done|].
  split; [by rewrite Heq|]. split; [by rewrite Heq|].
  split.
  - intros Hp Hc. rewrite Heq. done.
  - intros Hl Hsup files.
    by apply extraction_events.
Qed.

(** ** Tab switches *)

(** A click on another tab: the description is stored for the tab that
    is left, the tab clicked becomes current, and the description field
    shows what is stored for it. *)
Lemma tab_click_switch (s : State) (t t' : Tab) :
  session s -> currentTab s = Some t -> t' ≠ t ->
  let s1 := step s (tab_click t') in
  ∃ m, tabsToAltText s = Some m ∧
       tabsToAltText s1 = Some (<[Some t := description_value s]> m) ∧
       currentTab s1 = Some t' ∧
       snapshot s t' = Some (description_value s1).
Proof.
  intros H Ht Hne. unfold snapshot. use_session H.
  destruct s; simpl in *; simplify_eq.
  exists m. destruct (H0 t') as [v Hv].
  destruct t, t'; try done; sym_exec;
    (repeat split; try done);
    simpl; rewrite lookup_insert_ne by done; rewrite Hv; done.
Qed.

(** A click on the current tab changes nothing. *)
Lemma tab_click_current (s : State) (t : Tab) :
  session s -> currentTab s = Some t -> step s (tab_click t) = s.
Proof.
  intros H Ht. use_session H.
  destruct s; simpl in *; simplify_eq.
  by destruct t; sym_exec.
Qed.

(** An event that is not a click on tab [t], in a state where [t] is not
    current, leaves the description stored for [t] alone and does not
    make [t] current. *)
Lemma step_other_tab (s : State) (e : Event) (t : Tab) :
  currentTab s ≠ Some t -> e ≠ tab_click t ->
  snapshot (step s e) t = snapshot s t ∧ currentTab (step s e) ≠ Some t.
Proof.
  intros Hc He. unfold snapshot.
  destruct e.
  10:{ destruct (step_pointermove_frame s offsetX offsetY) as (?&?&?&?&->&_).
       done. }
  10:{ destruct (step_pointerup_frame s pointerId) as (?&?&(?&?&?&?&->&_)&->).
       done. }
  all: try destruct files as [[|? ?]|].
  all: destruct s; simpl in *; sym_exec; try done.
  all: try (destruct t; done).
  all: try (split; [|congruence]); simpl;
       rewrite ?lookup_insert_ne by congruence; try done.
  all: split; [|congruence]; simpl;
       rewrite ?lookup_insert_ne by congruence; done.
Qed.

Lemma run_other_tab (es : list Event) (s : State) (t : Tab) :
  currentTab s ≠ Some t -> tab_click t ∉ es ->
  snapshot (run s es) t = snapshot s t ∧ currentTab (run s es) ≠ Some t.
Proof.
  revert s; induction es as [|e es IH]; intros s Hc Hes; [done|].
  rewrite run_cons.
  apply not_elem_of_cons in Hes as [He Hes].
  destruct (step_other_tab s e t Hc) as [Hs Hc']; [congruence|].
  destruct (IH (step s e) Hc' Hes) as [-> ?]. by rewrite Hs.
Qed.

(** A click on tab [t] shows the description stored for it. *)
Lemma tab_click_restores (s : State) (t : Tab) :
  session s -> currentTab s ≠ Some t ->
  snapshot s t = Some (description_value (step s (tab_click t))).
Proof.
  intros H Hc. destruct (session_tab s H) as [cur Hcur].
  destruct (tab_click_switch s cur t H Hcur) as (m & _ & _ & _ & ->);
    [congruence|done].
Qed.

(** C1. In an open dialog with tab [t] current: a click on [t] changes
    nothing; a click on another tab [t'] stores the description shown
    for [t], leaves what is stored for the other tabs, makes [t']
    current and shows the description stored for [t'].  After that click
    and any events without a click on [t], a click on [t] shows again
    the description that was shown when [t] was left.  And in a dialog
    just opened, after any events without a click on a tab other than
    the type tab, a click on that tab shows the empty description. *)
Theorem tab_switch_snapshots (s : State) (t t' : Tab) (es : list Event) :
  reachable s ->
  currentTab s = Some t ->
  t' ≠ t ->
  tab_click t ∉ es ->
  let s1 := step s (tab_click t') in
  step s (tab_click t) = s ∧
  snapshot s1 t = Some (description_value s) ∧
  (∀ t'', t'' ≠ t -> snapshot s1 t'' = snapshot s t'') ∧
  currentTab s1 = Some t' ∧
  snapshot s t' = Some (description_value s1) ∧
  description_value (step (run s1 es) (tab_click t)) = description_value s ∧
  (∀ s0 ui editor isStorageFull es0 t0,
     closed s0 -> t0 ≠ type_tab -> tab_click t0 ∉ es0 ->
     description_value
       (step (run (exec (open ui editor isStorageFull) s0) es0)
          (tab_click t0)) = "").
Proof.
  intros Hr Ht Hne Hes s1.
  pose proof (reachable_session s Hr) as Hs.
  destruct (tab_click_switch s t t' Hs Ht Hne) as (m & Hm & Hm1 & Hc1 & Hd1).
  fold s1 in Hm1, Hc1, Hd1.
  assert (Hsnap : snapshot s1 t = Some (description_value s)).
  { unfold snapshot. rewrite Hm1. simpl. apply lookup_insert_eq. }
  repeat split; try done.
  - by apply tab_click_current.
  - intros t'' Hne'. unfold snapshot. rewrite Hm1, Hm. simpl.
    apply lookup_insert_ne. congruence.
  - assert (Hc : currentTab s1 ≠ Some t) by (rewrite Hc1; congruence).
    destruct (run_other_tab es s1 t Hc Hes) as [Hsn Hcur].
    assert (Hr1 : reachable (run s1 es)).
    { apply reachable_run. by constructor. }
    pose proof (tab_click_restores _ t (reachable_session _ Hr1) Hcur) as Hrest.
    rewrite Hsn, Hsnap in Hrest. by injection Hrest.
  - intros s0 ui editor full es0 t0 Hcl Ht0 Hes0.
    destruct (open_state s0 ui editor full Hcl) as (Hc0 & Hsn0 & _).
    set (s2 := exec (open ui editor full) s0) in *.
    assert (Hc : currentTab s2 ≠ Some t0) by (rewrite Hc0; congruence).
    destruct (run_other_tab es0 s2 t0 Hc Hes0) as [Hsn Hcur].
    assert (Hr2 : reachable (run s2 es0)).
    { apply reachable_run. by constructor. }
    pose proof (tab_click_restores _ t0 (reachable_session _ Hr2) Hcur) as Hrest.
    rewrite Hsn, Hsn0 in Hrest. by injection Hrest.
Qed.

(** ** The commit, clear and save controls *)

Ltac controls_fields :=
  unfold controls_follow, controls_disabled, has_capture, truthy_string in *;
  simpl in *;
  repeat match goal with
  | |- _ ∧ _ => split
  end;
  try done;
  repeat match goal with
  | H : bool_decide _ = _ |- _ => rewrite H
  end;
  try done;
  repeat match goal with
  | |- context [bool_decide ?P] => destruct (bool_decide P) eqn:?; simpl in *
  end;
  try congruence.

Lemma stroke_frame_controls (s s' : State) :
  controls_follow s -> stroke_frame s s' -> controls_follow s'.
Proof.
  intros H (d & a & p & cp & -> & Hp).
  unfold controls_follow, controls_disabled, has_capture in *.
  destruct s; simpl in *.
  destruct currentTab0 as [[]|]; simpl in *; try done. by rewrite Hp.
Qed.

(** [open] leaves the controls disabled on an empty type tab, enabled
    on typed text left in the field. *)
Lemma open_controls (s : State) (ui editor : nat) (isStorageFull : bool) :
  closed s -> controls_follow (exec (open ui editor isStorageFull) s).
Proof.
  intros [].
  destruct s; simpl in *; subst; sym_exec; controls_fields.
Qed.

(** Every event keeps the controls in step with the capture of the
    current tab, but an extraction that resumes with an outline while
    another tab is current. *)
Lemma step_controls (s : State) (e : Event) :
  session s -> controls_follow s -> in_time s e ->
  controls_follow (step s e).
Proof.
  intros H Hc Hin.
  unfold controls_follow, controls_disabled, has_capture, truthy_string in Hc.
  destruct Hc as (Hc1 & Hc2 & Hc3).
  destruct e.
  10:{ eapply stroke_frame_controls; [|apply step_pointermove_frame].
       by unfold controls_follow, controls_disabled, has_capture, truthy_string. }
  10:{ destruct (step_pointerup_frame s pointerId) as (ls & s' & Hf & ->).
       assert (Hc : controls_follow s) by done.
       pose proof (stroke_frame_controls s s' Hc Hf) as Hc'.
       destruct s'; exact Hc'. }
  18:{ unfold in_time in Hin.
       destruct fromFile as [|[bitmap|]], fromImage as [[[o|] ? ? ? ? ?]|];
         simpl in Hin; try specialize (Hin eq_refl).
       all: use_session H; destruct s; simpl in *; simplify_eq.
       all: try (destruct t; sym_exec; by controls_fields).
       all: sym_exec; by controls_fields. }
  all: try destruct files as [[|? ?]|].
  all: use_session H; destruct s; simpl in *; subst; destruct t; sym_exec;
    by controls_fields.
Qed.

Lemma run_controls (es : list Event) (s : State) :
  session s -> controls_follow s -> timely s es ->
  controls_follow (run s es).
Proof.
  revert s; induction es as [|e es IH]; intros s Hs Hc Ht; [done|].
  unfold SignatureManager.timely in Ht. cbn [SignatureManager.trace] in Ht.
  apply Forall_cons_1 in Ht as [Hin Ht]. rewrite run_cons.
  apply IH; [by apply step_session|by apply step_controls|done].
Qed.

(** C3, as amended. In every state an open dialog reaches through
    events among which each extraction that resumes and traces an
    outline does so while the image tab is current, the add button, the
    clear button and the save container are enabled if and only if the
    active tab holds a capture: typed text that is not empty in the type
    tab, the path of a drawing in the draw tab, the path of a traced
    image in the image tab.  In every state of an open dialog, the path
    of a drawing exists as soon as a stroke was begun by a
    [pointerdown], whether or not the stroke was released, and after a
    click on the clear button the active tab holds no capture and the
    three controls are disabled. *)
Theorem controls_follow_capture
    (s0 : State) (ui editor : nat) (isStorageFull : bool) (es : list Event) :
  closed s0 ->
  let s1 := exec (open ui editor isStorageFull) s0 in
  let s := run s1 es in
  (timely s1 es -> controls_disabled s (negb (has_capture s))) ∧
  (has_capture s =
     match currentTab s with
     | Some type_tab => negb (bool_decide (typeInput_value s = ""))
     | Some draw_tab => bool_decide (0 < strokes_begun s)%nat
     | Some image_tab => truthy (imagePath s)
     | None => false
     end) ∧
  (truthy (drawPath s) = true ↔ (0 < strokes_begun s)%nat) ∧
  has_capture (step s clear_click) = false ∧
  controls_disabled (step s clear_click) true.
Proof.
  intros Hc0 s1 s.
  assert (Hs1 : session s1) by by apply open_session.
  assert (Hr : reachable s) by (apply reachable_run; by constructor).
  pose proof (reachable_session s Hr) as Hs.
  assert (Hpath : truthy (drawPath s) = true ↔ (0 < strokes_begun s)%nat).
  { rewrite <- (session_path s Hs). unfold strokes_begun.
    pose proof (session_strokes s Hs) as Hst.
    destruct (drawCurves s) as [c|]; simpl; [|split; [done|lia]].
    specialize (Hst c eq_refl). destruct (dc_curves c); [done|].
    simpl. split; [lia|done]. }
  split; [|split; [|split; [done|]]].
  - intros Ht. apply run_controls; [done|by apply open_controls|done].
  - unfold has_capture. destruct (currentTab s) as [[]|]; try done.
    destruct (truthy (drawPath s)) eqn:E.
    + symmetry. apply bool_decide_eq_true_2. by apply Hpath.
    + symmetry. apply bool_decide_eq_false_2. intros Hlt.
      apply Hpath in Hlt. congruence.
  - use_session Hs. unfold has_capture, controls_disabled.
    clearbody s. clear Hr Hpath.
    destruct s; simpl in *; simplify_eq.
    by destruct t; sym_exec.
Qed.

(** The change and the drop whose extraction is settled at once are the
    pending ones followed by the extraction resuming. *)
Lemma extraction_in_two_steps
    (s : State) (file : File) (files : list File) (fromFile : FromFile)
    (fromImage : option SignatureData) :
  session s ->
  tabListeners s = Some image_tab ->
  supported SupportedImageMimeTypes (file_type file) = true ->
  step s (picker_change (Some (file :: files)) fromFile fromImage) =
    run s [picker_change_pending (Some (file :: files));
           getFromFile_settled file fromFile fromImage] ∧
  step s (placeholder_drop (Some (file :: files)) fromFile fromImage) =
    run s [placeholder_drop_pending (Some (file :: files));
           getFromFile_settled file fromFile fromImage].
Proof.
  intros Hs Hl Hsup. use_session Hs.
  unfold SignatureManager.run, fold_left, SignatureManager.step, dispatch.
  destruct file. destruct s; simpl in *; simplify_eq.
  split; eval_comp; cbn [mbind option_bind head find]; rewrite Hsup;
    by sym_exec.
Qed.

(** An extraction that resumes after the image tab was left enables the
    three controls of the tab that is current by then. *)
Lemma late_extraction_enables_controls
    (s : State) (file : File) (bitmap : nat) (d : SignatureData) (o : Outline) :
  session s ->
  outline d = Some o ->
  let s' := step s (getFromFile_settled file (resolved (Some bitmap)) (Some d)) in
  controls_disabled s' false ∧
  currentTab s' = currentTab s ∧
  typeInput_value s' = typeInput_value s ∧
  drawPath s' = drawPath s ∧
  imagePath s' = Some (toSVGPath o).
Proof.
  intros Hs Ho. use_session Hs. unfold controls_disabled.
  destruct d. destruct s; simpl in *; simplify_eq. by sym_exec.
Qed.

(** ** Commit *)

(** The same, stopping at [#finish]. *)
Ltac eval_upto_finish :=
  cbv beta iota zeta delta [
    outline newCurves areContours thickness width height viewBox toSVGPath
    file_name file_type dc_width dc_height dc_thickness dc_curves
    stroke_width attr_d drawWidth drawHeight env_getFromText
    env_getDrawnSignature env_drawSVG_rect env_compressSignature
    env_storage_create env_processDrawnLines env_drawId_is_null
    threw exec bind gets modify cond when ret throw listener fst snd negb andb orb
    truthy
    Tab_eqb is_tab other_pointer call tabsToAltText_set tabsToAltText_get
    resetCommon resetTab disableButtons initTypeTab initDrawTab initImageTab
    initTab tabCallback clearButton_click description_input
    clearDescription_click errorCloseButton_click typeInput_input
    description_input_type drawPathString_append new_array array_of array_push drawPath_set_d l10n_then
    drawCallback pointermove pointerup drawThickness_input extractSignature
    extractSignature_begin extractSignature_resume imagePicker_change_begin
    imagePlaceholder_drop_begin add_payload add_compress add_create add_stored
    add_hand_over
    imagePicker_click imagePickerLink_keydown imagePicker_change
    imagePicker_cancel imagePlaceholder_drop getOutlineForType
    getOutlineForDraw addToolbarButton cancel destroy add open
    when_tab dispatch step
    set_currentTab set_tabsToAltText set_hasDescriptionChanged set_drawCurves
    set_drawPoints set_drawPathString set_drawPath set_extractedSignatureData
    set_imagePath set_uiManager set_currentEditor set_description_value
    set_clearDescription_disabled set_typeInput_value set_addButton_disabled
    set_clearButton_disabled set_saveContainer_disabled
    set_saveCheckbox_checked set_saveContainer_fullStorage
    set_drawPlaceholder_hidden set_drawThickness_value
    set_drawThickness_l10n_args set_imagePlaceholder_hidden
    set_imageSVG_viewBox set_imageSVG_paths set_errorBar_hidden
    set_dialog_waiting set_tabButton_selected set_panels_selected set_arrays
    set_tabListeners set_currentPointerId set_strokeListeners
    set_l10n_pending set_overlay_active set_toolbar set_calls
    currentTab tabsToAltText hasDescriptionChanged drawCurves drawPoints
    drawPathString drawPath extractedSignatureData imagePath uiManager
    currentEditor description_value clearDescription_disabled typeInput_value
    addButton_disabled clearButton_disabled saveContainer_disabled
    saveCheckbox_checked saveContainer_fullStorage drawPlaceholder_hidden
    drawThickness_value drawThickness_l10n_args imagePlaceholder_hidden
    imageSVG_viewBox imageSVG_paths errorBar_hidden dialog_waiting
    tabButton_selected panels_selected arrays tabListeners currentPointerId
    strokeListeners l10n_pending overlay_active toolbar calls].

(** [#finish] always returns; it leaves the dialog closed, calls the
    overlay manager when the dialog was shown, and besides that only
    lets [#close] talk to the editor and to the UI manager. *)
Lemma finish_effect (env : Env) (s : State) :
  fst (finish env s) = Some tt ∧
  overlay_active (snd (finish env s)) = false ∧
  toolbar (snd (finish env s)) = toolbar s ∧
  errorBar_hidden (snd (finish env s)) = errorBar_hidden s ∧
  ∃ post,
    calls (snd (finish env s)) =
      calls s ++ (if overlay_active s then [overlayManager_close] else []) ++ post ∧
    Forall (fun c => c = editor_remove ∨ c = addEditListeners) post.
Proof.
  destruct env, s. sym_exec; repeat split; try done.
  all: rewrite <- ?app_assoc; simpl.
  all: try (exists []; rewrite ?app_nil_r; by split).
  all: eexists; split; [reflexivity|].
  all: repeat first [apply Forall_nil_2 | apply Forall_cons_2; [by (left + right)|]].
Qed.

Ltac sym_exec_upto_finish :=
  eval_upto_finish; repeat (case_stuck; eval_upto_finish).

(** [#add] up to its call of [#finish]. *)
Lemma add_runs (env : Env) (s : State) :
  is_Some (currentEditor s) ->
  (saveCheckbox_checked s = true -> is_Some (resolved_payload env s)) ->
  ∃ mid,
    add env s = finish env mid ∧
    calls mid = calls s ++ commit_calls env s ∧
    toolbar mid = toolbar s ++ commit_launchers env s ∧
    overlay_active mid = overlay_active s ∧
    errorBar_hidden mid = errorBar_hidden s.
Proof.
  intros [ed Hed] Hp.
  unfold commit_calls, commit_launchers, compressed, resolved_payload in *.
  destruct env, s; simpl in *; subst.
  destruct saveCheckbox_checked0.
  - destruct (Hp eq_refl) as [d Hd]. clear Hp.
    destruct currentTab0 as [[]|]; simplify_eq; try rewrite <- Hd;
      sym_exec_upto_finish;
      (eexists; split; [reflexivity|]); simpl;
      rewrite ?Heqb, ?Heqo, <- ?app_assoc, ?app_nil_r; done.
  - clear Hp.
    destruct currentTab0 as [[]|];
      sym_exec_upto_finish;
      (eexists; split; [reflexivity|]); simpl;
      rewrite <- ?app_assoc, ?app_nil_r; done.
Qed.

(** The calls of a commit: those of [#add] itself, the closing of the
    dialog when it is shown, and what [#close] says to the editor and to
    the UI manager. *)
Lemma add_calls (env : Env) (s : State) :
  is_Some (currentEditor s) ->
  (saveCheckbox_checked s = true -> is_Some (resolved_payload env s)) ->
  let s' := exec (add env) s in
  threw (add env) s = false ∧
  overlay_active s' = false ∧
  toolbar s' = toolbar s ++ commit_launchers env s ∧
  errorBar_hidden s' = errorBar_hidden s ∧
  ∃ post,
    calls_since (calls s) s' =
      commit_calls env s ++
      (if overlay_active s then [overlayManager_close] else []) ++ post ∧
    Forall (fun c => c = editor_remove ∨ c = addEditListeners) post.
Proof.
  intros Hed Hp s'. subst s'. unfold threw, exec, calls_since.
  destruct (add_runs env s Hed Hp) as (mid & -> & Hc & Ht & Ho & He).
  destruct (finish_effect env mid) as (-> & -> & -> & -> & post & -> & Hpost).
  rewrite Hc, Ht, Ho, He.
  repeat split; try done.
  exists post. split; [|done].
  rewrite <- app_assoc. by rewrite drop_app_length.
Qed.



(** ** The save checkbox and a full storage *)

(** No event of the open dialog changes the mark of a full storage. *)
Lemma step_fullStorage (s : State) (e : Event) :
  saveContainer_fullStorage (step s e) = saveContainer_fullStorage s.
Proof.
  destruct e.
  10:{ by destruct (step_pointermove_frame s offsetX offsetY) as (?&?&?&?&->&_). }
  10:{ by destruct (step_pointerup_frame s pointerId) as (?&?&(?&?&?&?&->&_)&->). }
  all: try destruct files as [[|? ?]|].
  all: destruct s; by sym_exec.
Qed.

Lemma run_fullStorage (es : list Event) (s : State) :
  saveContainer_fullStorage (run s es) = saveContainer_fullStorage s.
Proof.
  revert s; induction es as [|e es IH]; intros s; [done|].
  by rewrite run_cons, IH, step_fullStorage.
Qed.

(** C8. [open] asks the storage whether it is full; the save checkbox
    starts unchecked exactly when it is, and the save container is marked
    exactly when it is.  The mark stays through every event of the
    dialog, and a click on the checkbox checks an unchecked box whatever
    the mark.  A commit with the checkbox checked, on a dialog that has
    its editor and a payload, calls [compressSignature] and then
    [create] of the storage with the description and the compressed
    payload, whatever the mark. *)
Theorem full_storage_does_not_block_saving
    (s0 : State) (ui editor : nat) (isStorageFull : bool) (es : list Event)
    (env : Env) (d : SignatureData) :
  closed s0 ->
  let s1 := exec (open ui editor isStorageFull) s0 in
  let s := run s1 es in
  In storage_isFull (calls_since (calls s0) s1) ∧
  saveCheckbox_checked s1 = negb isStorageFull ∧
  saveContainer_fullStorage s1 = isStorageFull ∧
  saveContainer_fullStorage s = isStorageFull ∧
  saveCheckbox_checked (step s saveCheckbox_click) = negb (saveCheckbox_checked s) ∧
  saveContainer_fullStorage (step s saveCheckbox_click) = isStorageFull ∧
  (saveCheckbox_checked s = true ->
   resolved_payload env s = Some d ->
   ∃ before after,
     calls_since (calls s) (exec (add env) s) =
       before ++
       [compressSignature (newCurves d) (areContours d) (thickness d)
          (width d) (height d);
        storage_create (description_value s) (compressed env d)] ++ after).
Proof.
  intros Hcl s1 s.
  destruct (open_state s0 ui editor isStorageFull Hcl) as (_ & _ & _ & Hck & Hfull & Hcalls).
  fold s1 in Hck, Hfull, Hcalls.
  assert (Hr : reachable s) by (apply reachable_run; by constructor).
  pose proof (reachable_session s Hr) as Hs.
  split; [rewrite Hcalls; simpl; tauto|]. split; [done|]. split; [done|].
  split; [subst s; by rewrite run_fullStorage|].
  split; [by destruct s|].
  split; [rewrite step_fullStorage; subst s; by rewrite run_fullStorage|].
  intros Hsave Hd.
  destruct (add_calls env s (session_editor s Hs)) as (_ & _ & _ & _ & post & -> & _).
  { intros _. by rewrite Hd. }
  unfold commit_calls. rewrite Hsave, Hd.
  match goal with
  | |- ∃ b a, (?T ++ [?c1; ?c2] ++ ?more) ++ ?rest = _ =>
      exists T, (more ++ rest)
  end.
  by rewrite <- !app_assoc.
Qed.

(** ** The path of a stroke *)

(** The same, leaving the boolean connectives of the tests folded. *)
Ltac eval_keep_bool :=
  cbv beta iota zeta delta [
    outline newCurves areContours thickness width height viewBox toSVGPath
    file_name file_type dc_width dc_height dc_thickness dc_curves
    stroke_width attr_d drawWidth drawHeight env_getFromText
    env_getDrawnSignature env_drawSVG_rect env_compressSignature
    env_storage_create env_processDrawnLines env_drawId_is_null
    threw exec bind gets modify cond when ret throw listener fst snd
    truthy
    Tab_eqb is_tab other_pointer call tabsToAltText_set tabsToAltText_get
    resetCommon resetTab disableButtons initTypeTab initDrawTab initImageTab
    initTab tabCallback clearButton_click description_input
    clearDescription_click errorCloseButton_click typeInput_input
    description_input_type drawPathString_append new_array array_of array_push drawPath_set_d l10n_then
    drawCallback pointermove pointerup drawThickness_input extractSignature
    extractSignature_begin extractSignature_resume imagePicker_change_begin
    imagePlaceholder_drop_begin add_payload add_compress add_create add_stored
    add_hand_over
    imagePicker_click imagePickerLink_keydown imagePicker_change
    imagePicker_cancel imagePlaceholder_drop getOutlineForType
    getOutlineForDraw addToolbarButton close finish cancel destroy add open
    when_tab dispatch step
    set_currentTab set_tabsToAltText set_hasDescriptionChanged set_drawCurves
    set_drawPoints set_drawPathString set_drawPath set_extractedSignatureData
    set_imagePath set_uiManager set_currentEditor set_description_value
    set_clearDescription_disabled set_typeInput_value set_addButton_disabled
    set_clearButton_disabled set_saveContainer_disabled
    set_saveCheckbox_checked set_saveContainer_fullStorage
    set_drawPlaceholder_hidden set_drawThickness_value
    set_drawThickness_l10n_args set_imagePlaceholder_hidden
    set_imageSVG_viewBox set_imageSVG_paths set_errorBar_hidden
    set_dialog_waiting set_tabButton_selected set_panels_selected set_arrays
    set_tabListeners set_currentPointerId set_strokeListeners
    set_l10n_pending set_overlay_active set_toolbar set_calls
    currentTab tabsToAltText hasDescriptionChanged drawCurves drawPoints
    drawPathString drawPath extractedSignatureData imagePath uiManager
    currentEditor description_value clearDescription_disabled typeInput_value
    addButton_disabled clearButton_disabled saveContainer_disabled
    saveCheckbox_checked saveContainer_fullStorage drawPlaceholder_hidden
    drawThickness_value drawThickness_l10n_args imagePlaceholder_hidden
    imageSVG_viewBox imageSVG_paths errorBar_hidden dialog_waiting
    tabButton_selected panels_selected arrays tabListeners currentPointerId
    strokeListeners l10n_pending overlay_active toolbar calls].

(** Arrays of points. *)
Lemma flat_app (a b : list (Z * Z)) : flat (a ++ b) = flat a ++ flat b.
Proof. apply flat_map_app. Qed.

Lemma length_flat (pts : list (Z * Z)) : length (flat pts) = (2 * length pts)%nat.
Proof. induction pts as [|p pts IH]; simpl; lia. Qed.

Lemma array_at_neg_2 {A : Type} (l : list A) (a b : A) :
  array_at_neg (l ++ [a; b]) 2 = Some a.
Proof.
  unfold array_at_neg. rewrite length_app. simpl.
  rewrite decide_True by lia.
  replace (length l + 2 - 2)%nat with (length l + 0)%nat by lia.
  by rewrite lookup_app_r, Nat.add_0_r, Nat.sub_diag by lia.
Qed.

Lemma array_at_neg_1 {A : Type} (l : list A) (a b : A) :
  array_at_neg (l ++ [a; b]) 1 = Some b.
Proof.
  unfold array_at_neg. rewrite length_app. simpl.
  rewrite decide_True by lia.
  replace (length l + 2 - 1)%nat with (length l + 1)%nat by lia.
  rewrite lookup_app_r by lia.
  by replace (length l + 1 - length l)%nat with 1%nat by lia.
Qed.

Lemma array_slice_neg_4 {A : Type} (l : list A) (a b c d : A) :
  array_slice_neg (l ++ [a; b; c; d]) 4 = [a; b; c; d].
Proof.
  unfold array_slice_neg. rewrite length_app. simpl.
  replace (length l + 4 - 4)%nat with (length l) by lia.
  by rewrite drop_app_length.
Qed.

(** The path grows by one command per point. *)
Lemma curves_from_snoc (rest front : list (Z * Z)) (a b c d p : Z * Z) :
  a :: b :: rest = front ++ [c; d] ->
  curves_from a b (rest ++ [p]) =
  curves_from a b rest ++ path_C (fst c) (snd c) (fst d) (snd d) (fst p) (snd p).
Proof.
  revert front a b. induction rest as [|q rest IH]; intros front a b Heq.
  - destruct front as [|? [|? [|? ?]]]; simplify_eq/=. done.
  - destruct front as [|a' front]; [simplify_eq/=|].
    injection Heq as <- Heq. simpl.
    by rewrite (IH front b q Heq).
Qed.

Lemma stroke_path_second (p0 p1 : Z * Z) :
  stroke_path [p0; p1] = stroke_path [p0] ++ path_L (fst p1) (snd p1).
Proof. reflexivity. Qed.

Lemma stroke_path_later (front : list (Z * Z)) (a b p : Z * Z) :
  stroke_path (front ++ [a; b; p]) =
  stroke_path (front ++ [a; b])
  ++ path_C (fst a) (snd a) (fst b) (snd b) (fst p) (snd p).
Proof.
  destruct front as [|p0 [|p1 rest]].
  - reflexivity.
  - reflexivity.
  - change (stroke_path ((p0 :: p1 :: rest) ++ [a; b; p])) with
      (path_M (fst p0) (snd p0) ++ path_L (fst p1) (snd p1)
       ++ curves_from p0 p1 (rest ++ [a; b; p])).
    change (stroke_path ((p0 :: p1 :: rest) ++ [a; b])) with
      (path_M (fst p0) (snd p0) ++ path_L (fst p1) (snd p1)
       ++ curves_from p0 p1 (rest ++ [a; b])).
    replace (rest ++ [a; b; p]) with ((rest ++ [a; b]) ++ [p])
      by by rewrite <- app_assoc.
    rewrite (curves_from_snoc (rest ++ [a; b]) (p0 :: p1 :: rest) p0 p1 a b p)
      by done.
    by rewrite <- !app_assoc.
Qed.

Lemma stroke_path_has_curve (p0 p1 p2 : Z * Z) (rest : list (Z * Z)) :
  has_curve (stroke_path (p0 :: p1 :: p2 :: rest)) = true.
Proof.
  apply bool_decide_eq_true_2. simpl.
  rewrite !elem_of_cons. tauto.
Qed.

(** One [pointermove] listener, on a state that has a stroke. *)
Lemma pointermove_exec (l : StrokeListeners) (ox oy : Q) (s : State)
    (r : nat) (pts : list Z) (el : PathElement) :
  drawPoints s = Some r ->
  arrays s !! r = Some pts ->
  drawPath s = Some el ->
  let x := Math_round ox in
  let y := Math_round oy in
  exec (pointermove l ox oy) s =
  if (x <? 0) || (y <? 0) || Z_gt_Q x (drawWidth l) || Z_gt_Q y (drawHeight l)
     || (bool_decide (array_at_neg pts 2 = Some x)
         && bool_decide (array_at_neg pts 1 = Some y))
  then s
  else
    let d := drawPathString s ++
             (if bool_decide (4 ≤ length pts)%nat then
                match array_slice_neg pts 4 with
                | [x1; y1; x2; y2] => path_C x1 y1 x2 y2 x y
                | _ => []
                end
              else path_L x y) in
    stroke_write d (alter (fun a => a ++ [x; y]) r (arrays s))
      (Some (mkPathElement (stroke_width el) (Some d))) (currentPointerId s) s.
Proof.
  intros Hr Hpts Hel x y. subst x y.
  destruct s, l, el; simpl in *; subst.
  unfold stroke_write.
  eval_keep_bool. rewrite Hpts.
  change (default [] (Some pts)) with pts.
  destruct (_ || _); [by eval_keep_bool|].
  destruct (bool_decide (4 ≤ length pts)%nat); [|by eval_keep_bool].
  destruct (array_slice_neg pts 4) as [|? [|? [|? [|? [|? ?]]]]];
    eval_keep_bool; try done.
  all: by rewrite ?app_nil_r.
Qed.

Lemma step_pointermove_single (l : StrokeListeners) (ox oy : Q) (s : State) :
  strokeListeners s = [l] ->
  step s (pointermove_to ox oy) = exec (pointermove l ox oy) s.
Proof.
  intros Hl. unfold SignatureManager.step, dispatch, exec at 1, bind, gets.
  by rewrite Hl.
Qed.

(** A [pointerdown] on a draw tab at rest starts a stroke at the rounded
    position. *)
Lemma pointerdown_starts (s : State) (onPlaceholder : bool) (pId : Z)
    (ox oy w h : Q) :
  tabListeners s = Some draw_tab ->
  strokeListeners s = [] ->
  currentPointerId s = None ->
  truthy (drawCurves s) = truthy (drawPath s) ->
  stroking (mkStrokeListeners w h) (drawPathString s) []
    (Math_round ox, Math_round oy)
    (step s (pointerdown_on onPlaceholder pId ox oy w h)).
Proof.
  intros Hl Hs Hp Ht. unfold stroking.
  destruct s; simpl in *; subst.
  destruct drawCurves0, drawPath0; try done; sym_exec;
    (split; [done|]); eexists _, _; simpl;
    (split; [done|]); (split; [by rewrite list_lookup_middle|]); done.
Qed.

Lemma bool_decide_Some_eqb (a x : Z) :
  bool_decide (Some a = Some x) = (x =? a).
Proof.
  destruct (Z.eqb_spec x a) as [->|Hne].
  - by apply bool_decide_eq_true_2.
  - apply bool_decide_eq_false_2. congruence.
Qed.

(** A [pointermove] during a stroke: a discarded position changes
    nothing, any other becomes the last point of the stroke. *)
Lemma pointermove_stroking (l : StrokeListeners) (base : template)
    (front : list (Z * Z)) (last : Z * Z) (s : State) (ox oy : Q) :
  stroking l base front last s ->
  let x := Math_round ox in
  let y := Math_round oy in
  if discarded l last x y then step s (pointermove_to ox oy) = s
  else stroking l base (front ++ [last]) (x, y) (step s (pointermove_to ox oy)).
Proof.
  intros (Hl & r & el & Hr & Ha & Hel & Hd & Hp) x y.
  rewrite (step_pointermove_single l ox oy s Hl).
  rewrite (pointermove_exec l ox oy s r _ el Hr Ha Hel).
  fold x y. destruct last as [lx ly].
  rewrite flat_app in *. simpl flat in *.
  rewrite array_at_neg_2, array_at_neg_1, !bool_decide_Some_eqb.
  unfold discarded. simpl fst. simpl snd.
  destruct (_ || _); [done|].
  assert (Hcmd :
    (if bool_decide (4 ≤ length (flat front ++ [lx; ly]))%nat then
       match array_slice_neg (flat front ++ [lx; ly]) 4 with
       | [x1; y1; x2; y2] => path_C x1 y1 x2 y2 x y
       | _ => []
       end
     else path_L x y) ++ [] =
    drop (length (stroke_path (front ++ [(lx, ly)])))
      (stroke_path ((front ++ [(lx, ly)]) ++ [(x, y)])) ++ [] ∧
    stroke_path ((front ++ [(lx, ly)]) ++ [(x, y)]) =
    stroke_path (front ++ [(lx, ly)]) ++
    drop (length (stroke_path (front ++ [(lx, ly)])))
      (stroke_path ((front ++ [(lx, ly)]) ++ [(x, y)]))).
  { destruct front as [|[ax ay] front _] using rev_ind.
    - rewrite bool_decide_eq_false_2 by (simpl; lia). done.
    - rewrite flat_app. simpl flat.
      rewrite bool_decide_eq_true_2
        by (rewrite !length_app, length_flat; simpl; lia).
      rewrite <- !app_assoc. simpl app.
      rewrite array_slice_neg_4.
      rewrite (stroke_path_later front (ax, ay) (lx, ly) (x, y)).
      by rewrite drop_app_length. }
  destruct Hcmd as [Hcmd Hpath]. rewrite !app_nil_r in Hcmd.
  split; [by destruct s|].
  exists r, (mkPathElement (stroke_width el)
               (Some (drawPathString s ++
                      drop (length (stroke_path (front ++ [(lx, ly)])))
                        (stroke_path ((front ++ [(lx, ly)]) ++ [(x, y)]))))).
  rewrite Hcmd. destruct s; simpl in *; subst.
  split; [done|]. split.
  - rewrite list_lookup_alter, Ha. simpl.
    rewrite decide_True by done.
    by rewrite !flat_app, <- !app_assoc.
  - split; [done|]. split; [done|].
    rewrite Hpath at 2. by rewrite <- !app_assoc.
Qed.

(** The pointer positions of a stroke, one after the other. *)
Lemma moves_stroking (l : StrokeListeners) (base : template)
    (moves : list (Q * Q)) (front : list (Z * Z)) (last : Z * Z) (s : State) :
  stroking l base front last s ->
  ∃ front' last',
    front' ++ [last'] = front ++ last :: accepted l last moves ∧
    stroking l base front' last'
      (run s ((fun m => pointermove_to (fst m) (snd m)) <$> moves)).
Proof.
  revert front last s. induction moves as [|[ox oy] moves IH];
    intros front last s Hs.
  { exists front, last. by split. }
  rewrite fmap_cons, run_cons. simpl accepted. cbn [fst snd].
  pose proof (pointermove_stroking l base front last s ox oy Hs) as Hstep.
  simpl in Hstep.
  destruct (discarded l last (Math_round ox) (Math_round oy)).
  - rewrite Hstep. by apply IH.
  - destruct (IH _ _ _ Hstep) as (front' & last' & Heq & Hs').
    exists front', last'. split; [|done].
    by rewrite Heq, <- app_assoc.
Qed.

(** C2, as amended. A stroke begun on a draw tab at rest and continued
    by any pointer positions appends to the path string the path of the
    points it records, which are the rounded position of the
    [pointerdown] and the rounded positions that the [pointermove]
    listener does not discard; the points are in [#drawPoints] and the
    string is the [d] attribute of the path element.  In that path the
    first point gives a move command, the second a line command, and
    every point from the third on a curve command whose control points
    are (a + 5b)/6 and (5b + p)/6 and whose end is (b + p)/2, for [a] and
    [b] the two points recorded before it and [p] the point itself.  So
    a stroke of three points or more, and a stroke of four or more in
    particular, holds a curve command. *)
Theorem stroke_path_commands
    (s : State) (onPlaceholder : bool) (pId : Z) (ox oy w h : Q)
    (moves : list (Q * Q)) :
  tabListeners s = Some draw_tab ->
  strokeListeners s = [] ->
  currentPointerId s = None ->
  truthy (drawCurves s) = truthy (drawPath s) ->
  let l := mkStrokeListeners w h in
  let p0 := (Math_round ox, Math_round oy) in
  let pts := p0 :: accepted l p0 moves in
  let s' := run (step s (pointerdown_on onPlaceholder pId ox oy w h))
              ((fun m => pointermove_to (fst m) (snd m)) <$> moves) in
  drawPathString s' = drawPathString s ++ stroke_path pts ∧
  (∃ r el, drawPoints s' = Some r ∧ arrays s' !! r = Some (flat pts) ∧
           drawPath s' = Some el ∧ attr_d el = Some (drawPathString s')) ∧
  stroke_path [p0] = path_M (fst p0) (snd p0) ∧
  (∀ p1, stroke_path [p0; p1] =
         stroke_path [p0] ++ path_L (fst p1) (snd p1)) ∧
  (∀ front a b p,
     stroke_path (front ++ [a; b; p]) =
     stroke_path (front ++ [a; b]) ++
     [Lit "C"; Quot (fst a + 5 * fst b) 6; Lit " "; Quot (snd a + 5 * snd b) 6;
      Lit " "; Quot (5 * fst b + fst p) 6; Lit " "; Quot (5 * snd b + snd p) 6;
      Lit " "; Quot (fst b + fst p) 2; Lit " "; Quot (snd b + snd p) 2]) ∧
  ((3 ≤ length pts)%nat -> has_curve (stroke_path pts) = true) ∧
  ((4 ≤ length pts)%nat -> has_curve (stroke_path pts) = true).
Proof.
  intros Hl Hs Hp Ht l p0 pts s'.
  pose proof (pointerdown_starts s onPlaceholder pId ox oy w h Hl Hs Hp Ht) as H0.
  destruct (moves_stroking l (drawPathString s) moves [] p0 _ H0)
    as (front & last & Heq & _ & r & el & Hr & Ha & Hel & Hd & Hpath).
  fold s' in Hr, Ha, Hel, Hd, Hpath. simpl in Heq. fold pts in Heq.
  rewrite Heq in Ha, Hpath.
  assert (Hcurve : (3 ≤ length pts)%nat -> has_curve (stroke_path pts) = true).
  { subst pts. destruct (accepted l p0 moves) as [|p1 [|p2 rest]];
      [simpl; lia..|]. intros _. apply stroke_path_has_curve. }
  split; [done|]. split; [by exists r, el|]. split; [done|].
  split; [done|]. split; [apply stroke_path_later|].
  split; [done|]. intros ?. apply Hcurve. lia.
Qed.

(** ** Ending a session *)

(** X1. A click on cancel in an open dialog returns without an
    exception and leaves the dialog closed: no current tab, no stored
    descriptions, no editor and no UI manager, every tab without capture,
    the description empty, the dirty flag reset, the three controls
    disabled, the placeholders shown and the thickness back at 1.  It
    calls [overlayManager.close], [remove] on the editor when the editor
    never got a drawing, and [addEditListeners], in that order and nothing
    else: no [addSignature], no storage.  The toolbar, the save checkbox,
    the error bar and the waiting mark of the dialog stay as they are. *)
Theorem cancel_resets_dialog (env : Env) (s : State) :
  reachable s ->
  let s' := exec (cancel env) s in
  threw (cancel env) s = false ∧
  closed s' ∧
  (∀ t, cleared t s') ∧
  description_value s' = "" ∧
  hasDescriptionChanged s' = false ∧
  controls_disabled s' true ∧
  drawPlaceholder_hidden s' = false ∧
  imagePlaceholder_hidden s' = false ∧
  drawThickness_value s' = "1" ∧
  overlay_active s' = false ∧
  uiManager s' = None ∧
  currentEditor s' = None ∧
  calls_since (calls s) s' =
    overlayManager_close ::
    (if env_drawId_is_null env then [editor_remove] else []) ++
    [addEditListeners] ∧
  toolbar s' = toolbar s ∧
  saveCheckbox_checked s' = saveCheckbox_checked s ∧
  errorBar_hidden s' = errorBar_hidden s ∧
  dialog_waiting s' = dialog_waiting s.
Proof.
  intros Hr s'. subst s'.
  pose proof (reachable_session s Hr) as Hs.
  use_session Hs. unfold calls_since, controls_disabled.
  destruct env, s; simpl in *; subst.
  sym_exec.
  all: repeat match goal with |- _ ∧ _ => split end; try done.
  all: try (by constructor).
  all: try (by intros []).
  all: rewrite <- ?app_assoc; by rewrite drop_app_length.
Qed.

(** [#finish] on a dialog that is not the active overlay. *)
Lemma finish_inactive (env : Env) (s : State) :
  overlay_active s = false -> finish env s = (Some tt, s).
Proof. intros H. destruct s; simpl in H; subst. reflexivity. Qed.

(** X2. Cancelling twice is cancelling once: whatever the state, the
    second [#cancel] finds the dialog no longer the active overlay,
    returns, and changes nothing, so no collaborator is called a second
    time and [#close] runs once. *)
Theorem cancel_is_idempotent (env : Env) (s : State) :
  let s' := exec (cancel env) s in
  overlay_active s' = false ∧
  cancel env s' = (Some tt, s') ∧
  exec (cancel env) s' = s'.
Proof.
  intros s'. subst s'. unfold cancel, exec.
  destruct (finish_effect env s) as (_ & Ha & _).
  split; [done|].
  by rewrite (finish_inactive env _ Ha).
Qed.

(** X3. [destroy] on an open dialog closes it as cancel does, with one
    difference: [#uiManager] is dropped first, so [#close] does not call
    [addEditListeners].  On a dialog that is not shown it only drops
    [#uiManager]. *)
Theorem destroy_skips_addEditListeners (env : Env) (s : State) :
  reachable s ->
  let s' := exec (destroy env) s in
  threw (destroy env) s = false ∧
  calls_since (calls s) s' =
    overlayManager_close ::
    (if env_drawId_is_null env then [editor_remove] else []) ∧
  s' = set_calls (calls s') (exec (cancel env) s) ∧
  closed s' ∧
  (∀ s0, overlay_active s0 = false ->
     exec (destroy env) s0 = set_uiManager None s0).
Proof.
  intros Hr s'. subst s'.
  pose proof (reachable_session s Hr) as Hs.
  use_session Hs. unfold calls_since.
  split; [|split; [|split; [|split]]].
  5:{ intros s0 Hina. destruct s0; simpl in Hina; subst. reflexivity. }
  3:{ destruct env as [? ? ? ? ? ? []], s; simpl in *; subst;
        destruct imagePath0; vm_compute; reflexivity. }
  all: destruct env, s; simpl in *; subst.
  all: sym_exec; try done; try (by constructor).
  all: rewrite <- ?app_assoc; by rewrite drop_app_length.
Qed.

(** What [#close] leaves is a closed dialog. *)
Lemma cancel_closed (env : Env) (s : State) :
  reachable s -> closed (exec (cancel env) s).
Proof.
  intros Hr. pose proof (reachable_session s Hr) as Hs.
  use_session Hs. destruct env, s; simpl in *; subst.
  sym_exec; by constructor.
Qed.

(** X4. Opening the dialog again after a cancel starts from scratch:
    the type tab is current, no tab holds a capture, the description and
    the descriptions stored for the three tabs are empty, the dirty flag
    is reset, the controls are disabled and the save checkbox follows
    the storage.  The new session depends on the one before only through
    what [#close] does not reset: the error bar and the waiting mark,
    [#extractedSignatureData], the view box of the image SVG and the
    paths that earlier tracings left in it (all but the one [#imagePath]
    pointed to, which is removed), the arguments of the label of the
    thickness slider, the launchers of the toolbar, and the l10n lookups
    still pending.  Every other field has the value given here. *)
Theorem reopen_starts_from_scratch
    (env : Env) (s : State) (ui editor : nat) (isStorageFull : bool) :
  reachable s ->
  let s' := exec (open ui editor isStorageFull) (exec (cancel env) s) in
  reachable s' ∧
  s' =
    {| currentTab := Some type_tab;
       tabsToAltText :=
         Some (list_to_map ((fun name => (Some name, "")) <$> tabButtons_keys));
       hasDescriptionChanged := false;
       drawCurves := None; drawPoints := None; drawPathString := [];
       drawPath := None;
       extractedSignatureData := extractedSignatureData s;
       imagePath := None;
       uiManager := Some ui; currentEditor := Some editor;
       description_value := ""; clearDescription_disabled := true;
       typeInput_value := "";
       addButton_disabled := true; clearButton_disabled := true;
       saveContainer_disabled := true;
       saveCheckbox_checked := negb isStorageFull;
       saveContainer_fullStorage := isStorageFull;
       drawPlaceholder_hidden := false; drawThickness_value := "1";
       drawThickness_l10n_args := drawThickness_l10n_args s;
       imagePlaceholder_hidden := false;
       imageSVG_viewBox := imageSVG_viewBox s;
       imageSVG_paths :=
         if truthy (imagePath s) then removelast (imageSVG_paths s)
         else imageSVG_paths s;
       errorBar_hidden := errorBar_hidden s;
       dialog_waiting := dialog_waiting s;
       tabButton_selected := Some type_tab; panels_selected := Some type_tab;
       arrays := arrays s;
       tabListeners := Some type_tab;
       currentPointerId := currentPointerId s;
       strokeListeners := [];
       l10n_pending := l10n_pending s;
       overlay_active := true;
       toolbar := toolbar s;
       calls :=
         calls s ++
         overlayManager_close ::
         (if env_drawId_is_null env then [editor_remove] else []) ++
         [addEditListeners; removeEditListeners; storage_isFull;
          overlayManager_open] |} ∧
  (∀ t, cleared t s') ∧
  (∀ t, snapshot s' t = Some "") ∧
  controls_disabled s' true.
Proof.
  intros Hr s'. subst s'.
  split.
  { constructor. by apply cancel_closed. }
  pose proof (reachable_session s Hr) as Hs.
  use_session Hs. unfold controls_disabled.
  split.
  { destruct env as [? ? ? ? ? ? []], s; simpl in *; subst; destruct imagePath0.
    all: eval_comp; rewrite <- ?app_assoc; reflexivity. }
  destruct env as [? ? ? ? ? ? []], s; simpl in *; subst; destruct imagePath0.
  all: repeat match goal with |- _ ∧ _ => split end.
  all: try (intros []); vm_compute; repeat split; reflexivity.
Qed.

(** ** Saving at commit *)



(** ** The image tab *)

(** X6. In the image tab, a choice in the picker that cannot become a
    signature only shows the error bar and resets the waiting mark:
    nothing chosen, a first file of a type that is not supported, or a
    supported file that [getFromFile] fails to decode (the promise is
    rejected, which is also logged on the console, or resolves to
    nothing).  The same holds of a dropped file that cannot be decoded.
    The captures, the controls and the description are untouched and
    [getFromImage] is not called. *)
Theorem undecodable_image_shows_error
    (s : State) (file : File) (files : list File) (fromFile : FromFile)
    (fromImage : option SignatureData) :
  reachable s ->
  currentTab s = Some image_tab ->
  let shown := set_dialog_waiting false (set_errorBar_hidden false s) in
  step s (picker_change None fromFile fromImage) = shown ∧
  step s (picker_change (Some []) fromFile fromImage) = shown ∧
  (supported SupportedImageMimeTypes (file_type file) = false ->
   step s (picker_change (Some (file :: files)) fromFile fromImage) = shown) ∧
  (supported SupportedImageMimeTypes (file_type file) = true ->
   let failed := set_calls (calls s ++ [getFromFile file; console_error]) shown in
   let empty := set_calls (calls s ++ [getFromFile file]) shown in
   step s (picker_change (Some (file :: files)) rejected fromImage) = failed ∧
   step s (placeholder_drop (Some (file :: files)) rejected fromImage) = failed ∧
   step s (picker_change (Some (file :: files)) (resolved None) fromImage) = empty ∧
   step s (placeholder_drop (Some (file :: files)) (resolved None) fromImage) = empty).
Proof.
  intros Hr Ht shown. subst shown.
  pose proof (reachable_session s Hr) as Hs.
  use_session Hs.
  unfold SignatureManager.step, dispatch.
  destruct file. destruct s; simpl in *; simplify_eq.
  split; [eval_comp; cbn [mbind option_bind head]; by eval_comp|].
  split; [eval_comp; cbn [mbind option_bind head]; by eval_comp|].
  split; intros Hsup.
  - eval_comp; cbn [mbind option_bind head find]. rewrite Hsup. by eval_comp.
  - repeat split; eval_comp; cbn [mbind option_bind head find];
      rewrite Hsup; eval_comp; by rewrite <- ?app_assoc.
Qed.

(** X7. In the image tab, a supported file that is decoded and traced
    with an outline, chosen in the picker or dropped, becomes the
    capture of the tab: the path of the outline is appended to the SVG
    and shown with its view box in place of the placeholder, the result
    of the tracing is kept as [#extractedSignatureData], the three
    controls are enabled and the waiting mark is reset.  The description
    takes the name of the file only when it was empty.  An error bar
    shown by an earlier failure is not hidden. *)
Theorem traced_image_becomes_capture
    (s : State) (file : File) (files : list File) (bitmap : nat)
    (d : SignatureData) (o : Outline) :
  reachable s ->
  currentTab s = Some image_tab ->
  supported SupportedImageMimeTypes (file_type file) = true ->
  outline d = Some o ->
  let s' := step s (picker_change (Some (file :: files))
                      (resolved (Some bitmap)) (Some d)) in
  step s (placeholder_drop (Some (file :: files))
            (resolved (Some bitmap)) (Some d)) = s' ∧
  imagePath s' = Some (toSVGPath o) ∧
  imageSVG_paths s' = imageSVG_paths s ++ [toSVGPath o] ∧
  imageSVG_viewBox s' = Some (viewBox o) ∧
  imagePlaceholder_hidden s' = true ∧
  extractedSignatureData s' = Some d ∧
  controls_disabled s' false ∧
  dialog_waiting s' = false ∧
  errorBar_hidden s' = errorBar_hidden s ∧
  description_value s' =
    (if bool_decide (description_value s = "") then file_name file
     else description_value s) ∧
  clearDescription_disabled s' =
    (if bool_decide (description_value s = "")
     then bool_decide (file_name file = "")
     else clearDescription_disabled s) ∧
  calls_since (calls s) s' = [getFromFile file; getFromImage bitmap].
Proof.
  intros Hr Ht Hsup Hd s'. subst s'.
  pose proof (reachable_session s Hr) as Hs.
  use_session Hs.
  unfold SignatureManager.step, dispatch, calls_since, controls_disabled.
  destruct file, d, o. destruct s; simpl in *; simplify_eq.
  eval_comp; cbn [mbind option_bind head find]; rewrite Hsup.
  sym_exec.
  all: repeat match goal with |- _ ∧ _ => split end; try done.
  all: rewrite <- ?app_assoc; by rewrite drop_app_length.
Qed.

Lemma find_unsupported (files : list File) :
  Forall (fun f => supported SupportedImageMimeTypes (file_type f) = false) files ->
  find (fun f => supported SupportedImageMimeTypes (file_type f)) files = None.
Proof.
  induction 1 as [|f fs Hf _ IH]; [done|]. simpl. by rewrite Hf.
Qed.

(** X8. A drop on the placeholder of the image tab of files none of
    which has a supported type starts no extraction: the listener sets
    the waiting mark of the dialog and does nothing else, so that no
    error bar is shown and the mark stays until another event resets it.
    A drop without files changes nothing at all. *)
Theorem drop_of_unsupported_files_keeps_waiting
    (s : State) (file : File) (files : list File) (fromFile : FromFile)
    (fromImage : option SignatureData) :
  reachable s ->
  currentTab s = Some image_tab ->
  Forall (fun f => supported SupportedImageMimeTypes (file_type f) = false)
    (file :: files) ->
  step s (placeholder_drop (Some (file :: files)) fromFile fromImage) =
    set_dialog_waiting true s ∧
  step s (placeholder_drop (Some []) fromFile fromImage) = s ∧
  step s (placeholder_drop None fromFile fromImage) = s.
Proof.
  intros Hr Ht Hall.
  pose proof (reachable_session s Hr) as Hs.
  use_session Hs.
  apply find_unsupported in Hall.
  unfold SignatureManager.step, dispatch.
  split; [|split; destruct s; simpl in *; simplify_eq; by eval_comp].
  unfold imagePlaceholder_drop; cbv beta iota zeta. rewrite Hall.
  destruct s; simpl in *; simplify_eq. by eval_comp.
Qed.

(** ** Strokes from press to release *)

(** The [pointerup] listener of the stroke in progress, for the pointer
    that started it: it frees the pointer, closes a stroke of one point
    by a line to that point, and removes the listeners of the stroke. *)
Lemma pointerup_exec (l : StrokeListeners) (pId : Z) (s : State)
    (r : nat) (pts : list Z) (el : PathElement) :
  strokeListeners s = [l] ->
  currentPointerId s = Some pId ->
  drawPoints s = Some r ->
  arrays s !! r = Some pts ->
  drawPath s = Some el ->
  step s (pointerup_of pId) =
  let d := drawPathString s ++
           match pts with [x0; y0] => path_L x0 y0 | _ => [] end in
  set_strokeListeners []
    (stroke_write d (arrays s)
       (Some match pts with
             | [_; _] => mkPathElement (stroke_width el) (Some d)
             | _ => el
             end) None s).
Proof.
  intros Hl Hp Hr Hpts Hel.
  destruct s, el; simpl in *; subst.
  unfold stroke_write, SignatureManager.step, dispatch.
  eval_comp. cbn [dispatch_pointerup]. eval_comp.
  rewrite Z.eqb_refl. eval_comp. rewrite Hpts.
  change (default [] (Some pts)) with pts.
  destruct pts as [|? [|? [|? ?]]]; eval_comp; by rewrite ?app_nil_r.
Qed.

(** What a [pointerdown] on a draw tab at rest writes besides starting
    the stroke: a new array in the store, named by [#drawPoints] and by
    the last curve of [#drawCurves], which is created when the drawing
    is empty. *)
Lemma pointerdown_exec (s : State) (onPlaceholder : bool) (pId : Z)
    (ox oy w h : Q) :
  at_rest s ->
  let s1 := step s (pointerdown_on onPlaceholder pId ox oy w h) in
  let r := length (arrays s) in
  currentPointerId s1 = Some pId ∧
  tabListeners s1 = Some draw_tab ∧
  arrays s1 = arrays s ++ [[Math_round ox; Math_round oy]] ∧
  drawPoints s1 = Some r ∧
  drawCurves s1 =
    Some match drawCurves s with
         | Some c =>
             mkDrawCurves (dc_width c) (dc_height c) (dc_thickness c)
               (dc_curves c ++ [r])
         | None => mkDrawCurves w h (parseInt (drawThickness_value s)) [r]
         end.
Proof.
  intros (Hl & Hs & Hp & Ht).
  destruct s; simpl in *; subst.
  destruct drawCurves0 as [[]|], drawPath0; try done; by sym_exec.
Qed.

Lemma move_frame_refl (s : State) : move_frame s s.
Proof. by repeat split. Qed.

Lemma move_frame_trans (s1 s2 s3 : State) :
  move_frame s1 s2 -> move_frame s2 s3 -> move_frame s1 s3.
Proof.
  intros (H1 & H2 & H3 & H4 & H5 & H6 & H7) (G1 & G2 & G3 & G4 & G5 & G6 & G7).
  repeat split; try congruence.
  intros r j Hr Hj. rewrite (G7 r j) by congruence. by apply (H7 r).
Qed.

(** One position of the pointer during a stroke. *)
Lemma pointermove_move_frame (l : StrokeListeners) (base : template)
    (front : list (Z * Z)) (last : Z * Z) (s : State) (ox oy : Q) :
  stroking l base front last s ->
  move_frame s (step s (pointermove_to ox oy)).
Proof.
  intros (Hl & r & el & Hr & Ha & Hel & _).
  rewrite (step_pointermove_single l ox oy s Hl).
  rewrite (pointermove_exec l ox oy s r _ el Hr Ha Hel).
  destruct (_ || _); [apply move_frame_refl|].
  unfold move_frame. destruct s; simpl in *; subst.
  repeat split; try done.
  - apply length_alter.
  - intros r' j [= <-] Hj. by apply list_lookup_alter_ne.
Qed.

Lemma moves_move_frame (l : StrokeListeners) (base : template)
    (moves : list (Q * Q)) (front : list (Z * Z)) (last : Z * Z) (s : State) :
  stroking l base front last s ->
  move_frame s (run s ((fun m => pointermove_to (fst m) (snd m)) <$> moves)).
Proof.
  revert front last s. induction moves as [|[ox oy] moves IH];
    intros front last s Hs; [apply move_frame_refl|].
  rewrite fmap_cons, run_cons. cbn [fst snd].
  pose proof (pointermove_move_frame l base front last s ox oy Hs) as Hf.
  pose proof (pointermove_stroking l base front last s ox oy Hs) as Hstep.
  simpl in Hstep.
  destruct (discarded l last (Math_round ox) (Math_round oy)).
  - rewrite Hstep. by eapply IH.
  - eapply move_frame_trans; [exact Hf|]. by eapply IH.
Qed.

Lemma flat_single_point (pts : list (Z * Z)) :
  match flat pts with
  | [x0; y0] => pts = [(x0, y0)]
  | _ => ∀ p, pts ≠ [p]
  end.
Proof.
  destruct pts as [|[x0 y0] [|[x1 y1] pts]]; simpl; try done.
  all: by intros ?.
Qed.

Lemma run_stroke_events (s : State) (k : Stroke) :
  run s (stroke_events k) =
  step (run (step s (pointerdown_of k))
          ((fun m => pointermove_to (fst m) (snd m)) <$> stroke_moves k))
    (pointerup_of (stroke_pointerId k)).
Proof. unfold stroke_events. by rewrite run_cons, run_snoc. Qed.

(** A stroke from press to release on a draw tab at rest. *)
Lemma stroke_completes (s : State) (k : Stroke) :
  at_rest s ->
  let s' := run s (stroke_events k) in
  let pts := stroke_points k in
  at_rest s' ∧
  drawPathString s' = drawPathString s ++ released_path pts ∧
  (∃ el, drawPath s' = Some el ∧ attr_d el = Some (drawPathString s')) ∧
  strokes_begun s' = S (strokes_begun s) ∧
  drawCurves s' =
    Some match drawCurves s with
         | Some c =>
             mkDrawCurves (dc_width c) (dc_height c) (dc_thickness c)
               (dc_curves c ++ [length (arrays s)])
         | None =>
             mkDrawCurves (fst (stroke_box k)) (snd (stroke_box k))
               (parseInt (drawThickness_value s)) [length (arrays s)]
         end ∧
  (refs_valid s ->
   refs_valid s' ∧ drawn_strokes s' = drawn_strokes s ++ [flat pts]).
Proof.
  intros Hrest s' pts. subst s'. rewrite run_stroke_events.
  destruct k as [b pId [ox oy] [w h] moves]. unfold pointerdown_of.
  cbn [stroke_onPlaceholder stroke_pointerId stroke_down stroke_box
       stroke_moves fst snd].
  pose proof Hrest as (Hl & Hs & Hp & Ht).
  pose proof (pointerdown_starts s b pId ox oy w h Hl Hs Hp Ht) as H0.
  destruct (pointerdown_exec s b pId ox oy w h Hrest)
    as (Hp1 & Hl1 & Ha1 & Hr1 & Hc1).
  set (s1 := step s (pointerdown_on b pId ox oy w h)) in *.
  set (l := mkStrokeListeners w h) in *.
  set (p0 := (Math_round ox, Math_round oy)) in *.
  destruct (moves_stroking l (drawPathString s) moves [] p0 s1 H0)
    as (front & last & Heq & Hl2 & r & el & Hr2 & Ha2 & Hel2 & Hd2 & Hpath2).
  destruct (moves_move_frame l (drawPathString s) moves [] p0 s1 H0)
    as (Hp2 & Htl2 & Hc2 & Hdp2 & _ & Hlen2 & Hother2).
  set (s2 := run s1 ((fun m => pointermove_to (fst m) (snd m)) <$> moves)) in *.
  simpl in Heq. fold pts in Heq. change (p0 :: accepted l p0 moves) with pts in Heq.
  rewrite Hp1 in Hp2. rewrite Hr1 in Hdp2. rewrite Hdp2 in Hr2.
  injection Hr2 as <-.
  rewrite (pointerup_exec l pId s2 _ _ el Hl2 Hp2 Hdp2 Ha2 Hel2).
  rewrite Heq in *. cbv zeta.
  set (d := drawPathString s2 ++
            match flat pts with [x0; y0] => path_L x0 y0 | _ => [] end).
  set (p := match flat pts with
            | [_; _] => mkPathElement (stroke_width el) (Some d)
            | _ => el
            end).
  assert (Hd : d = drawPathString s ++ released_path pts).
  { subst d. rewrite Hpath2. unfold released_path.
    rewrite <- app_assoc. do 2 f_equal.
    by destruct pts as [|[] [|[] ?]]. }
  assert (Hp' : attr_d p = Some d).
  { subst p d. destruct pts as [|[] [|[] ?]]; simpl; try done.
    all: by rewrite app_nil_r. }
  clearbody d p s2 s1.
  set (s3 := set_strokeListeners []
               (stroke_write d (arrays s2) (Some p) None s2)).
  assert (Hproj : tabListeners s3 = tabListeners s2 ∧ strokeListeners s3 = [] ∧
                  currentPointerId s3 = None ∧ drawCurves s3 = drawCurves s2 ∧
                  drawPath s3 = Some p ∧ drawPathString s3 = d ∧
                  arrays s3 = arrays s2) by by destruct s2.
  destruct Hproj as (Q1 & Q2 & Q3 & Q4 & Q5 & Q6 & Q7). clearbody s3.
  rewrite Hc2, Hc1 in Q4.
  split; [|split; [|split; [|split; [|split]]]].
  - repeat split; try done; [by rewrite Q1, Htl2|]. by rewrite Q4, Q5.
  - by rewrite Q6.
  - exists p. split; [done|]. by rewrite Q6.
  - unfold strokes_begun. rewrite Q4.
    destruct (drawCurves s); [|done]. simpl. rewrite length_app. simpl. lia.
  - done.
  - intros Hv. unfold refs_valid in Hv. split.
    + intros c Hc. rewrite Q4 in Hc. injection Hc as <-.
      rewrite Q7, Hlen2, Ha1, length_app. simpl.
      destruct (drawCurves s) as [c0|] eqn:Hc0; simpl.
      * apply Forall_app. split.
        -- eapply Forall_impl; [|exact (Hv c0 eq_refl)]. simpl. lia.
        -- apply Forall_singleton. lia.
      * apply Forall_singleton. lia.
    + unfold drawn_strokes. rewrite Q4, Q7.
      assert (Hold : ∀ j, (j < length (arrays s))%nat ->
                       arrays s2 !! j = arrays s !! j).
      { intros j Hj. rewrite (Hother2 (length (arrays s)) j Hr1) by lia.
        rewrite Ha1. by apply lookup_app_l. }
      destruct (drawCurves s) as [c0|] eqn:Hc0; simpl.
      * rewrite fmap_app. simpl. rewrite Ha2. simpl. f_equal.
        apply Forall_fmap_ext_1.
        eapply Forall_impl; [|exact (Hv c0 eq_refl)]. simpl. intros j Hj. by rewrite Hold.
      * by rewrite Ha2.
Qed.

(** X9. A stroke on a draw tab at rest, from the press of a pointer
    through any positions to the release of that pointer, leaves the tab
    at rest again: the pointer is free and the listeners of the stroke
    are gone.  The path string has grown by the path of the points the
    stroke recorded and is the [d] attribute of the path element.  The
    release itself adds a command only to a stroke of a single point,
    which it closes by a line to that same point, so that a tap draws a
    dot; a stroke of two points or more is left as the moves drew it. *)
Theorem release_ends_stroke (s : State) (k : Stroke) :
  at_rest s ->
  let s' := run s (stroke_events k) in
  let pts := stroke_points k in
  let p0 := stroke_start k in
  at_rest s' ∧
  strokes_begun s' = S (strokes_begun s) ∧
  strokes_completed s' = strokes_begun s' ∧
  drawPathString s' = drawPathString s ++ released_path pts ∧
  (∃ el, drawPath s' = Some el ∧ attr_d el = Some (drawPathString s')) ∧
  (pts = [p0] ->
   drawPathString s' =
     drawPathString s ++ path_M (fst p0) (snd p0) ++ path_L (fst p0) (snd p0)) ∧
  (pts ≠ [p0] -> drawPathString s' = drawPathString s ++ stroke_path pts).
Proof.
  intros Hrest s' pts p0.
  destruct (stroke_completes s k Hrest) as (Hr & Hpath & Hel & Hb & _).
  fold s' in Hr, Hpath, Hel, Hb. fold pts in Hpath.
  split; [done|]. split; [done|]. split.
  { unfold strokes_completed. destruct Hr as (_ & -> & _). simpl. lia. }
  split; [done|]. split; [done|]. rewrite Hpath. split.
  - intros ->. done.
  - intros Hne. unfold released_path.
    subst pts. unfold stroke_points in *. fold p0 in Hne |- *.
    destruct (accepted _ _ _); [done|]. by rewrite app_nil_r.
Qed.

(** Strokes one after the other. *)
Lemma strokes_complete (ks : list Stroke) (s : State) :
  at_rest s ->
  refs_valid s ->
  let s' := run s (ks ≫= stroke_events) in
  at_rest s' ∧ refs_valid s' ∧
  drawPathString s' =
    drawPathString s ++ (ks ≫= fun k => released_path (stroke_points k)) ∧
  drawn_strokes s' =
    drawn_strokes s ++ ((fun k => flat (stroke_points k)) <$> ks) ∧
  (∀ c, drawCurves s = Some c ->
     ∃ c', drawCurves s' = Some c' ∧ dc_width c' = dc_width c ∧
           dc_height c' = dc_height c ∧ dc_thickness c' = dc_thickness c).
Proof.
  revert s. induction ks as [|k ks IH]; intros s Hrest Hv s'; subst s'.
  { simpl. rewrite !app_nil_r. split; [done|]. split; [done|].
    split; [done|]. split; [done|]. intros c Hc. by exists c. }
  rewrite bind_cons, run_app.
  destruct (stroke_completes s k Hrest) as (Hr1 & Hp1 & _ & _ & Hc1 & Hs1).
  destruct (Hs1 Hv) as (Hv1 & Hd1).
  set (s1 := run s (stroke_events k)) in *.
  destruct (IH s1 Hr1 Hv1) as (Hr2 & Hv2 & Hp2 & Hd2 & Hc2).
  split; [done|]. split; [done|].
  split; [by rewrite Hp2, Hp1, <- app_assoc|].
  split; [by rewrite Hd2, Hd1, <- app_assoc|].
  intros c Hc. rewrite Hc in Hc1.
  destruct (Hc2 _ Hc1) as (c' & Hc' & Hw & Hh & Ht).
  by exists c'.
Qed.

(** The placeholder of the draw tab: the press on it hides it, and no
    event of the pointer shows it again. *)
Lemma pointerdown_hides (s : State) (pId : Z) (ox oy w h : Q) :
  at_rest s ->
  drawPlaceholder_hidden (step s (pointerdown_on true pId ox oy w h)) = true.
Proof.
  intros (Hl & Hs & Hp & Ht).
  destruct s; simpl in *; subst.
  destruct drawCurves0 as [[]|], drawPath0; try done; by sym_exec.
Qed.

Lemma pointer_event_keeps_hidden (s : State) (e : Event) :
  is_pointer_event e = true ->
  drawPlaceholder_hidden s = true ->
  drawPlaceholder_hidden (step s e) = true.
Proof.
  intros He Hh. destruct e; try done.
  - destruct s; simpl in *; subst. by sym_exec.
  - destruct (step_pointermove_frame s offsetX offsetY) as (?&?&?&?&->&_).
    done.
  - destruct (step_pointerup_frame s pointerId) as (?&?&(?&?&?&?&->&_)&->).
    done.
Qed.

Lemma pointer_events_keep_hidden (es : list Event) (s : State) :
  Forall (fun e => is_pointer_event e = true) es ->
  drawPlaceholder_hidden s = true ->
  drawPlaceholder_hidden (run s es) = true.
Proof.
  revert s; induction es as [|e es IH]; intros s Hes Hh; [done|].
  apply Forall_cons_1 in Hes as [He Hes]. rewrite run_cons.
  apply IH; [done|]. by apply pointer_event_keeps_hidden.
Qed.

Lemma stroke_events_pointer (ks : list Stroke) :
  Forall (fun e => is_pointer_event e = true) (ks ≫= stroke_events).
Proof.
  induction ks as [|k ks IH]; [constructor|].
  rewrite bind_cons. apply Forall_app. split; [|done].
  unfold stroke_events. apply Forall_cons_2; [done|].
  apply Forall_app. split; [|by repeat constructor].
  apply Forall_fmap. by apply Forall_true.
Qed.

(** X10. On the draw tab of an open dialog, without drawing and at
    rest, the strokes the user draws one after the other, the first one
    from the placeholder and the others on the SVG, are what
    [#drawCurves] holds afterwards: one curve per stroke, in the order
    drawn, each with the points its stroke recorded, the rounded
    position of the press first.  The width and the height of the
    drawing are those of the bounding box at the first press and its
    thickness is the value of the slider then.  The path string is the
    paths of the strokes one after the other, and the placeholder is
    hidden.  A commit made then,
    during whose [await]s no other listener runs, begins with the call
    of [getDrawnSignature] on these curves. *)
Theorem drawing_holds_the_strokes
    (env : Env) (s : State) (k : Stroke) (ks : list Stroke) :
  reachable s ->
  at_rest s ->
  cleared draw_tab s ->
  stroke_onPlaceholder k = true ->
  Forall (fun k' => stroke_onPlaceholder k' = false) ks ->
  let s' := run s ((k :: ks) ≫= stroke_events) in
  at_rest s' ∧
  drawn_strokes s' = (fun k => flat (stroke_points k)) <$> (k :: ks) ∧
  drawPathString s' = ((k :: ks) ≫= fun k => released_path (stroke_points k)) ∧
  drawPlaceholder_hidden s' = true ∧
  (∃ c rest,
     drawCurves s' = Some c ∧
     dc_width c = fst (stroke_box k) ∧ dc_height c = snd (stroke_box k) ∧
     dc_thickness c = parseInt (drawThickness_value s) ∧
     (fun r => default [] (arrays s' !! r)) <$> dc_curves c =
       (fun k => flat (stroke_points k)) <$> (k :: ks) ∧
     calls_since (calls s') (exec (add env) s') =
       getDrawnSignature (Some c) (arrays s')
         (fst (env_drawSVG_rect env)) (snd (env_drawSVG_rect env)) :: rest).
Proof.
  intros Hreach Hrest (Hc & _ & Hp & _) Hk _ s'. subst s'.
  assert (Hreach' : reachable (run s ((k :: ks) ≫= stroke_events)))
    by by apply reachable_run.
  assert (Hhidden : drawPlaceholder_hidden
                      (run s ((k :: ks) ≫= stroke_events)) = true).
  { pose proof (stroke_events_pointer (k :: ks)) as Hall.
    rewrite bind_cons in Hall. rewrite bind_cons.
    unfold stroke_events at 1 in Hall. unfold stroke_events at 1.
    rewrite <- app_comm_cons in Hall. rewrite <- app_comm_cons, run_cons.
    apply Forall_cons_1 in Hall as [_ Hall].
    apply pointer_events_keep_hidden; [done|].
    unfold pointerdown_of. rewrite Hk. by apply pointerdown_hides. }
  rewrite bind_cons, run_app in *.
  destruct (stroke_completes s k Hrest) as (Hr1 & Hp1 & _ & _ & Hc1 & Hs1).
  assert (Hv : refs_valid s) by (intros c Hc'; congruence).
  destruct (Hs1 Hv) as (Hv1 & Hd1).
  set (s1 := run s (stroke_events k)) in *.
  destruct (strokes_complete ks s1 Hr1 Hv1) as (Hr2 & Hv2 & Hp2 & Hd2 & Hc2).
  set (s2 := run s1 (ks ≫= stroke_events)) in *.
  rewrite Hc in Hc1. destruct (Hc2 _ Hc1) as (c' & Hc' & Hw & Hh & Ht).
  assert (Hd : drawn_strokes s2 = (fun k => flat (stroke_points k)) <$> (k :: ks)).
  { rewrite Hd2, Hd1. unfold drawn_strokes at 1. by rewrite Hc. }
  split; [done|]. split; [done|]. split.
  { by rewrite Hp2, Hp1, Hp. }
  split; [done|].
  pose proof (reachable_session s2 Hreach') as Hs2.
  assert (Htab : currentTab s2 = Some draw_tab).
  { rewrite <- (session_listeners s2 Hs2). by destruct Hr2 as (-> & _). }
  assert (Hpay : saveCheckbox_checked s2 = true ->
                 is_Some (resolved_payload env s2)).
  { intros _. unfold resolved_payload. rewrite Htab. by eexists. }
  destruct (add_calls env s2 (session_editor s2 Hs2) Hpay)
    as (_ & _ & _ & _ & post & Hnew & _).
  unfold commit_calls in Hnew. rewrite Htab, Hc' in Hnew.
  exists c'. eexists. split; [done|]. split; [done|]. split; [done|].
  split; [done|]. split.
  { unfold drawn_strokes in Hd. by rewrite Hc' in Hd. }
  rewrite Hnew. cbn [app]. reflexivity.
Qed.

(** ** A second pointer *)

Lemma dispatch_pointerup_other (ls : list StrokeListeners) (p q : Z) (s : State) :
  currentPointerId s = Some p -> q ≠ p ->
  dispatch_pointerup ls q s = (Some ls, s).
Proof.
  intros Hp Hne. apply Z.eqb_neq in Hne. rewrite Z.eqb_sym in Hne.
  induction ls as [|l ls IH]; [done|].
  rewrite dispatch_pointerup_cons.
  assert (Hup : exec (pointerup q) s = s).
  { destruct s; simpl in *; subst. eval_comp. rewrite Hne. by eval_comp. }
  rewrite Hup, IH, Hp. simpl. by rewrite Hne.
Qed.

(** X11. While the draw tab follows a pointer, the press and the release
    of any other pointer are ignored: they change nothing, so that a
    second finger neither starts a stroke nor ends the one in
    progress. *)
Theorem second_pointer_is_ignored
    (s : State) (p q : Z) (onPlaceholder : bool) (ox oy w h : Q) :
  currentPointerId s = Some p ->
  q ≠ p ->
  step s (pointerdown_on onPlaceholder q ox oy w h) = s ∧
  step s (pointerup_of q) = s.
Proof.
  intros Hp Hne. split.
  - apply Z.eqb_neq in Hne. rewrite Z.eqb_sym in Hne.
    unfold SignatureManager.step, dispatch.
    destruct s; simpl in *; subst.
    destruct tabListeners0 as [[]|]; eval_comp; rewrite ?Hne; by eval_comp.
  - unfold SignatureManager.step, dispatch, exec, bind, gets.
    rewrite (dispatch_pointerup_other _ p q s Hp Hne).
    by destruct s.
Qed.

(** ** The default description of a drawing *)

(** X12. The draw tab asks the localisation for a default description
    once per drawing at most: the press that creates the drawing starts
    the lookup when the description is empty then, and no other press
    starts one.  When a lookup resolves, whatever tab is current, its
    text becomes the description only if the description is empty at
    that moment; a description entered in the meantime is kept.  The
    clear control of the description is then disabled exactly when the
    description is empty. *)
Theorem default_description_fills_only_empty (s : State) :
  (at_rest s ->
   ∀ onPlaceholder pId ox oy w h,
     let s1 := step s (pointerdown_on onPlaceholder pId ox oy w h) in
     let asks := negb (truthy (drawCurves s))
                 && bool_decide (description_value s = "") in
     calls_since (calls s) s1 =
       (if asks then [l10n_get l10nDescription_signature] else []) ∧
     l10n_pending s1 =
       (if asks then S (l10n_pending s) else l10n_pending s) ∧
     description_value s1 = description_value s) ∧
  ((0 < l10n_pending s)%nat ->
   ∀ text,
     let s2 := step s (l10n_resolved text) in
     let d := if bool_decide (description_value s = "") then text
              else description_value s in
     s2 = set_clearDescription_disabled (bool_decide (d = ""))
            (set_description_value d
               (set_l10n_pending (pred (l10n_pending s)) s)) ∧
     description_value s2 = d ∧
     clearDescription_disabled s2 = bool_decide (description_value s2 = "")).
Proof.
  split.
  - intros (Hl & Hs & Hp & Ht) b pId ox oy w h. unfold calls_since.
    destruct s; simpl in *; subst.
    destruct drawCurves0, drawPath0; try done; sym_exec;
      rewrite <- ?app_assoc, ?drop_app_length, ?drop_all; try done.
    all: by rewrite <- (app_nil_r calls0) at 1; rewrite drop_app_length.
  - intros Hn text. destruct s; simpl in *.
    destruct l10n_pending0; [lia|].
    eval_comp. unfold truthy_string. eval_comp.
    destruct (bool_decide (description_value0 = "")) eqn:E; eval_comp;
      rewrite ?E; done.
Qed.

(** ** The thickness of the drawing *)

(** X13. In the draw tab, an input on the thickness slider is copied to
    the arguments of its label.  With a drawing, it becomes the stroke
    width of the path and, as the string it is, the thickness of
    [#drawCurves]; the curves and the path string are untouched, and a
    click on the clear button then puts the slider back to 1 and leaves
    the arguments of the label at the last input.  Without a drawing
    nothing else is written, and the press on the placeholder that
    creates the drawing takes the value of the slider: as the stroke
    width of the new path, and parsed as an integer as the thickness of
    [#drawCurves]. *)
Theorem thickness_follows_slider (s : State) (v : string) :
  reachable s ->
  currentTab s = Some draw_tab ->
  let s1 := step s (thickness_edit v) in
  drawThickness_value s1 = v ∧
  drawThickness_l10n_args s1 = Some v ∧
  drawPathString s1 = drawPathString s ∧
  arrays s1 = arrays s ∧
  (drawCurves s = None ->
   s1 = set_drawThickness_l10n_args (Some v) (set_drawThickness_value v s)) ∧
  (∀ c, drawCurves s = Some c ->
     drawCurves s1 =
       Some (mkDrawCurves (dc_width c) (dc_height c) (raw v) (dc_curves c)) ∧
     (∃ el, drawPath s = Some el ∧
            drawPath s1 = Some (mkPathElement v (attr_d el))) ∧
     drawThickness_value (step s1 clear_click) = "1" ∧
     drawThickness_l10n_args (step s1 clear_click) = Some v) ∧
  (drawCurves s = None -> at_rest s ->
   ∀ pId ox oy w h,
     let s2 := step s1 (pointerdown_on true pId ox oy w h) in
     ∃ c el, drawCurves s2 = Some c ∧ dc_thickness c = parseInt v ∧
             drawPath s2 = Some el ∧ stroke_width el = v).
Proof.
  intros Hr Ht s1. subst s1.
  pose proof (reachable_session s Hr) as Hs.
  use_session Hs.
  destruct s; simpl in *; simplify_eq.
  destruct drawCurves0 as [[]|], drawPath0 as [[]|]; try done.
  - do 4 (split; [by sym_exec|]). split; [done|]. split; [|done].
    intros c' [= <-]. split; [by sym_exec|]. split; [sym_exec; by eexists|].
    split; by sym_exec.
  - do 4 (split; [by sym_exec|]). split; [by sym_exec|]. split; [done|].
    intros _ (_ & Hsl & Hcp & _) pId ox oy w h. simpl in *. subst.
    sym_exec; by eexists _, _.
Qed.

(** ** What the events of a session leave alone *)

Lemma tab_click_keeps_captures (s : State) (t t' : Tab) :
  capture t' (step s (tab_click t)) = capture t' s ∧
  hasDescriptionChanged (step s (tab_click t)) = hasDescriptionChanged s.
Proof.
  unfold capture. destruct s. destruct t, t'; by sym_exec.
Qed.

(** X14. Going from tab to tab loses no work: whatever the state and
    however many tab buttons are clicked, the typed text, the drawing
    (stroke buffer, store of points, path string, path element,
    placeholder and slider) and the traced image (path, extracted data,
    SVG content) are what they were, and so is the dirty flag of the
    description.  This holds as well when [#initTab] throws. *)
Theorem tab_switch_keeps_captures (s : State) (ts : list Tab) (t' : Tab) :
  capture t' (run s (tab_click <$> ts)) = capture t' s ∧
  hasDescriptionChanged (run s (tab_click <$> ts)) = hasDescriptionChanged s.
Proof.
  revert s. induction ts as [|t ts IH]; intros s; [done|].
  rewrite fmap_cons, run_cons.
  destruct (IH (step s (tab_click t))) as [-> ->].
  apply tab_click_keeps_captures.
Qed.

(** One event: the calls it adds to the log, and what it leaves. *)
Lemma step_never_commits (s : State) (e : Event) :
  ∃ new, calls (step s e) = calls s ++ new ∧
         Forall (fun c => is_lookup c = true) new ∧
         toolbar (step s e) = toolbar s ∧
         overlay_active (step s e) = overlay_active s ∧
         currentEditor (step s e) = currentEditor s ∧
         uiManager (step s e) = uiManager s.
Proof.
  destruct e.
  10:{ destruct (step_pointermove_frame s offsetX offsetY) as (?&?&?&?&->&_).
       exists []. rewrite app_nil_r. by destruct s. }
  10:{ destruct (step_pointerup_frame s pointerId) as (?&?&(?&?&?&?&->&_)&->).
       exists []. rewrite app_nil_r. by destruct s. }
  all: try destruct files as [[|? ?]|].
  all: destruct s; sym_exec.
  all: try (exists []; rewrite app_nil_r; by repeat split).
  all: rewrite <- ?app_assoc; eexists; (split; [reflexivity|]).
  all: split; [|done].
  all: repeat first [apply Forall_nil_2 | apply Forall_cons_2; [done|]].
Qed.

(** X15. Nothing is committed before the session ends: whatever the
    state and the events, those that end the session apart (the click
    on add, the click on cancel and the [close] event of the dialog),
    the only collaborators called are the localisation (for the default
    description of a drawing), [getFromFile] and [getFromImage] (for an
    image) and the console (for a file that cannot be decoded).  The
    host editor gets no signature, the storage is not written, the
    overlay is not closed, the toolbar is untouched, and the editor and
    the UI manager of the session stay the same.  This holds as well of
    an extraction that resumes after the tab was left. *)
Theorem events_never_commit (s : State) (es : list Event) :
  ∃ new, calls (run s es) = calls s ++ new ∧
         Forall (fun c => is_lookup c = true) new ∧
         toolbar (run s es) = toolbar s ∧
         overlay_active (run s es) = overlay_active s ∧
         currentEditor (run s es) = currentEditor s ∧
         uiManager (run s es) = uiManager s.
Proof.
  revert s. induction es as [|e es IH]; intros s.
  { exists []. by rewrite app_nil_r. }
  rewrite run_cons.
  destruct (step_never_commits s e) as (new1 & H1 & F1 & T1 & O1 & E1 & U1).
  destruct (IH (step s e)) as (new2 & H2 & F2 & T2 & O2 & E2 & U2).
  exists (new1 ++ new2).
  rewrite H2, H1, T2, T1, O2, O1, E2, E1, U2, U1, <- app_assoc.
  repeat split; try done. by apply Forall_app.
Qed.

(** X16. In an open dialog the selected tab button, the panel shown,
    [#currentTab] and the tab whose listeners are registered are always
    the same tab; the editor and the UI manager of the session are
    present, the dialog is the active overlay, and [#tabsToAltText]
    holds a description for each of the three tabs, so that a tab
    switch never restores [undefined]. *)
Theorem open_dialog_is_consistent (s : State) :
  reachable s ->
  (∃ t, currentTab s = Some t ∧ tabButton_selected s = Some t ∧
        panels_selected s = Some t ∧ tabListeners s = Some t) ∧
  is_Some (currentEditor s) ∧
  is_Some (uiManager s) ∧
  overlay_active s = true ∧
  (∀ t, is_Some (snapshot s t)).
Proof.
  intros Hr. pose proof (reachable_session s Hr) as Hs.
  use_session Hs.
  split; [exists t; repeat split; congruence|].
  split; [by eexists|]. split; [by eexists|]. split; [done|].
  intros t0. unfold snapshot. rewrite H. simpl. done.
Qed.

End WithMimeTypes.

(** ** The properties on concrete dialogs *)

Lemma closed_initial : closed initial.
Proof. by constructor. Qed.

Lemma reachable_from_initial (mimeTypes : list string) (ui editor : nat)
    (isStorageFull : bool) (es : list Event) :
  reachable mimeTypes
    (run mimeTypes (exec (open ui editor isStorageFull) initial) es).
Proof. apply reachable_run. constructor. apply closed_initial. Qed.

(** C1 on a dialog where the description "a" was entered in the type
    tab: going to the draw tab, entering "b" there and visiting the image
    tab, then coming back to the type tab shows "a" again. *)
Lemma tab_switch_snapshots_witness :
  let mimeTypes := ["image/png"] in
  let s := run mimeTypes (exec (open 1 2 false) initial) [description_edit "a"] in
  let es := [description_edit "b"; tab_click image_tab] in
  let s1 := step mimeTypes s (tab_click draw_tab) in
  currentTab s = Some type_tab ∧
  step mimeTypes s (tab_click type_tab) = s ∧
  snapshot s1 type_tab = Some "a" ∧
  currentTab s1 = Some draw_tab ∧
  description_value s1 = "" ∧
  description_value (step mimeTypes (run mimeTypes s1 es) (tab_click type_tab)) = "a".
Proof.
  intros mimeTypes s es s1.
  assert (Hc : currentTab s = Some type_tab) by (vm_compute; reflexivity).
  assert (Hne : draw_tab ≠ type_tab) by discriminate.
  assert (Hes : tab_click type_tab ∉ es).
  { subst es. rewrite !not_elem_of_cons. repeat split; try discriminate.
    apply not_elem_of_nil. }
  destruct (tab_switch_snapshots mimeTypes s type_tab draw_tab es
              (reachable_from_initial mimeTypes 1 2 false _) Hc Hne Hes)
    as (H1 & H2 & _ & H4 & H5 & H6 & _).
  split; [exact Hc|]. split; [exact H1|].
  split; [exact (eq_trans H2 (f_equal Some (eq_refl "a")))|].
  split; [exact H4|].
  split; [|exact (eq_trans H6 (eq_refl "a"))].
  apply (f_equal (default "")) in H5.
  exact (eq_sym H5).
Defined.

(** C2: the third point of a stroke gives a curve command, where the
    specification has a line command. *)
Lemma third_point_emits_curve_counterexample :
  let mimeTypes := ["image/png"] in
  let s := run mimeTypes (exec (open 1 2 false) initial)
             [tab_click draw_tab; pointerdown_on true 1 0 0 100 100;
              pointermove_to 1 1; pointermove_to 2 2] in
  let pts := [(0, 0); (1, 1); (2, 2)] in
  (∃ r, drawPoints s = Some r ∧ arrays s !! r = Some (flat pts)) ∧
  drawPathString s = path_M 0 0 ++ path_L 1 1 ++ path_C 0 0 1 1 2 2 ∧
  spec_stroke_path pts = path_M 0 0 ++ path_L 1 1 ++ path_L 2 2 ∧
  drawPathString s ≠ spec_stroke_path pts.
Proof.
  intros mimeTypes s pts. split; [exists 0%nat; by vm_compute|].
  split; [by vm_compute|]. split; [by vm_compute|]. vm_compute. discriminate.
Qed.

(** C2, as amended, on a stroke of four positions of which one repeats
    the point before it. *)
Lemma stroke_path_commands_witness :
  let mimeTypes := ["image/png"] in
  let s := run mimeTypes (exec (open 1 2 false) initial) [tab_click draw_tab] in
  let moves := [(1, 1); (2, 2); (2, 2); (7, 9)]%Q in
  let s' := run mimeTypes (step mimeTypes s (pointerdown_on true 1 0 0 100 100))
              ((fun m => pointermove_to (fst m) (snd m)) <$> moves) in
  tabListeners s = Some draw_tab ∧
  strokeListeners s = [] ∧
  currentPointerId s = None ∧
  truthy (drawCurves s) = truthy (drawPath s) ∧
  drawPathString s' =
    path_M 0 0 ++ path_L 1 1 ++ path_C 0 0 1 1 2 2 ++ path_C 1 1 2 2 7 9 ∧
  has_curve (drawPathString s') = true.
Proof.
  intros mimeTypes s moves s'.
  assert (H1 : tabListeners s = Some draw_tab) by (vm_compute; reflexivity).
  assert (H2 : strokeListeners s = []) by (vm_compute; reflexivity).
  assert (H3 : currentPointerId s = None) by (vm_compute; reflexivity).
  assert (H4 : truthy (drawCurves s) = truthy (drawPath s)) by (vm_compute; reflexivity).
  destruct (stroke_path_commands mimeTypes s true 1 0 0 100 100 moves H1 H2 H3 H4)
    as (Hpath & _ & _ & _ & _ & _ & Hcurve).
  assert (Hlen : (4 ≤ length ((Math_round 0, Math_round 0)
                     :: accepted (mkStrokeListeners 100 100)
                          (Math_round 0, Math_round 0) moves))%nat)
    by (vm_compute; lia).
  split; [exact H1|]. split; [exact H2|]. split; [exact H3|].
  split; [exact H4|].
  split; [exact (eq_trans Hpath (eq_refl _))|].
  exact (eq_trans (f_equal has_curve Hpath) (Hcurve Hlen)).
Defined.

(** C3: after the first [pointerdown] of a drawing, before any
    [pointerup], no stroke is completed and the three controls are
    enabled. *)
Lemma controls_enabled_during_first_stroke_counterexample :
  let mimeTypes := ["image/png"] in
  let s := run mimeTypes (exec (open 1 2 false) initial)
             [tab_click draw_tab; pointerdown_on true 1 5 5 100 100] in
  currentTab s = Some draw_tab ∧
  strokes_begun s = 1%nat ∧
  length (strokeListeners s) = 1%nat ∧
  strokes_completed s = 0%nat ∧
  controls_disabled s false.
Proof. vm_compute. repeat split. Qed.

(** C3, as amended, on a dialog where an image was chosen in the image
    tab and traced while that tab was current. *)
Lemma controls_follow_capture_witness :
  let mimeTypes := ["image/png"] in
  let png := mkFile "signature.png" "image/png" in
  let traced := mkSignatureData (Some (mkOutline "0 0 1 1" "M0 0")) [[0; 0; 1; 1]]
                  true 1 10 10 in
  let es := [tab_click image_tab; picker_change_pending (Some [png]);
             getFromFile_settled png (resolved (Some 7%nat)) (Some traced)] in
  let s := run mimeTypes (exec (open 1 2 false) initial) es in
  timely mimeTypes (exec (open 1 2 false) initial) es ∧
  has_capture s = true ∧
  controls_disabled s false ∧
  controls_disabled (step mimeTypes s clear_click) true.
Proof.
  intros mimeTypes png traced es s.
  assert (Ht : timely mimeTypes (exec (open 1 2 false) initial) es).
  { unfold timely. cbn [trace es].
    repeat (apply Forall_cons_2 || apply Forall_nil_2);
      unfold in_time; cbn [snd traces_outline];
      intros H; first [discriminate H | vm_compute; reflexivity]. }
  destruct (controls_follow_capture mimeTypes initial 1%nat 2%nat false es
              closed_initial) as (H1 & _ & _ & _ & H4).
  assert (Hc : has_capture s = true) by (vm_compute; reflexivity).
  split; [exact Ht|]. split; [exact Hc|].
  split; [|exact H4].
  exact (eq_ind _ (fun b => controls_disabled s (negb b)) (H1 Ht) _ Hc).
Defined.

(** C4: the flag is set with the description "xyz"; a drawing is made
    and cleared in the draw tab, which resets the flag; back in the type
    tab, where the description is "xyz" again, the next keystroke
    overwrites it. *)
Lemma typing_overwrites_after_clear_signature_counterexample :
  let mimeTypes := ["image/png"] in
  let s := run mimeTypes (exec (open 1 2 false) initial)
             [type_edit "abc"; description_edit "xyz"] in
  let s1 := run mimeTypes s
              [tab_click draw_tab; pointerdown_on true 1 5 5 100 100;
               pointerup_of 1] in
  let s2 := run mimeTypes s1 [clear_click; tab_click type_tab] in
  hasDescriptionChanged s = true ∧
  description_value s = "xyz" ∧
  clearButton_disabled s1 = false ∧
  currentTab s2 = Some type_tab ∧
  description_value s2 = "xyz" ∧
  description_value (step mimeTypes s2 (type_edit "abcd")) = "abcd" ∧
  ¬ (∀ es v,
       description_value (step mimeTypes (run mimeTypes s es) (type_edit v)) =
       description_value (run mimeTypes s es)).
Proof.
  intros mimeTypes s s1 s2.
  assert (H2 : description_value s2 = "xyz") by (vm_compute; reflexivity).
  assert (H3 : description_value (step mimeTypes s2 (type_edit "abcd")) = "abcd")
    by (vm_compute; reflexivity).
  do 3 (split; [vm_compute; reflexivity|]).
  split; [vm_compute; reflexivity|]. split; [exact H2|]. split; [exact H3|].
  intros Hall.
  assert (Hne : description_value
                  (step mimeTypes
                     (run mimeTypes s
                        [tab_click draw_tab; pointerdown_on true 1 5 5 100 100;
                         pointerup_of 1; clear_click; tab_click type_tab])
                     (type_edit "abcd")) ≠
                description_value
                  (run mimeTypes s
                     [tab_click draw_tab; pointerdown_on true 1 5 5 100 100;
                      pointerup_of 1; clear_click; tab_click type_tab]))
    by (vm_compute; intros H; discriminate H).
  exact (Hne (Hall _ _)).
Qed.

(** C4, as amended, on the dialog just opened, and on one where the
    description was edited away from the typed text: there the flag
    stays set through a visit of the draw tab, and a keystroke after it
    leaves the description alone. *)
Lemma type_tab_mirroring_witness :
  let mimeTypes := ["image/png"] in
  let s := exec (open 1 2 false) initial in
  let s2 := run mimeTypes s [type_edit "PDF.js"; description_edit "Hello World"] in
  let es := [tab_click draw_tab; tab_click type_tab; type_edit "Hello"] in
  tabListeners s = Some type_tab ∧
  hasDescriptionChanged s = false ∧
  hasDescriptionChanged s2 = true ∧
  description_value (run mimeTypes s (type_edit <$> ["P"; "PD"; "PDF"])) = "PDF" ∧
  hasDescriptionChanged (step mimeTypes s (description_edit "x")) = true ∧
  description_value (run mimeTypes s2 (type_edit <$> ["Hello"])) = "Hello World" ∧
  hasDescriptionChanged (run mimeTypes s2 es) = true.
Proof.
  intros mimeTypes s s2 es.
  assert (Hl : tabListeners s = Some type_tab) by (vm_compute; reflexivity).
  assert (Hf : hasDescriptionChanged s = false) by (vm_compute; reflexivity).
  assert (Hf2 : hasDescriptionChanged s2 = true) by (vm_compute; reflexivity).
  destruct (type_tab_mirroring mimeTypes s) as (H1 & H2 & _).
  destruct (type_tab_mirroring mimeTypes s2) as (_ & _ & H3 & H4).
  destruct (H1 Hl Hf ["P"; "PD"] "PDF") as (_ & Hd & _).
  destruct (H2 Hl "x") as (_ & _ & Hx).
  destruct (H3 Hf2 ["Hello"]) as (Hk & _).
  assert (Hes : Forall (fun se =>
                  snd se ≠ clear_click ∧
                  ∀ d, snd se = description_edit d ->
                       tabListeners (fst se) = Some type_tab ->
                       d ≠ typeInput_value (fst se)) (trace mimeTypes s2 es)).
  { cbn [trace es].
    repeat (apply Forall_cons_2 || apply Forall_nil_2);
      (split; [discriminate|intros d H; discriminate H]). }
  destruct (H4 Hf2 es Hes) as (Hstays & _).
  split; [exact Hl|]. split; [exact Hf|]. split; [exact Hf2|].
  split; [exact Hd|].
  split; [exact (eq_trans Hx (eq_refl true))|].
  split; [exact (eq_trans Hk (eq_refl "Hello World"))|].
  exact Hstays.
Defined.

(** C5: with the flag set and the description cleared, a drawing that is
    then cleared in the draw tab resets the flag while the typed text is
    "abc" and the description is empty; back in the type tab the next
    keystroke overwrites the description. *)
Lemma clear_signature_resumes_mirroring_counterexample :
  let mimeTypes := ["image/png"] in
  let s := run mimeTypes (exec (open 1 2 false) initial)
             [type_edit "abc"; description_edit "xyz"] in
  let s1 := step mimeTypes s clearDescription_clicked in
  let s2 := run mimeTypes s1
              [tab_click draw_tab; pointerdown_on true 1 5 5 100 100;
               pointerup_of 1] in
  let s3 := step mimeTypes s2 clear_click in
  let s4 := step mimeTypes s3 (tab_click type_tab) in
  hasDescriptionChanged s = true ∧
  clearDescription_disabled s = false ∧
  hasDescriptionChanged s1 = true ∧
  description_value s1 = "" ∧ typeInput_value s1 = "abc" ∧
  hasDescriptionChanged s2 = true ∧
  clearButton_disabled s2 = false ∧
  hasDescriptionChanged s3 = false ∧
  description_value s3 = "" ∧ typeInput_value s3 = "abc" ∧
  description_value s4 = "" ∧ typeInput_value s4 = "abc" ∧
  description_value (step mimeTypes s4 (type_edit "abcd")) = "abcd".
Proof. vm_compute. repeat split. Qed.

(** C5, as amended, on the same dialog. *)
Lemma clearDescription_keeps_dirty_flag_witness :
  let mimeTypes := ["image/png"] in
  let s := run mimeTypes (exec (open 1 2 false) initial)
             [type_edit "abc"; description_edit "xyz"] in
  let s1 := step mimeTypes s clearDescription_clicked in
  hasDescriptionChanged s1 = true ∧
  description_value s1 = "" ∧
  clearDescription_disabled s1 = true ∧
  description_value (step mimeTypes s1 (type_edit "abcd")) = "" ∧
  hasDescriptionChanged (step mimeTypes s1 (description_edit "abc")) = false ∧
  (description_edit "abc" = clear_click ∨
   ∃ d, description_edit "abc" = description_edit d ∧
        tabListeners s1 = Some type_tab ∧
        description_value (step mimeTypes s1 (description_edit "abc")) =
        typeInput_value (step mimeTypes s1 (description_edit "abc"))).
Proof.
  intros mimeTypes s s1.
  assert (Hf : hasDescriptionChanged s1 = true) by (vm_compute; reflexivity).
  assert (Hf' : hasDescriptionChanged
                  (step mimeTypes s1 (description_edit "abc")) = false)
    by (vm_compute; reflexivity).
  destruct (clearDescription_keeps_dirty_flag mimeTypes s)
    as (_ & Hd & Hc & _ & Htype & Hclear).
  fold s1 in Hd, Hc.
  destruct (Htype s1 "abcd" Hf) as (Hk & _).
  pose proof (Hclear s1 (description_edit "abc") Hf Hf') as Hor.
  split; [exact Hf|]. split; [exact Hd|]. split; [exact Hc|].
  split; [exact (eq_trans Hk Hd)|]. split; [exact Hf'|].
  exact Hor.
Defined.

(** C6. Not every commit hands the signature over: two commits in
    which [addSignature] is never called.  In the image tab, after an
    image was traced and a second tracing returned nothing, the add
    button is enabled and the save checkbox checked, yet [#add] throws
    when it destructures the payload: nothing is stored, [addSignature]
    is not called and the dialog stays open.  In the type tab, when
    cancel is clicked while [#add] waits for [create], [#add] then adds
    the launcher of the stored signature and throws at [addSignature],
    which is never called. *)
Theorem commit_can_miss_addSignature :
  let mimeTypes := ["image/png"] in
  let png := mkFile "signature.png" "image/png" in
  let traced := mkSignatureData (Some (mkOutline "0 0 1 1" "M0 0")) [[0; 0; 1; 1]]
                  true 1 10 10 in
  let typed := mkSignatureData (Some (mkOutline "0 0 2 2" "M1 1")) [[1; 1; 2; 2]]
                 false 1 20 20 in
  let env := mkEnv (fun _ => typed) (fun _ _ _ _ => typed) (10, 10)%Q
               (fun _ _ _ _ _ => "bytes") (fun _ _ => Some "u7")
               (fun _ _ _ _ _ => Some (mkOutline "0 0 2 2" "M1 1")) false in
  let s := run mimeTypes (exec (open 1 2 false) initial)
             [tab_click image_tab;
              picker_change (Some [png]) (resolved (Some 7%nat)) (Some traced);
              picker_change (Some [png]) (resolved (Some 8%nat)) None] in
  let t0 := run mimeTypes (exec (open 1 2 false) initial) [type_edit "PDF.js"] in
  let until_create :=
    data <- add_payload env ;;
    saved <- add_compress data ;;
    add_create env (fst saved) (snd saved) ;;
    ret (data, saved) in
  let t1 := exec until_create t0 in
  let t2 := exec (cancel env) t1 in
  let resumed :=
    uuid <- add_stored env "PDF.js" typed ;;
    add_hand_over env (Some typed) uuid in
  let t3 := exec resumed t2 in
  (addButton_disabled s = false ∧
   saveCheckbox_checked s = true ∧
   overlay_active s = true ∧
   add env s = (None, s)) ∧
  (fst (until_create t0) = Some (Some typed, ("PDF.js", typed)) ∧
   List.filter is_storage_create (calls t1) = [storage_create "PDF.js" "bytes"] ∧
   overlay_active t2 = false ∧
   currentEditor t2 = None ∧
   threw resumed t2 = true ∧
   toolbar t3 = [mkToolbarButton (Some "u7") "PDF.js"] ∧
   List.filter is_addSignature (calls t3) = []).
Proof. vm_compute. repeat split. Qed.


(** C7: on an image tab without capture, a file that is decoded and
    traced without outline leaves the result of the tracing in
    [#extractedSignatureData]. *)
Lemma extraction_without_outline_retains_data_counterexample :
  let mimeTypes := ["image/png"] in
  let s := run mimeTypes (exec (open 1 2 false) initial) [tab_click image_tab] in
  let file := mkFile "scan.png" "image/png" in
  let d := mkSignatureData None [] true 0 0 0 in
  let s' := step mimeTypes s
              (picker_change (Some [file]) (resolved (Some 7%nat)) (Some d)) in
  extractedSignatureData s = None ∧
  imagePath s = None ∧
  outline d = None ∧
  extractedSignatureData s' = Some d ∧
  extractedSignatureData s' ≠ None.
Proof. vm_compute. repeat split. discriminate. Qed.

(** C7, as amended, on the same dialog. *)
Lemma extraction_without_outline_witness :
  let mimeTypes := ["image/png"] in
  let s := run mimeTypes (exec (open 1 2 false) initial)
             [tab_click image_tab; picker_click] in
  let file := mkFile "scan.png" "image/png" in
  let d := mkSignatureData None [] true 0 0 0 in
  let s' := exec (extractSignature file (resolved (Some 7%nat)) (Some d)) s in
  is_Some (uiManager s) ∧
  is_Some (currentEditor s) ∧
  outline d = None ∧
  dialog_waiting s = true ∧
  dialog_waiting s' = false ∧
  errorBar_hidden s' = errorBar_hidden s ∧
  imagePath s' = None ∧
  controls_disabled s' true ∧
  step mimeTypes s
    (picker_change (Some [file]) (resolved (Some 7%nat)) (Some d)) = s'.
Proof.
  intros mimeTypes s file d s'.
  assert (Hui : is_Some (uiManager s)) by (exists 1%nat; vm_compute; reflexivity).
  assert (Hed : is_Some (currentEditor s)) by (exists 2%nat; vm_compute; reflexivity).
  assert (Hd : outline d = None) by reflexivity.
  assert (Hw : dialog_waiting s = true) by (vm_compute; reflexivity).
  assert (Hp : imagePath s = None) by (vm_compute; reflexivity).
  assert (Hc : controls_disabled s true) by (vm_compute; repeat split).
  assert (Hl : tabListeners s = Some image_tab) by (vm_compute; reflexivity).
  assert (Hsup : supported mimeTypes (file_type file) = true)
    by (vm_compute; reflexivity).
  destruct (extraction_without_outline mimeTypes s file 7%nat d Hui Hed Hd)
    as (_ & _ & _ & Hw' & He & _ & Hempty & Hev).
  destruct (Hempty Hp Hc) as (Hp' & Hc' & _).
  destruct (Hev Hl Hsup []) as (Hpick & _).
  split; [exact Hui|]. split; [exact Hed|]. split; [exact Hd|].
  split; [exact Hw|]. split; [exact Hw'|]. split; [exact He|].
  split; [exact Hp'|]. split; [exact Hc'|exact Hpick].
Defined.

(** C8 on a dialog opened with the storage full: the user types, checks
    the box and commits. *)
Lemma full_storage_does_not_block_saving_witness :
  let mimeTypes := ["image/png"] in
  let payload := mkSignatureData (Some (mkOutline "0 0 1 1" "M0 0")) [[0; 0; 1; 1]]
                   false 1 10 10 in
  let env := mkEnv (fun _ => payload) (fun _ _ _ _ => payload) (10, 10)%Q
               (fun _ _ _ _ _ => "bytes") (fun _ _ => None)
               (fun _ _ _ _ _ => None) false in
  let s1 := exec (open 1 2 true) initial in
  let s := run mimeTypes s1 [type_edit "PDF.js"; saveCheckbox_click] in
  closed initial ∧
  saveCheckbox_checked s1 = false ∧
  saveContainer_fullStorage s1 = true ∧
  saveContainer_fullStorage s = true ∧
  saveCheckbox_checked s = true ∧
  resolved_payload env s = Some payload ∧
  ∃ before after,
    calls_since (calls s) (exec (add env) s) =
      before ++
      [compressSignature [[0; 0; 1; 1]] false 1 10 10;
       storage_create "PDF.js" "bytes"] ++ after.
Proof.
  intros mimeTypes payload env s1 s.
  assert (Hck : saveCheckbox_checked s = true) by (vm_compute; reflexivity).
  assert (Hpl : resolved_payload env s = Some payload) by (vm_compute; reflexivity).
  destruct (full_storage_does_not_block_saving mimeTypes initial 1 2 true
              [type_edit "PDF.js"; saveCheckbox_click] env payload closed_initial)
    as (_ & H1 & H2 & H3 & _ & _ & Hcreate).
  destruct (Hcreate Hck Hpl) as (before & after & Hcalls).
  split; [exact closed_initial|]. split; [exact H1|]. split; [exact H2|].
  split; [exact H3|]. split; [exact Hck|]. split; [exact Hpl|].
  exists before, after. exact Hcalls.
Defined.

(** C10 on a dialog with text in the type tab and a stroke in the draw
    tab, cleared in the draw tab. *)
Lemma clearSignature_resets_only_active_tab_witness :
  let mimeTypes := ["image/png"] in
  let s := run mimeTypes (exec (open 1 2 false) initial)
             [type_edit "PDF.js"; tab_click draw_tab;
              pointerdown_on true 1 5 5 100 100; pointerup_of 1;
              description_edit "drawn"] in
  let m := default ∅ (tabsToAltText s) in
  let s' := exec clearButton_click s in
  currentTab s = Some draw_tab ∧
  tabsToAltText s = Some m ∧
  description_value s' = "" ∧
  hasDescriptionChanged s' = false ∧
  cleared draw_tab s' ∧
  capture type_tab s' = capture type_tab s ∧
  snapshot s' type_tab = snapshot s type_tab ∧
  capture image_tab s' = capture image_tab s.
Proof.
  intros mimeTypes s m s'.
  assert (Ht : currentTab s = Some draw_tab) by (vm_compute; reflexivity).
  assert (Hm : tabsToAltText s = Some m) by (vm_compute; reflexivity).
  destruct (clearSignature_resets_only_active_tab s draw_tab m Ht Hm)
    as (_ & _ & Hd & Hf & _ & _ & Hcl & Hother).
  destruct (Hother type_tab) as (Hcap & Hsnap); [discriminate|].
  destruct (Hother image_tab) as (Hcap' & _); [discriminate|].
  split; [exact Ht|]. split; [exact Hm|]. split; [exact Hd|].
  split; [exact Hf|]. split; [exact Hcl|]. split; [exact Hcap|].
  split; [exact Hsnap|exact Hcap'].
Defined.

(** ** Focus among the tab buttons *)

(** X17. The arrow keys move the focus between the tab buttons without
    wrapping around: ArrowRight gives it to the next button and
    ArrowLeft to the one before, if there is one; on the first button
    ArrowLeft does nothing and on the last one ArrowRight does nothing,
    as any other key anywhere.  Going right and then left comes back to
    the button one started from. *)
Theorem arrow_keys_do_not_wrap (i : nat) (key : string) :
  (key ≠ "ArrowLeft" -> key ≠ "ArrowRight" -> tabButton_keydown i key = None) ∧
  tabButton_keydown i "ArrowRight" = tabButtons_keys !! S i ∧
  tabButton_keydown i "ArrowLeft" =
    match i with O => None | S j => tabButtons_keys !! j end ∧
  tabButton_keydown 0 "ArrowLeft" = None ∧
  tabButton_keydown (length tabButtons_keys - 1) "ArrowRight" = None ∧
  (is_Some (tabButton_keydown i "ArrowRight") ->
   tabButton_keydown (S i) "ArrowLeft" = tabButtons_keys !! i).
Proof.
  assert (HR : ∀ j, tabButton_keydown j "ArrowRight" = tabButtons_keys !! S j).
  { intros j. unfold tabButton_keydown, array_get.
    rewrite (bool_decide_eq_false_2 ("ArrowRight" = "ArrowLeft")) by done.
    rewrite bool_decide_eq_true_2 by done. cbn [negb andb].
    destruct (Z.ltb_spec (Z.of_nat j + 1) 0) as [?|_]; [lia|].
    by replace (Z.to_nat (Z.of_nat j + 1)) with (S j) by lia. }
  assert (HL : ∀ j, tabButton_keydown j "ArrowLeft" =
                    match j with O => None | S j' => tabButtons_keys !! j' end).
  { intros j. unfold tabButton_keydown, array_get.
    rewrite bool_decide_eq_true_2 by done. cbn [negb andb].
    destruct j as [|j']; [done|].
    destruct (Z.ltb_spec (Z.of_nat (S j') + -1) 0) as [?|_]; [lia|].
    by replace (Z.to_nat (Z.of_nat (S j') + -1)) with j' by lia. }
  split.
  { intros H1 H2. unfold tabButton_keydown.
    by rewrite !bool_decide_eq_false_2 by done. }
  split; [apply HR|]. split; [apply HL|]. split; [apply HL|].
  split; [by rewrite HR|].
  intros _. by rewrite HL.
Qed.

(** * Properties of the stored signatures in the toolbar *)

(** Evaluation of the methods of the manager. *)
Ltac eval_manager :=
  cbv beta iota zeta delta [
    in_dialog storage_call start_loading loadSignatures loadSignatures_begin
    loadSignatures_resume signaturesChanged
    has_previousElementSibling
    set_dialog set_loadSignaturesPromise set_storage_calls dialog
    has_addSignatureToolbarButton has_signatureStorage loadSignaturesPromise
    storage_calls outlines dec_areContours dec_thickness dec_width
    dec_height st_description st_signatureData outline newCurves areContours
    thickness width height viewBox toSVGPath file_name file_type dc_width
    dc_height dc_thickness dc_curves stroke_width attr_d drawWidth
    drawHeight env_getFromText env_getDrawnSignature env_drawSVG_rect
    env_compressSignature env_storage_create env_processDrawnLines
    env_drawId_is_null threw exec bind gets modify cond when ret throw
    listener fst snd negb andb orb truthy Tab_eqb is_tab other_pointer call
    tabsToAltText_set tabsToAltText_get resetCommon resetTab disableButtons
    initTypeTab initDrawTab initImageTab initTab tabCallback
    clearButton_click description_input clearDescription_click
    errorCloseButton_click typeInput_input description_input_type
    drawPathString_append new_array array_of array_push drawPath_set_d
    l10n_then drawCallback pointermove pointerup drawThickness_input
    extractSignature extractSignature_begin extractSignature_resume
    imagePicker_change_begin imagePlaceholder_drop_begin add_payload
    add_compress add_create add_stored add_hand_over
    imagePicker_click imagePickerLink_keydown
    imagePicker_change imagePicker_cancel imagePlaceholder_drop
    getOutlineForType getOutlineForDraw addToolbarButton close finish cancel
    destroy add open when_tab dispatch step set_currentTab set_tabsToAltText
    set_hasDescriptionChanged set_drawCurves set_drawPoints
    set_drawPathString set_drawPath set_extractedSignatureData set_imagePath
    set_uiManager set_currentEditor set_description_value
    set_clearDescription_disabled set_typeInput_value set_addButton_disabled
    set_clearButton_disabled set_saveContainer_disabled
    set_saveCheckbox_checked set_saveContainer_fullStorage
    set_drawPlaceholder_hidden set_drawThickness_value
    set_drawThickness_l10n_args set_imagePlaceholder_hidden
    set_imageSVG_viewBox set_imageSVG_paths set_errorBar_hidden
    set_dialog_waiting set_tabButton_selected set_panels_selected set_arrays
    set_tabListeners set_currentPointerId set_strokeListeners
    set_l10n_pending set_overlay_active set_toolbar set_calls currentTab
    tabsToAltText hasDescriptionChanged drawCurves drawPoints drawPathString
    drawPath extractedSignatureData imagePath uiManager currentEditor
    description_value clearDescription_disabled typeInput_value
    addButton_disabled clearButton_disabled saveContainer_disabled
    saveCheckbox_checked saveContainer_fullStorage drawPlaceholder_hidden
    drawThickness_value drawThickness_l10n_args imagePlaceholder_hidden
    imageSVG_viewBox imageSVG_paths errorBar_hidden dialog_waiting
    tabButton_selected panels_selected arrays tabListeners currentPointerId
    strokeListeners l10n_pending overlay_active toolbar calls].

(** The loop over the stored signatures: the entry at position [i] is
    rendered from the data at position [i], whether or not the entries
    before it were skipped. *)
Lemma render_signatures_from (env : Env) (decompress : string -> option Decompressed)
    (signatures : list (string * Stored)) (before : list (option Decompressed))
    (mg : Manager) :
  render_signatures env signatures
    (before ++ (decompress <$> stored_data signatures)) (length before) mg =
  (Some tt, rendered env decompress signatures mg).
Proof.
  unfold rendered, stored_data.
  revert before mg. induction signatures as [|[uuid stored] signatures IH];
    intros before mg.
  { simpl. rewrite !app_nil_r. by destruct mg as [[] ? ? ? ?]. }
  cbn [render_signatures fmap list_fmap snd].
  set (d := decompress (st_signatureData stored)).
  set (rest := decompress <$> _).
  assert (Hd : (before ++ d :: rest) !! length before = Some d)
    by by apply list_lookup_middle.
  rewrite Hd.
  specialize (IH (before ++ [d])).
  rewrite <- app_assoc, length_app, Nat.add_1_r in IH. simpl app in IH.
  fold rest in IH.
  cbn [omap list_omap]. unfold launcher_of at 1, drawn_of at 1.
  cbn [fst snd]. fold d. clearbody d rest.
  unfold bind at 1.
  destruct d as [data|].
  - destruct env, data, mg as [[] ? ? ? ?].
    eval_manager.
    match goal with
    | |- context [env_processDrawnLines0 ?a ?b ?c ?d ?e] =>
        destruct (env_processDrawnLines0 a b c d e)
    end; rewrite IH; eval_manager.
    + by rewrite <- (app_assoc calls0), <- (app_assoc toolbar0).
    + by rewrite <- (app_assoc calls0).
  - cbv beta iota delta [ret]. by rewrite IH.
Qed.

Lemma render_signatures_all (env : Env) (decompress : string -> option Decompressed)
    (signatures : list (string * Stored)) (mg : Manager) :
  render_signatures env signatures (decompress <$> stored_data signatures) 0 mg =
  (Some tt, rendered env decompress signatures mg).
Proof. apply (render_signatures_from env decompress signatures []). Qed.

(** [loadSignatures] by cases: a first call that only starts the load, a
    call that finds the load started, and a reload. *)
Lemma loadSignatures_starts (env : Env) (decompress : string -> option Decompressed)
    (signatures : list (string * Stored)) (mg : Manager) :
  has_addSignatureToolbarButton mg = true ->
  has_signatureStorage mg = true ->
  toolbar (dialog mg) = [] ->
  loadSignaturesPromise mg = None ->
  loadSignatures env decompress false (Some signatures) mg =
  (Some tt, loading decompress signatures mg).
Proof.
  intros Hb Hs Ht Hp. unfold loading, stored_data.
  destruct mg as [[] ? ? ? ?]; simpl in *; subst.
  eval_manager. by rewrite <- app_assoc.
Qed.

Lemma loadSignatures_renders (env : Env) (decompress : string -> option Decompressed)
    (reload : bool) (all : option (list (string * Stored)))
    (signatures : list (string * Stored)) (mg : Manager) :
  has_addSignatureToolbarButton mg = true ->
  has_signatureStorage mg = true ->
  reload = true ∨ toolbar (dialog mg) = [] ->
  loadSignaturesPromise mg =
    Some (load_fulfilled signatures (decompress <$> stored_data signatures)) ->
  loadSignatures env decompress reload all mg =
  (Some tt, rendered env decompress signatures (set_loadSignaturesPromise None mg)).
Proof.
  intros Hb Hs Hr Hp.
  destruct mg as [d ? ? ? ?]; simpl in *; subst.
  unfold loadSignatures, loadSignatures_begin, loadSignatures_resume, has_previousElementSibling.
  assert (Hguard : negb reload &&
            match toolbar d with [] => false | _ :: _ => true end = false).
  { destruct Hr as [->| ->]; [done|]. by destruct reload. }
  cbv beta iota zeta delta [bind gets cond ret negb orb truthy modify andb
    dialog has_addSignatureToolbarButton has_signatureStorage
    loadSignaturesPromise set_loadSignaturesPromise] in *.
  rewrite Hguard.
  apply render_signatures_all.
Qed.

Lemma loadSignatures_reloads (env : Env) (decompress : string -> option Decompressed)
    (signatures : list (string * Stored)) (mg : Manager) :
  has_addSignatureToolbarButton mg = true ->
  has_signatureStorage mg = true ->
  loadSignaturesPromise mg = None ->
  loadSignatures env decompress true (Some signatures) mg =
  (Some tt,
   rendered env decompress signatures
     (set_loadSignaturesPromise None (loading decompress signatures mg))).
Proof.
  intros Hb Hs Hp. unfold loading.
  destruct mg as [d ? ? ? ?]; simpl in *; subst.
  unfold loadSignatures, loadSignatures_begin, loadSignatures_resume, start_loading, storage_call, has_previousElementSibling.
  cbv beta iota zeta delta [bind gets cond when ret negb orb truthy modify andb
    dialog has_addSignatureToolbarButton has_signatureStorage storage_calls
    loadSignaturesPromise set_loadSignaturesPromise set_storage_calls].
  rewrite <- app_assoc.
  apply render_signatures_all.
Qed.

(** What rendering and loading write. *)
Lemma rendered_fields (env : Env) (decompress : string -> option Decompressed)
    (signatures : list (string * Stored)) (mg : Manager) :
  let mg' := rendered env decompress signatures mg in
  toolbar (dialog mg') =
    toolbar (dialog mg) ++ omap (launcher_of env decompress) signatures ∧
  calls (dialog mg') = calls (dialog mg) ++ omap (drawn_of decompress) signatures ∧
  loadSignaturesPromise mg' = loadSignaturesPromise mg ∧
  storage_calls mg' = storage_calls mg ∧
  has_addSignatureToolbarButton mg' = has_addSignatureToolbarButton mg ∧
  has_signatureStorage mg' = has_signatureStorage mg.
Proof. by destruct mg as [[] ? ? ? ?]. Qed.

Lemma loading_fields (decompress : string -> option Decompressed)
    (signatures : list (string * Stored)) (mg : Manager) :
  let mg' := loading decompress signatures mg in
  dialog mg' = dialog mg ∧
  loadSignaturesPromise mg' =
    Some (load_fulfilled signatures (decompress <$> stored_data signatures)) ∧
  storage_calls mg' =
    storage_calls mg ++
    storage_getAll :: (decompressSignature <$> stored_data signatures) ∧
  has_addSignatureToolbarButton mg' = has_addSignatureToolbarButton mg ∧
  has_signatureStorage mg' = has_signatureStorage mg.
Proof. by destruct mg. Qed.

Lemma loadSignatures_skips (env : Env) (decompress : string -> option Decompressed)
    (all : option (list (string * Stored))) (mg : Manager) :
  toolbar (dialog mg) ≠ [] ->
  loadSignatures env decompress false all mg = (Some tt, mg).
Proof.
  intros Hne. destruct mg as [d [] [] ? ?]; simpl in *;
    unfold loadSignatures, loadSignatures_begin, loadSignatures_resume;
    cbv beta iota zeta delta [bind gets cond ret negb orb andb
      has_previousElementSibling dialog has_addSignatureToolbarButton
      has_signatureStorage];
    by destruct (toolbar d).
Qed.

Lemma loadSignatures_unequipped (env : Env)
    (decompress : string -> option Decompressed) (reload : bool)
    (all : option (list (string * Stored))) (mg : Manager) :
  has_addSignatureToolbarButton mg = false ∨ has_signatureStorage mg = false ->
  loadSignatures env decompress reload all mg = (Some tt, mg).
Proof.
  intros Hne. destruct mg as [d b st ? ?]; simpl in *.
  unfold loadSignatures, loadSignatures_begin, loadSignatures_resume;
    cbv beta iota zeta delta [bind gets cond ret negb orb andb
      has_previousElementSibling dialog has_addSignatureToolbarButton
      has_signatureStorage].
  destruct Hne as [-> | ->]; [done|].
  by destruct b, reload, (toolbar d).
Qed.

(** [#signaturesChanged] on a manager with its button and its storage. *)
Lemma signaturesChanged_runs (env : Env) (decompress : string -> option Decompressed)
    (signatures : list (string * Stored)) (mg : Manager) :
  has_addSignatureToolbarButton mg = true ->
  has_signatureStorage mg = true ->
  signaturesChanged env decompress (Some signatures) mg =
  (Some tt,
   rendered env decompress signatures
     (set_loadSignaturesPromise None
        (loading decompress signatures
           (set_loadSignaturesPromise None
              (set_dialog (set_toolbar [] (dialog mg)) mg))))).
Proof.
  intros Hmb Hms. unfold signaturesChanged.
  destruct mg as [d ? ? ? ?]; simpl in *; subst.
  cbv beta iota zeta delta [bind gets cond ret negb modify in_dialog
    has_addSignatureToolbarButton dialog set_dialog set_loadSignaturesPromise].
  by apply loadSignatures_reloads.
Qed.

Lemma signaturesChanged_fields (env : Env) (decompress : string -> option Decompressed)
    (signatures : list (string * Stored)) (mg : Manager) :
  has_addSignatureToolbarButton mg = true ->
  has_signatureStorage mg = true ->
  let mg' := exec (signaturesChanged env decompress (Some signatures)) mg in
  threw (signaturesChanged env decompress (Some signatures)) mg = false ∧
  toolbar (dialog mg') = omap (launcher_of env decompress) signatures ∧
  loadSignaturesPromise mg' = None ∧
  calls (dialog mg') = calls (dialog mg) ++ omap (drawn_of decompress) signatures ∧
  storage_calls mg' =
    storage_calls mg ++
    storage_getAll :: (decompressSignature <$> stored_data signatures) ∧
  has_addSignatureToolbarButton mg' = true ∧ has_signatureStorage mg' = true.
Proof.
  intros Hmb Hms mg'. subst mg'. unfold exec, threw.
  rewrite (signaturesChanged_runs env decompress signatures mg Hmb Hms).
  cbn [fst snd]. split; [done|].
  match goal with
  | |- context [rendered env decompress signatures ?x] =>
      destruct (rendered_fields env decompress signatures x)
        as (Rt & Rc & Rp & Rs & Rb & Rst);
      rewrite Rt, Rc, Rp, Rs, Rb, Rst
  end.
  destruct mg as [[] ? ? ? ?]; simpl in *; subst. done.
Qed.

(** A call that was waiting for its promise renders what the promise
    holds when it resumes, after whatever ran meanwhile: the launchers
    in the toolbar by then are kept, and those of the promise come after
    them. *)
Lemma suspended_load_renders_late
    (env : Env) (decompress : string -> option Decompressed)
    (signatures : list (string * Stored)) (mg : Manager) :
  loadSignatures_resume env
    (load_fulfilled signatures (decompress <$> stored_data signatures)) mg =
  (Some tt, rendered env decompress signatures (set_loadSignaturesPromise None mg)).
Proof.
  unfold loadSignatures_resume. cbv beta iota delta [bind modify].
  apply render_signatures_all.
Qed.

(** X18. The stored signatures reach the toolbar in two calls of
    [loadSignatures()].  On a manager with its toolbar button and its
    storage, an empty toolbar and no load under way, the first call asks
    the storage for all signatures, has every one of them decompressed,
    keeps the result and renders nothing.  The second call does not ask
    the storage again: it renders what the first one loaded and forgets
    the promise.  Every stored signature whose data decompresses to
    something and can be drawn gets one launcher, in the order of the
    storage, with its own uuid and description; the others are skipped.
    Once a launcher is in the toolbar, further calls do nothing, and a
    manager without toolbar button or without storage never loads. *)
Theorem signatures_load_in_two_calls
    (env : Env) (decompress : string -> option Decompressed)
    (signatures : list (string * Stored)) (mg : Manager)
    (all' : option (list (string * Stored))) :
  has_addSignatureToolbarButton mg = true ->
  has_signatureStorage mg = true ->
  toolbar (dialog mg) = [] ->
  loadSignaturesPromise mg = None ->
  let mg1 := exec (loadSignatures env decompress false (Some signatures)) mg in
  let mg2 := exec (loadSignatures env decompress false all') mg1 in
  mg1 = loading decompress signatures mg ∧
  dialog mg1 = dialog mg ∧
  storage_calls mg1 =
    storage_calls mg ++
    storage_getAll :: (decompressSignature <$> stored_data signatures) ∧
  threw (loadSignatures env decompress false all') mg1 = false ∧
  toolbar (dialog mg2) = omap (launcher_of env decompress) signatures ∧
  calls (dialog mg2) = calls (dialog mg) ++ omap (drawn_of decompress) signatures ∧
  loadSignaturesPromise mg2 = None ∧
  storage_calls mg2 = storage_calls mg1 ∧
  (toolbar (dialog mg2) ≠ [] ->
   ∀ all'', loadSignatures env decompress false all'' mg2 = (Some tt, mg2)) ∧
  (∀ mg0 reload all'',
     has_addSignatureToolbarButton mg0 = false ∨ has_signatureStorage mg0 = false ->
     loadSignatures env decompress reload all'' mg0 = (Some tt, mg0)).
Proof.
  intros Hb Hs Ht Hp mg1 mg2. subst mg2 mg1. unfold exec, threw.
  rewrite (loadSignatures_starts env decompress signatures mg Hb Hs Ht Hp).
  cbn [fst snd].
  destruct (loading_fields decompress signatures mg) as (Ld & Lp & Lc & Lb & Ls).
  set (mg1 := loading decompress signatures mg) in *.
  rewrite (loadSignatures_renders env decompress false all' signatures mg1);
    [|congruence|congruence|right; congruence|done].
  cbn [fst snd].
  destruct (rendered_fields env decompress signatures
              (set_loadSignaturesPromise None mg1)) as (Rt & Rc & Rp & Rs & Rb & Rst).
  set (mg2 := rendered env decompress signatures _) in *.
  assert (Q : toolbar (dialog (set_loadSignaturesPromise None mg1)) = [] ∧
              calls (dialog (set_loadSignaturesPromise None mg1)) = calls (dialog mg) ∧
              loadSignaturesPromise (set_loadSignaturesPromise None mg1) = None ∧
              storage_calls (set_loadSignaturesPromise None mg1) = storage_calls mg1 ∧
              has_addSignatureToolbarButton (set_loadSignaturesPromise None mg1) = true ∧
              has_signatureStorage (set_loadSignaturesPromise None mg1) = true).
  { clearbody mg1. destruct mg1; simpl in *. subst. by rewrite Ht. }
  destruct Q as (Q1 & Q2 & Q3 & Q4 & Q5 & Q6).
  rewrite Q1 in Rt. rewrite Q2 in Rc. rewrite Q3 in Rp. rewrite Q4 in Rs.
  rewrite Q5 in Rb. rewrite Q6 in Rst.
  split; [done|]. split; [done|]. split; [done|]. split; [done|].
  split; [done|]. split; [done|]. split; [done|]. split; [done|].
  split; [intros Hne all''; by apply loadSignatures_skips|].
  intros mg0 reload all''. apply loadSignatures_unequipped.
Qed.

(** X19. When the stored signatures change while no call of
    [loadSignatures] is waiting for its promise, the toolbar is rebuilt
    from the storage: whatever launchers it held and whatever promise an
    earlier call left in [#loadSignaturesPromise], [#signaturesChanged]
    leaves exactly the launchers of the signatures the storage answers
    with, in its order, each with its uuid and its description, and no
    promise.  A launcher is in the toolbar exactly when it is the
    launcher of a stored signature that can be decompressed and drawn,
    so running it again on the same storage gives the same toolbar. *)
Theorem storage_change_rebuilds_toolbar
    (env : Env) (decompress : string -> option Decompressed)
    (signatures : list (string * Stored)) (mg : Manager) :
  has_addSignatureToolbarButton mg = true ->
  has_signatureStorage mg = true ->
  let mg' := exec (signaturesChanged env decompress (Some signatures)) mg in
  threw (signaturesChanged env decompress (Some signatures)) mg = false ∧
  toolbar (dialog mg') = omap (launcher_of env decompress) signatures ∧
  (∀ b, b ∈ toolbar (dialog mg') ↔
        ∃ e, e ∈ signatures ∧ launcher_of env decompress e = Some b) ∧
  loadSignaturesPromise mg' = None ∧
  calls (dialog mg') = calls (dialog mg) ++ omap (drawn_of decompress) signatures ∧
  storage_calls mg' =
    storage_calls mg ++
    storage_getAll :: (decompressSignature <$> stored_data signatures) ∧
  toolbar (dialog (exec (signaturesChanged env decompress (Some signatures)) mg')) =
    toolbar (dialog mg').
Proof.
  intros Hb Hs mg'.
  destruct (signaturesChanged_fields env decompress signatures mg Hb Hs)
    as (Fthrew & Ft & Fp & Fc & Fs & Fb & Fst).
  fold mg' in Ft, Fp, Fc, Fs, Fb, Fst.
  split; [done|]. split; [done|]. split.
  { intros b. rewrite Ft. apply list_elem_of_omap. }
  split; [done|]. split; [done|]. split; [done|].
  destruct (signaturesChanged_fields env decompress signatures mg' Fb Fst)
    as (_ & -> & _). done.
Qed.

(** X20. A load that fails is not tried again by [loadSignatures]: when
    [getAll] is rejected the promise stays in [#loadSignaturesPromise],
    and every later call, reload or not, finds it there, throws when it
    awaits it and leaves the manager as it is, without asking the
    storage again.  Only [#signaturesChanged], which drops the promise,
    loads the signatures anew. *)
Theorem failed_load_is_not_retried
    (env : Env) (decompress : string -> option Decompressed) (mg : Manager) :
  has_addSignatureToolbarButton mg = true ->
  has_signatureStorage mg = true ->
  toolbar (dialog mg) = [] ->
  loadSignaturesPromise mg = None ->
  let mg1 := exec (loadSignatures env decompress false None) mg in
  mg1 = set_loadSignaturesPromise (Some load_rejected)
          (set_storage_calls (storage_calls mg ++ [storage_getAll]) mg) ∧
  (∀ reload all, loadSignatures env decompress reload all mg1 = (None, mg1)) ∧
  (∀ signatures,
     let mg2 := exec (signaturesChanged env decompress (Some signatures)) mg1 in
     threw (signaturesChanged env decompress (Some signatures)) mg1 = false ∧
     toolbar (dialog mg2) = omap (launcher_of env decompress) signatures ∧
     loadSignaturesPromise mg2 = None).
Proof.
  intros Hb Hs Ht Hp mg1.
  assert (H1 : mg1 = set_loadSignaturesPromise (Some load_rejected)
                       (set_storage_calls (storage_calls mg ++ [storage_getAll]) mg)).
  { subst mg1. destruct mg as [[] ? ? ? ?]; simpl in *; subst. by eval_manager. }
  split; [done|]. clearbody mg1. subst mg1. split.
  - intros reload all. destruct mg as [[] ? ? ? ?]; simpl in *; subst.
    destruct reload; by eval_manager.
  - intros signatures mg2. subst mg2.
    destruct (signaturesChanged_fields env decompress signatures
                (set_loadSignaturesPromise (Some load_rejected)
                   (set_storage_calls (storage_calls mg ++ [storage_getAll]) mg)))
      as (Hthrew & Ht' & Hp' & _); [by destruct mg..|].
    done.
Qed.

Lemma in_dialog_exec {A : Type} (m : M A) (mg : Manager) :
  exec (in_dialog m) mg = set_dialog (exec m (dialog mg)) mg.
Proof. unfold exec, in_dialog. by destruct (m (dialog mg)). Qed.

(** X21. A signature saved by a commit comes back from the storage as
    the launcher the commit put in the toolbar.  When [create] answers
    with a uuid and [decompressSignature] gives back the curves, the
    kind, the thickness and the size that [#add] had compressed, the
    launcher [#signaturesChanged] builds for the stored entry is the one
    [#add] appended: same uuid, same description, drawn from the same
    lines.  So if the toolbar showed the signatures stored before, the
    reload that follows the save leaves the toolbar as the commit left
    it. *)
Theorem saved_signature_is_reloaded
    (env : Env) (decompress : string -> option Decompressed) (s : State)
    (promise : option Loaded) (log : list StorageCall)
    (d : SignatureData) (uuid : string) (earlier : list (string * Stored)) :
  let mg := mkManager s true true promise log in
  let entry := (uuid, mkStored (description_value s) (compressed env d)) in
  is_Some (currentEditor s) ->
  saveCheckbox_checked s = true ->
  resolved_payload env s = Some d ->
  env_storage_create env (description_value s) (compressed env d) = Some uuid ->
  uuid ≠ "" ->
  decompress (compressed env d) =
    Some (mkDecompressed (newCurves d) (areContours d) (thickness d)
            (width d) (height d)) ->
  let mg1 := exec (in_dialog (add env)) mg in
  let mg2 := exec (signaturesChanged env decompress (Some (earlier ++ [entry]))) mg1 in
  toolbar (dialog mg1) = toolbar s ++ omap (launcher_of env decompress) [entry] ∧
  toolbar (dialog mg2) =
    omap (launcher_of env decompress) earlier ++
    omap (launcher_of env decompress) [entry] ∧
  (toolbar s = omap (launcher_of env decompress) earlier ->
   toolbar (dialog mg2) = toolbar (dialog mg1)).
Proof.
  intros mg entry Hed Hck Hpay Hcreate Hne Hdec mg1 mg2.
  assert (Hp : saveCheckbox_checked s = true -> is_Some (resolved_payload env s))
    by (intros _; by eexists).
  destruct (add_calls env s Hed Hp) as (_ & _ & Htool & _).
  assert (Hl : commit_launchers env s = omap (launcher_of env decompress) [entry]).
  { unfold commit_launchers. rewrite Hck, Hpay. cbv zeta. rewrite Hcreate.
    unfold truthy_uuid, truthy_string. rewrite bool_decide_eq_false_2 by done.
    cbn [negb omap list_omap]. unfold launcher_of, entry.
    cbn [fst snd st_signatureData st_description]. rewrite Hdec.
    cbn [outlines dec_areContours dec_thickness dec_width dec_height].
    by destruct (env_processDrawnLines env _ _ _ _ _). }
  assert (H1 : toolbar (dialog mg1) = toolbar s ++ commit_launchers env s).
  { subst mg1 mg. rewrite in_dialog_exec. cbn [dialog set_dialog].
    by rewrite <- Htool. }
  assert (Hb1 : has_addSignatureToolbarButton mg1 = true)
    by (subst mg1 mg; by rewrite in_dialog_exec).
  assert (Hs1 : has_signatureStorage mg1 = true)
    by (subst mg1 mg; by rewrite in_dialog_exec).
  destruct (signaturesChanged_fields env decompress (earlier ++ [entry]) mg1 Hb1 Hs1)
    as (_ & H2 & _).
  fold mg2 in H2. rewrite omap_app in H2.
  split; [by rewrite H1, Hl|]. split; [done|].
  intros Hsync. by rewrite H2, H1, Hl, Hsync.
Qed.

(** ** Instances of the further properties *)

(** X1 on a dialog with typed text and a description. *)
Lemma cancel_resets_dialog_witness :
  let mimeTypes := ["image/png"] in
  let payload := mkSignatureData None [] false 1 10 10 in
  let env := mkEnv (fun _ => payload) (fun _ _ _ _ => payload) (10, 10)%Q
               (fun _ _ _ _ _ => "bytes") (fun _ _ => None)
               (fun _ _ _ _ _ => None) true in
  let s := run mimeTypes (exec (open 1 2 false) initial)
             [type_edit "PDF.js"; description_edit "mine"] in
  let s' := exec (cancel env) s in
  typeInput_value s = "PDF.js" ∧
  description_value s = "mine" ∧
  closed s' ∧
  typeInput_value s' = "" ∧
  description_value s' = "" ∧
  calls_since (calls s) s' =
    [overlayManager_close; editor_remove; addEditListeners].
Proof.
  intros mimeTypes payload env s s'.
  destruct (cancel_resets_dialog mimeTypes env s
              (reachable_from_initial mimeTypes 1 2 false _))
    as (_ & Hc & Hcl & Hd & _ & _ & _ & _ & _ & _ & _ & _ & Hcalls & _).
  split; [vm_compute; reflexivity|]. split; [vm_compute; reflexivity|].
  split; [exact Hc|]. split; [exact (Hcl type_tab)|]. split; [exact Hd|].
  exact Hcalls.
Defined.

(** X3 on the same dialog. *)
Lemma destroy_skips_addEditListeners_witness :
  let mimeTypes := ["image/png"] in
  let payload := mkSignatureData None [] false 1 10 10 in
  let env := mkEnv (fun _ => payload) (fun _ _ _ _ => payload) (10, 10)%Q
               (fun _ _ _ _ _ => "bytes") (fun _ _ => None)
               (fun _ _ _ _ _ => None) false in
  let s := run mimeTypes (exec (open 1 2 false) initial)
             [type_edit "PDF.js"; description_edit "mine"] in
  let s' := exec (destroy env) s in
  calls_since (calls s) s' = [overlayManager_close] ∧
  closed s'.
Proof.
  intros mimeTypes payload env s s'.
  destruct (destroy_skips_addEditListeners mimeTypes env s
              (reachable_from_initial mimeTypes 1 2 false _))
    as (_ & Hcalls & _ & Hc & _).
  split; [exact Hcalls|exact Hc].
Defined.

(** X4 on a dialog cancelled in the image tab after two images were
    traced and a third choice was refused: the error bar, the view box
    and the path of the first tracing are still there in the next
    session. *)
Lemma reopen_starts_from_scratch_witness :
  let mimeTypes := ["image/png"] in
  let png := mkFile "signature.png" "image/png" in
  let first := mkSignatureData (Some (mkOutline "0 0 1 1" "M0 0")) [[0; 0; 1; 1]]
                 true 1 10 10 in
  let second := mkSignatureData (Some (mkOutline "0 0 2 2" "M1 1")) [[1; 1; 2; 2]]
                  true 1 20 20 in
  let env := mkEnv (fun _ => first) (fun _ _ _ _ => first) (10, 10)%Q
               (fun _ _ _ _ _ => "bytes") (fun _ _ => None)
               (fun _ _ _ _ _ => None) false in
  let s := run mimeTypes (exec (open 1 2 false) initial)
             [type_edit "PDF.js"; tab_click image_tab;
              picker_change (Some [png]) (resolved (Some 7%nat)) (Some first);
              picker_change (Some [png]) (resolved (Some 8%nat)) (Some second);
              picker_change None rejected None] in
  let s' := exec (open 3 4 true) (exec (cancel env) s) in
  imageSVG_paths s = ["M0 0"; "M1 1"] ∧
  currentTab s' = Some type_tab ∧
  typeInput_value s' = "" ∧
  saveCheckbox_checked s' = false ∧
  errorBar_hidden s' = false ∧
  imageSVG_paths s' = ["M0 0"] ∧
  imageSVG_viewBox s' = Some "0 0 2 2" ∧
  extractedSignatureData s' = Some second.
Proof.
  intros mimeTypes png first second env s s'.
  destruct (reopen_starts_from_scratch mimeTypes env s 3%nat 4%nat true
              (reachable_from_initial mimeTypes 1 2 false _))
    as (_ & Heq & Hcl & _).
  fold s' in Heq, Hcl.
  assert (Hp : imageSVG_paths s = ["M0 0"; "M1 1"]) by (vm_compute; reflexivity).
  split; [exact Hp|].
  split; [rewrite Heq; reflexivity|].
  split; [exact (Hcl type_tab)|].
  split; [rewrite Heq; reflexivity|].
  split; [rewrite Heq; vm_compute; reflexivity|].
  split; [rewrite Heq; vm_compute; reflexivity|].
  split; rewrite Heq; vm_compute; reflexivity.
Defined.


(** X6 on a dialog whose image tab was just selected. *)
Lemma undecodable_image_shows_error_witness :
  let mimeTypes := ["image/png"] in
  let s := run mimeTypes (exec (open 1 2 false) initial)
             [tab_click image_tab; picker_click] in
  let file := mkFile "scan.png" "image/png" in
  let s' := step mimeTypes s (picker_change (Some [file]) rejected None) in
  currentTab s = Some image_tab ∧
  dialog_waiting s = true ∧
  errorBar_hidden s = true ∧
  dialog_waiting s' = false ∧
  errorBar_hidden s' = false ∧
  calls_since (calls s) s' = [getFromFile file; console_error].
Proof.
  intros mimeTypes s file s'.
  assert (Hc : currentTab s = Some image_tab) by (vm_compute; reflexivity).
  assert (Hsup : supported mimeTypes (file_type file) = true)
    by (vm_compute; reflexivity).
  destruct (undecodable_image_shows_error mimeTypes s file [] rejected None
              (reachable_from_initial mimeTypes 1 2 false _) Hc)
    as (_ & _ & _ & Hdec).
  destruct (Hdec Hsup) as (Hrej & _).
  split; [exact Hc|].
  split; [vm_compute; reflexivity|]. split; [vm_compute; reflexivity|].
  split; [exact (f_equal dialog_waiting Hrej)|].
  split; [exact (f_equal errorBar_hidden Hrej)|].
  exact (eq_trans (f_equal (calls_since (calls s)) Hrej)
           (drop_app_length (calls s) _)).
Defined.

(** X7 on the same dialog, with a description entered before. *)
Lemma traced_image_becomes_capture_witness :
  let mimeTypes := ["image/png"] in
  let s := run mimeTypes (exec (open 1 2 false) initial)
             [tab_click image_tab; picker_click] in
  let file := mkFile "scan.png" "image/png" in
  let o := mkOutline "0 0 10 10" "M0 0L10 10" in
  let d := mkSignatureData (Some o) [[0; 0; 10; 10]] true 0 10 10 in
  let s' := step mimeTypes s
              (picker_change (Some [file]) (resolved (Some 7%nat)) (Some d)) in
  currentTab s = Some image_tab ∧
  imagePath s' = Some "M0 0L10 10" ∧
  controls_disabled s' false ∧
  description_value s' = "scan.png".
Proof.
  intros mimeTypes s file o d s'.
  assert (Hc : currentTab s = Some image_tab) by (vm_compute; reflexivity).
  assert (Hsup : supported mimeTypes (file_type file) = true)
    by (vm_compute; reflexivity).
  destruct (traced_image_becomes_capture mimeTypes s file [] 7%nat d o
              (reachable_from_initial mimeTypes 1 2 false _) Hc Hsup eq_refl)
    as (_ & Hp & _ & _ & _ & _ & Hctl & _ & _ & Hdesc & _).
  split; [exact Hc|]. split; [exact Hp|]. split; [exact Hctl|].
  exact (eq_trans Hdesc (eq_refl "scan.png")).
Defined.

(** X8 on the same dialog before the picker is touched. *)
Lemma drop_of_unsupported_files_keeps_waiting_witness :
  let mimeTypes := ["image/png"] in
  let s := run mimeTypes (exec (open 1 2 false) initial) [tab_click image_tab] in
  let file := mkFile "notes.txt" "text/plain" in
  let s' := step mimeTypes s (placeholder_drop (Some [file]) rejected None) in
  currentTab s = Some image_tab ∧
  dialog_waiting s = false ∧
  dialog_waiting s' = true ∧
  errorBar_hidden s' = true.
Proof.
  intros mimeTypes s file s'.
  assert (Hc : currentTab s = Some image_tab) by (vm_compute; reflexivity).
  assert (Hall : Forall (fun f => supported mimeTypes (file_type f) = false) [file]).
  { apply Forall_cons_2; [vm_compute; reflexivity|apply Forall_nil_2]. }
  destruct (drop_of_unsupported_files_keeps_waiting mimeTypes s file [] rejected None
              (reachable_from_initial mimeTypes 1 2 false _) Hc Hall)
    as (Hdrop & _).
  split; [exact Hc|]. split; [vm_compute; reflexivity|].
  split; [exact (f_equal dialog_waiting Hdrop)|].
  exact (eq_trans (f_equal errorBar_hidden Hdrop) (eq_refl true)).
Defined.

(** X9 on a tap in the draw tab just selected. *)
Lemma release_ends_stroke_witness :
  let mimeTypes := ["image/png"] in
  let s := run mimeTypes (exec (open 1 2 false) initial) [tab_click draw_tab] in
  let k := mkStroke true 1 (5, 5)%Q (100, 100)%Q [(5, 5)%Q] in
  let s' := run mimeTypes s (stroke_events k) in
  at_rest s ∧
  at_rest s' ∧
  strokeListeners s' = [] ∧
  drawPathString s' = path_M 5 5 ++ path_L 5 5.
Proof.
  intros mimeTypes s k s'.
  assert (Hrest : at_rest s) by (repeat split; vm_compute; reflexivity).
  destruct (release_ends_stroke mimeTypes s k Hrest)
    as (Hr & _ & _ & _ & _ & Htap & _).
  assert (Hpts : stroke_points k = [stroke_start k]) by (vm_compute; reflexivity).
  split; [exact Hrest|]. split; [exact Hr|].
  split; [exact (proj1 (proj2 Hr))|].
  exact (eq_trans (Htap Hpts) (eq_refl (path_M 5 5 ++ path_L 5 5))).
Defined.

(** X10 on a tap on the placeholder followed by a stroke of three
    points on the SVG. *)
Lemma drawing_holds_the_strokes_witness :
  let mimeTypes := ["image/png"] in
  let payload := mkSignatureData (Some (mkOutline "0 0 1 1" "M0 0")) [[0; 0; 1; 1]]
                   false 1 10 10 in
  let env := mkEnv (fun _ => payload) (fun _ _ _ _ => payload) (10, 10)%Q
               (fun _ _ _ _ _ => "bytes") (fun _ _ => None)
               (fun _ _ _ _ _ => None) false in
  let s := run mimeTypes (exec (open 1 2 false) initial) [tab_click draw_tab] in
  let k1 := mkStroke true 1 (5, 5)%Q (100, 100)%Q [] in
  let k2 := mkStroke false 1 (0, 0)%Q (100, 100)%Q [(1, 1); (2, 2)]%Q in
  let s' := run mimeTypes s ([k1; k2] ≫= stroke_events) in
  at_rest s ∧
  cleared draw_tab s ∧
  drawn_strokes s' = [[5; 5]; [0; 0; 1; 1; 2; 2]] ∧
  drawPathString s' =
    (path_M 5 5 ++ path_L 5 5) ++
    (path_M 0 0 ++ path_L 1 1 ++ path_C 0 0 1 1 2 2) ∧
  drawPlaceholder_hidden s' = true ∧
  ∃ c rest,
    (fun r => default [] (arrays s' !! r)) <$> dc_curves c =
      [[5; 5]; [0; 0; 1; 1; 2; 2]] ∧
    calls_since (calls s') (exec (add env) s') =
      getDrawnSignature (Some c) (arrays s') 10 10 :: rest.
Proof.
  intros mimeTypes payload env s k1 k2 s'.
  assert (Hrest : at_rest s) by (repeat split; vm_compute; reflexivity).
  assert (Hcl : cleared draw_tab s) by (repeat split; vm_compute; reflexivity).
  assert (Hks : Forall (fun k' => stroke_onPlaceholder k' = false) [k2])
    by (repeat constructor).
  destruct (drawing_holds_the_strokes mimeTypes env s k1 [k2]
              (reachable_from_initial mimeTypes 1 2 false _) Hrest Hcl eq_refl Hks)
    as (_ & Hd & Hp & Hh & c & rest & _ & _ & _ & _ & Hcurves & Hadd).
  assert (E1 : (fun k => flat (stroke_points k)) <$> [k1; k2] =
               [[5; 5]; [0; 0; 1; 1; 2; 2]]) by (vm_compute; reflexivity).
  assert (E2 : ([k1; k2] ≫= fun k => released_path (stroke_points k)) =
               (path_M 5 5 ++ path_L 5 5) ++
               (path_M 0 0 ++ path_L 1 1 ++ path_C 0 0 1 1 2 2))
    by (vm_compute; reflexivity).
  split; [exact Hrest|]. split; [exact Hcl|].
  split; [exact (eq_trans Hd E1)|]. split; [exact (eq_trans Hp E2)|].
  split; [exact Hh|].
  exists c, rest. split; [exact (eq_trans Hcurves E1)|exact Hadd].
Defined.

(** X11 on a stroke in progress with pointer 1, for pointer 2. *)
Lemma second_pointer_is_ignored_witness :
  let mimeTypes := ["image/png"] in
  let s := run mimeTypes (exec (open 1 2 false) initial)
             [tab_click draw_tab; pointerdown_on true 1 5 5 100 100] in
  currentPointerId s = Some 1 ∧
  step mimeTypes s (pointerdown_on false 2 9 9 100 100) = s ∧
  step mimeTypes s (pointerup_of 2) = s.
Proof.
  intros mimeTypes s.
  assert (Hp : currentPointerId s = Some 1) by (vm_compute; reflexivity).
  assert (Hne : 2 ≠ 1) by discriminate.
  split; [exact Hp|].
  exact (second_pointer_is_ignored mimeTypes s 1 2 false 9 9 100 100 Hp Hne).
Defined.

(** X12 on a first press with the description empty, the description
    being entered before the lookup resolves. *)
Lemma default_description_fills_only_empty_witness :
  let mimeTypes := ["image/png"] in
  let s := run mimeTypes (exec (open 1 2 false) initial) [tab_click draw_tab] in
  let s1 := step mimeTypes s (pointerdown_on true 1 5 5 100 100) in
  let s2 := step mimeTypes s1 (description_edit "mine") in
  at_rest s ∧
  calls_since (calls s) s1 = [l10n_get l10nDescription_signature] ∧
  (0 < l10n_pending s2)%nat ∧
  description_value (step mimeTypes s2 (l10n_resolved "Signature")) = "mine" ∧
  description_value (step mimeTypes s1 (l10n_resolved "Signature")) = "Signature".
Proof.
  intros mimeTypes s s1 s2.
  assert (Hrest : at_rest s) by (repeat split; vm_compute; reflexivity).
  assert (Hn1 : (0 < l10n_pending s1)%nat) by (vm_compute; lia).
  assert (Hn2 : (0 < l10n_pending s2)%nat) by (vm_compute; lia).
  destruct (default_description_fills_only_empty mimeTypes s) as (Hask & _).
  destruct (Hask Hrest true 1 5%Q 5%Q 100%Q 100%Q) as (Hcalls & _).
  destruct (default_description_fills_only_empty mimeTypes s1) as (_ & Hres1).
  destruct (default_description_fills_only_empty mimeTypes s2) as (_ & Hres2).
  destruct (Hres1 Hn1 "Signature") as (_ & Hd1 & _).
  destruct (Hres2 Hn2 "Signature") as (_ & Hd2 & _).
  split; [exact Hrest|].
  split; [exact (eq_trans Hcalls (eq_refl [l10n_get l10nDescription_signature]))|].
  split; [exact Hn2|].
  split; [exact (eq_trans Hd2 (eq_refl "mine"))|].
  exact (eq_trans Hd1 (eq_refl "Signature")).
Defined.

(** X13 on a draw tab with a drawing of one stroke. *)
Lemma thickness_follows_slider_witness :
  let mimeTypes := ["image/png"] in
  let s := run mimeTypes (exec (open 1 2 false) initial)
             [tab_click draw_tab; pointerdown_on true 1 5 5 100 100;
              pointerup_of 1] in
  let s1 := step mimeTypes s (thickness_edit "3") in
  currentTab s = Some draw_tab ∧
  clearButton_disabled s1 = false ∧
  drawThickness_value s1 = "3" ∧
  drawThickness_l10n_args s1 = Some "3" ∧
  drawCurves s1 = Some (mkDrawCurves 100 100 (raw "3") [0%nat]) ∧
  drawThickness_value (step mimeTypes s1 clear_click) = "1" ∧
  drawThickness_l10n_args (step mimeTypes s1 clear_click) = Some "3".
Proof.
  intros mimeTypes s s1.
  assert (Hc : currentTab s = Some draw_tab) by (vm_compute; reflexivity).
  assert (Hd : drawCurves s = Some (mkDrawCurves 100 100 (parseInt "1") [0%nat]))
    by (vm_compute; reflexivity).
  destruct (thickness_follows_slider mimeTypes s "3"
              (reachable_from_initial mimeTypes 1 2 false _) Hc)
    as (H1 & H2 & _ & _ & _ & Hdrawing & _).
  destruct (Hdrawing _ Hd) as (Hcurves & _ & H8 & H9).
  split; [exact Hc|]. split; [vm_compute; reflexivity|].
  split; [exact H1|]. split; [exact H2|]. split; [exact Hcurves|].
  split; [exact H8|exact H9].
Defined.

(** X16 on a dialog where the image tab was selected and an image
    refused. *)
Lemma open_dialog_is_consistent_witness :
  let mimeTypes := ["image/png"] in
  let s := run mimeTypes (exec (open 1 2 false) initial)
             [type_edit "PDF.js"; tab_click image_tab;
              picker_change None rejected None; clear_click] in
  currentTab s = Some image_tab ∧
  tabButton_selected s = Some image_tab ∧
  panels_selected s = Some image_tab ∧
  tabListeners s = Some image_tab ∧
  overlay_active s = true.
Proof.
  intros mimeTypes s.
  destruct (open_dialog_is_consistent mimeTypes s
              (reachable_from_initial mimeTypes 1 2 false _))
    as ((t & Hc & Hb & Hp & Hl) & _ & _ & Ho & _).
  assert (Ht : currentTab s = Some image_tab) by (vm_compute; reflexivity).
  assert (E : Some t = Some image_tab) by exact (eq_trans (eq_sym Hc) Ht).
  split; [exact Ht|].
  split; [exact (eq_trans Hb E)|]. split; [exact (eq_trans Hp E)|].
  split; [exact (eq_trans Hl E)|exact Ho].
Defined.

(** X18 on a storage of three signatures, of which the second cannot be
    decompressed. *)
Lemma signatures_load_in_two_calls_witness :
  let payload := mkSignatureData None [] false 1 10 10 in
  let env := mkEnv (fun _ => payload) (fun _ _ _ _ => payload) (10, 10)%Q
               (fun _ _ _ _ _ => "bytes") (fun _ _ => None)
               (fun _ _ _ _ _ => Some (mkOutline "0 0 1 1" "M0 0")) false in
  let decompress := fun sd : string =>
    if bool_decide (sd = "broken") then None
    else Some (mkDecompressed [[0; 0; 1; 1]] false 1 10 10) in
  let signatures := [("u1", mkStored "first" "a"); ("u2", mkStored "second" "broken");
                     ("u3", mkStored "third" "c")] in
  let mg := mkManager initial true true None [] in
  let mg1 := exec (loadSignatures env decompress false (Some signatures)) mg in
  let mg2 := exec (loadSignatures env decompress false None) mg1 in
  toolbar (dialog mg1) = [] ∧
  storage_calls mg1 =
    [storage_getAll; decompressSignature "a"; decompressSignature "broken";
     decompressSignature "c"] ∧
  toolbar (dialog mg2) =
    [mkToolbarButton (Some "u1") "first"; mkToolbarButton (Some "u3") "third"] ∧
  storage_calls mg2 = storage_calls mg1.
Proof.
  intros payload env decompress signatures mg mg1 mg2.
  destruct (signatures_load_in_two_calls env decompress signatures mg None
              eq_refl eq_refl eq_refl eq_refl)
    as (_ & Hd & Hc & _ & Ht & _ & _ & Hs & _).
  split; [exact (f_equal toolbar Hd)|].
  split; [exact (eq_trans Hc (eq_refl _))|].
  split; [|exact Hs].
  assert (E : omap (launcher_of env decompress) signatures =
              [mkToolbarButton (Some "u1") "first"; mkToolbarButton (Some "u3") "third"])
    by (vm_compute; reflexivity).
  exact (eq_trans Ht E).
Defined.

(** X19 on a toolbar that shows a launcher no longer in the storage. *)
Lemma storage_change_rebuilds_toolbar_witness :
  let payload := mkSignatureData None [] false 1 10 10 in
  let env := mkEnv (fun _ => payload) (fun _ _ _ _ => payload) (10, 10)%Q
               (fun _ _ _ _ _ => "bytes") (fun _ _ => None)
               (fun _ _ _ _ _ => Some (mkOutline "0 0 1 1" "M0 0")) false in
  let decompress := fun sd : string =>
    Some (mkDecompressed [[0; 0; 1; 1]] false 1 10 10) in
  let mg := mkManager (set_toolbar [mkToolbarButton (Some "gone") "old"] initial)
              true true None [] in
  let mg' := exec (signaturesChanged env decompress
                     (Some [("u1", mkStored "first" "a")])) mg in
  toolbar (dialog mg) = [mkToolbarButton (Some "gone") "old"] ∧
  toolbar (dialog mg') = [mkToolbarButton (Some "u1") "first"] ∧
  loadSignaturesPromise mg' = None.
Proof.
  intros payload env decompress mg mg'.
  destruct (storage_change_rebuilds_toolbar env decompress
              [("u1", mkStored "first" "a")] mg eq_refl eq_refl)
    as (_ & Ht & _ & Hp & _).
  split; [reflexivity|]. split; [|exact Hp].
  exact (eq_trans Ht (eq_refl [mkToolbarButton (Some "u1") "first"])).
Defined.

(** X20 on a new manager whose storage fails, then answers. *)
Lemma failed_load_is_not_retried_witness :
  let payload := mkSignatureData None [] false 1 10 10 in
  let env := mkEnv (fun _ => payload) (fun _ _ _ _ => payload) (10, 10)%Q
               (fun _ _ _ _ _ => "bytes") (fun _ _ => None)
               (fun _ _ _ _ _ => Some (mkOutline "0 0 1 1" "M0 0")) false in
  let decompress := fun sd : string =>
    Some (mkDecompressed [[0; 0; 1; 1]] false 1 10 10) in
  let signatures := [("u1", mkStored "first" "a")] in
  let mg := mkManager initial true true None [] in
  let mg1 := exec (loadSignatures env decompress false None) mg in
  loadSignaturesPromise mg1 = Some load_rejected ∧
  loadSignatures env decompress false (Some signatures) mg1 = (None, mg1) ∧
  toolbar (dialog (exec (signaturesChanged env decompress (Some signatures)) mg1)) =
    [mkToolbarButton (Some "u1") "first"].
Proof.
  intros payload env decompress signatures mg mg1.
  destruct (failed_load_is_not_retried env decompress mg
              eq_refl eq_refl eq_refl eq_refl) as (H1 & Hthrow & Hrec).
  destruct (Hrec signatures) as (_ & Ht & _).
  split; [exact (f_equal loadSignaturesPromise H1)|].
  split; [exact (Hthrow false (Some signatures))|].
  exact (eq_trans Ht (eq_refl [mkToolbarButton (Some "u1") "first"])).
Defined.

(** X21 on a dialog with typed text, saved under the uuid "u7". *)
Lemma saved_signature_is_reloaded_witness :
  let mimeTypes := ["image/png"] in
  let payload := mkSignatureData (Some (mkOutline "0 0 1 1" "M0 0")) [[0; 0; 1; 1]]
                   false 1 10 10 in
  let env := mkEnv (fun _ => payload) (fun _ _ _ _ => payload) (10, 10)%Q
               (fun _ _ _ _ _ => "bytes") (fun _ _ => Some "u7")
               (fun _ _ _ _ _ => Some (mkOutline "0 0 1 1" "M0 0")) false in
  let decompress := fun sd : string =>
    Some (mkDecompressed [[0; 0; 1; 1]] false 1 10 10) in
  let s := run mimeTypes (exec (open 1 2 false) initial) [type_edit "PDF.js"] in
  let mg1 := exec (in_dialog (add env)) (mkManager s true true None []) in
  let mg2 := exec (signaturesChanged env decompress
                     (Some ([] ++ [("u7", mkStored (description_value s)
                                            (compressed env payload))]))) mg1 in
  saveCheckbox_checked s = true ∧
  toolbar (dialog mg1) = [mkToolbarButton (Some "u7") "PDF.js"] ∧
  toolbar (dialog mg2) = toolbar (dialog mg1).
Proof.
  intros mimeTypes payload env decompress s mg1 mg2.
  assert (Hed : is_Some (currentEditor s))
    by (exists 2%nat; vm_compute; reflexivity).
  assert (Hck : saveCheckbox_checked s = true) by (vm_compute; reflexivity).
  assert (Hpay : resolved_payload env s = Some payload)
    by (vm_compute; reflexivity).
  assert (Hcr : env_storage_create env (description_value s)
                  (compressed env payload) = Some "u7") by reflexivity.
  assert (Hne : "u7" ≠ "") by discriminate.
  destruct (saved_signature_is_reloaded env decompress s None [] payload "u7" []
              Hed Hck Hpay Hcr Hne eq_refl)
    as (H1 & _ & Hsync).
  assert (E1 : toolbar s ++
               omap (launcher_of env decompress)
                 [("u7", mkStored (description_value s) (compressed env payload))] =
               [mkToolbarButton (Some "u7") "PDF.js"])
    by (vm_compute; reflexivity).
  assert (E2 : toolbar s = omap (launcher_of env decompress) [])
    by (vm_compute; reflexivity).
  split; [exact Hck|]. split; [exact (eq_trans H1 E1)|].
  exact (Hsync E2).
Defined.

End SignatureManagerSpec.

(** * Properties of the description editor *)

Module EditDescriptionDialogSpec.

Import EditDescriptionDialog.

Ltac eval_comp :=
  cbv beta iota zeta delta [
    exec bind gets modify cond when ret throw listener fst snd negb truthy
    call clearDescription_click descriptionInput_input close finish open
    update dispatch step
    set_currentEditor set_previousDescription set_uiManager
    set_description_value set_clearDescription_disabled
    set_updateButton_disabled set_signatureSVG_aria_label
    set_signatureSVG_viewBox set_signatureSVG_children set_overlay_active
    set_editor_description set_calls
    currentEditor previousDescription uiManager description_value
    clearDescription_disabled updateButton_disabled signatureSVG_aria_label
    signatureSVG_viewBox signatureSVG_children overlay_active
    editor_description calls].

Ltac sym_exec :=
  eval_comp;
  repeat (match goal with
          | |- context [match ?x with _ => _ end] => is_var x; destruct x
          | |- context [if ?c then _ else _] => destruct c eqn:?
          end; eval_comp).

Lemma edit_run_cons (s : State) (e : Event) (es : list Event) :
  run s (e :: es) = run (step s e) es.
Proof. reflexivity. Qed.

Lemma step_frame (s : State) (e : Event) : edit_frame s (step s e).
Proof. unfold edit_frame. destruct e, s; by sym_exec. Qed.

Lemma run_frame (es : list Event) (s : State) : edit_frame s (run s es).
Proof.
  revert s; induction es as [|e es IH]; intros s; [done|].
  rewrite edit_run_cons.
  destruct (IH (step s e)) as (H1 & H2 & H3 & H4 & H5 & H6 & H7).
  destruct (step_frame s e) as (? & ? & ? & ? & ? & ? & ?).
  unfold edit_frame. repeat split; congruence.
Qed.

(** [#update] on a dialog that is shown, by cases on the text. *)
Lemma update_cases (s : State) (editor : nat) (snapshot : string) :
  currentEditor s = Some editor ->
  previousDescription s = Some snapshot ->
  let s' := exec update s in
  overlay_active s' = false ∧
  (overlay_active s = true ->
   ∃ log, calls s' = calls s ++ overlayManager_close :: log) ∧
  (description_value s = snapshot ->
   s' = exec finish s ∧ editor_description s' = editor_description s) ∧
  (description_value s ≠ snapshot ->
   s' = exec finish (set_editor_description
                       (<[editor := description_value s]> (editor_description s)) s) ∧
   editor_description s' =
     <[editor := description_value s]> (editor_description s)).
Proof.
  intros Hce Hprev. destruct s; simpl in *; subst.
  sym_exec; (split; [done|]); (split; [intros; rewrite <- ?app_assoc; by eauto|]);
    apply bool_decide_eq_true_1 in Heqb || apply bool_decide_eq_false_1 in Heqb;
    (split; [intros; try done; congruence|]);
    intros; try done; congruence.
Qed.

(** C9. In the description editor, opened on [editor] and then edited by
    any sequence of events, a click on update with the text equal to the
    snapshot taken at [open] does what [#finish] does and writes to no
    editor; with any other text it first stores the text in the
    [description] of [editor], changes no other editor, and then does
    what [#finish] does.  In both cases the dialog is closed afterwards,
    through a call of [overlayManager.close]. *)
Theorem update_writes_only_on_change
    (s0 : State) (editor ui : nat) (pv : Preview) (es : list Event) :
  let s := run (exec (open editor ui pv) s0) es in
  let snapshot := editor_description s0 editor in
  previousDescription s = Some snapshot ∧
  (description_value s = snapshot ->
     exec update s = exec finish s ∧
     editor_description (exec update s) = editor_description s0) ∧
  (description_value s ≠ snapshot ->
     exec update s =
       exec finish (set_editor_description
                      (<[editor := description_value s]> (editor_description s0)) s) ∧
     editor_description (exec update s) editor = description_value s ∧
     ∀ other, other ≠ editor ->
       editor_description (exec update s) other = editor_description s0 other) ∧
  overlay_active (exec update s) = false ∧
  ∃ log, calls (exec update s) = calls s ++ overlayManager_close :: log.
Proof.
  intros s snapshot.
  destruct (run_frame es (exec (open editor ui pv) s0))
    as (Hce & Hprev & _ & _ & Hact & Hed & _).
  fold s in Hce, Hprev, Hact, Hed.
  assert (Hopen : currentEditor s = Some editor ∧
                  previousDescription s = Some snapshot ∧
                  overlay_active s = true ∧
                  editor_description s = editor_description s0).
  { rewrite Hce, Hprev, Hact, Hed. subst snapshot. by destruct s0. }
  destruct Hopen as (Hce' & Hprev' & Hact' & Hed').
  destruct (update_cases s editor snapshot Hce' Hprev')
    as (Hclosed & Hlog & Hsame & Hnew).
  rewrite Hed' in Hnew.
  split; [done|]. split; [|split; [|split]].
  - intros Heq. destruct (Hsame Heq) as [-> ->]. by rewrite Hed'.
  - intros Hne. destruct (Hnew Hne) as [Hup Hd]. split; [done|].
    rewrite Hd. split; [apply fn_lookup_insert|].
    intros other Ho. by apply fn_lookup_insert_ne.
  - done.
  - by apply Hlog.
Qed.

(** C9 on an editor described as "Hello World": once with the text
    replaced, once with the text typed again as it was. *)
Lemma update_writes_only_on_change_witness :
  let s0 := initial (fun _ => "Hello World") in
  let pv := mkPreview false "0 0 1 1" "M0 0" in
  let s := run (exec (open 3 1 pv) s0)
             [clearDescription_clicked; description_edit "Hello PDF.js World"] in
  let s2 := run (exec (open 3 1 pv) s0)
              [description_edit "Hello"; description_edit "Hello World"] in
  description_value s ≠ "Hello World" ∧
  editor_description (exec update s) 3%nat = "Hello PDF.js World" ∧
  editor_description (exec update s) 4%nat = "Hello World" ∧
  overlay_active (exec update s) = false ∧
  description_value s2 = "Hello World" ∧
  exec update s2 = exec finish s2 ∧
  editor_description (exec update s2) = editor_description s0.
Proof.
  intros s0 pv s s2.
  assert (Hne : description_value s ≠ editor_description s0 3%nat)
    by (vm_compute; discriminate).
  assert (Heq : description_value s2 = editor_description s0 3%nat)
    by (vm_compute; reflexivity).
  destruct (update_writes_only_on_change s0 3%nat 1%nat pv
              [clearDescription_clicked; description_edit "Hello PDF.js World"])
    as (_ & _ & Hnew & Hclosed & _).
  destruct (update_writes_only_on_change s0 3%nat 1%nat pv
              [description_edit "Hello"; description_edit "Hello World"])
    as (_ & Hsame & _).
  destruct (Hnew Hne) as (_ & Hd & Hother).
  destruct (Hsame Heq) as (Hfin & Hed).
  split; [exact Hne|].
  split; [exact (eq_trans Hd (eq_refl "Hello PDF.js World"))|].
  split; [exact (Hother 4%nat (fun H => Nat.neq_succ_diag_l 3 H))|].
  split; [exact Hclosed|]. split; [exact Heq|]. split; [exact Hfin|exact Hed].
Defined.

(** ** Cancelling and reopening the description editor *)

(** X24. A description editor that is not shown, once opened, edited in
    any way and cancelled, is not shown again and holds no preview: the
    path appended by [open] is the one [#close] removes.  No editor of
    the page had its description written, the target and the UI manager
    are forgotten, and the calls are [removeEditListeners],
    [getSignaturePreview], [overlayManager.open], then
    [overlayManager.close] and [addEditListeners]. *)
Theorem cancelled_edit_writes_nothing
    (s0 : State) (editor ui : nat) (pv : Preview) (es : list Event) :
  closed s0 ->
  let s := run (exec (open editor ui pv) s0) es in
  let s' := exec finish s in
  closed s' ∧
  editor_description s' = editor_description s0 ∧
  calls s' = calls s0 ++
    [removeEditListeners; getSignaturePreview editor; overlayManager_open;
     overlayManager_close; addEditListeners].
Proof.
  intros (Hce & Hui & Hch & Hov) s s'. subst s'.
  destruct (run_frame es (exec (open editor ui pv) s0))
    as (Fce & _ & Fui & Fch & Fov & Fed & Fcalls).
  fold s in Fce, Fui, Fch, Fov, Fed, Fcalls.
  assert (Hopen : currentEditor s = Some editor ∧ uiManager s = Some ui ∧
                  signatureSVG_children s =
                    [mkPreviewPath (preview_toSVGPath pv) (preview_areContours pv)] ∧
                  overlay_active s = true ∧
                  editor_description s = editor_description s0 ∧
                  calls s = calls s0 ++
                    [removeEditListeners; getSignaturePreview editor;
                     overlayManager_open]).
  { rewrite Fce, Fui, Fch, Fov, Fed, Fcalls. clear - Hce Hui Hch Hov.
    destruct s0; simpl in *; subst. sym_exec; repeat split; try done.
    all: by rewrite <- !app_assoc. }
  destruct Hopen as (Gce & Gui & Gch & Gov & Ged & Gcalls).
  clear Fce Fui Fch Fov Fed Fcalls. clearbody s. unfold closed.
  destruct s; simpl in *; subst. sym_exec.
  repeat split; try done. by rewrite <- !app_assoc.
Qed.

(** X25. A description written by update is the description the editor
    opens on next: after an update with a text that differs from the
    snapshot, opening the dialog again on the same target shows that
    text, takes it as the new snapshot and disables update, and the
    preview holds the path of this second [open] only. *)
Theorem updated_description_is_shown_again
    (s0 : State) (editor ui ui' : nat) (pv pv' : Preview) (es : list Event) :
  closed s0 ->
  let s := run (exec (open editor ui pv) s0) es in
  description_value s ≠ editor_description s0 editor ->
  let s' := exec (open editor ui' pv') (exec update s) in
  closed (exec update s) ∧
  description_value s' = description_value s ∧
  previousDescription s' = Some (description_value s) ∧
  updateButton_disabled s' = true ∧
  signatureSVG_children s' =
    [mkPreviewPath (preview_toSVGPath pv') (preview_areContours pv')] ∧
  overlay_active s' = true.
Proof.
  intros (Hce & Hui & Hch & Hov) s Hne s'. subst s'.
  destruct (run_frame es (exec (open editor ui pv) s0))
    as (Fce & Fprev & Fui & Fch & Fov & Fed & Fcalls).
  fold s in Fce, Fprev, Fui, Fch, Fov, Fed, Fcalls.
  assert (Hopen : currentEditor s = Some editor ∧ uiManager s = Some ui ∧
                  previousDescription s = Some (editor_description s0 editor) ∧
                  signatureSVG_children s =
                    [mkPreviewPath (preview_toSVGPath pv) (preview_areContours pv)] ∧
                  overlay_active s = true).
  { rewrite Fce, Fui, Fprev, Fch, Fov. clear - Hce Hui Hch Hov.
    destruct s0; simpl in *; subst. by sym_exec. }
  destruct Hopen as (Gce & Gui & Gprev & Gch & Gov).
  clear Fce Fprev Fui Fch Fov Fed Fcalls. unfold closed.
  set (d0 := editor_description s0 editor) in *. clearbody d0 s.
  destruct s; simpl in *; subst.
  sym_exec.
  { apply bool_decide_eq_true_1 in Heqb. congruence. }
  rewrite fn_lookup_insert.
  repeat split; try done. by apply bool_decide_eq_true_2.
Qed.

(** X24 on an editor described as "Hello World", the text edited
    before the dialog is cancelled. *)
Lemma cancelled_edit_writes_nothing_witness :
  let s0 := initial (fun _ => "Hello World") in
  let pv := mkPreview false "0 0 1 1" "M0 0" in
  let s := run (exec (open 3 1 pv) s0) [description_edit "Hello"] in
  closed s0 ∧
  description_value s = "Hello" ∧
  closed (exec finish s) ∧
  editor_description (exec finish s) 3%nat = "Hello World".
Proof.
  intros s0 pv s.
  assert (Hc : closed s0) by (repeat split; reflexivity).
  destruct (cancelled_edit_writes_nothing s0 3%nat 1%nat pv
              [description_edit "Hello"] Hc) as (Hc' & Hed & _).
  split; [exact Hc|]. split; [vm_compute; reflexivity|].
  split; [exact Hc'|].
  exact (f_equal (fun f => f 3%nat) Hed).
Defined.

(** X25 on the same editor, updated to "Hello PDF.js World". *)
Lemma updated_description_is_shown_again_witness :
  let s0 := initial (fun _ => "Hello World") in
  let pv := mkPreview false "0 0 1 1" "M0 0" in
  let s := run (exec (open 3 1 pv) s0) [description_edit "Hello PDF.js World"] in
  let s' := exec (open 3 1 pv) (exec update s) in
  closed s0 ∧
  description_value s ≠ editor_description s0 3%nat ∧
  description_value s' = "Hello PDF.js World" ∧
  updateButton_disabled s' = true.
Proof.
  intros s0 pv s s'.
  assert (Hc : closed s0) by (repeat split; reflexivity).
  assert (Hne : description_value s ≠ editor_description s0 3%nat)
    by (vm_compute; discriminate).
  destruct (updated_description_is_shown_again s0 3%nat 1%nat 1%nat pv pv
              [description_edit "Hello PDF.js World"] Hc Hne)
    as (_ & Hd & _ & Hu & _).
  split; [exact Hc|]. split; [exact Hne|].
  split; [exact (eq_trans Hd (eq_refl "Hello PDF.js World"))|exact Hu].
Defined.

End EditDescriptionDialogSpec.
